(* ===== verification/_CoqProject ===== *)
-Q . S2P
Prelude.v
Crypto.v
Schema.v
TableSpec.v
Http.v
Auth.v
Api.v
Pages.v
App.v
Url.v
Cookie.v
Bounds.v
Flows.v
Answers.v
Browser.v
Startup.v
CookieBrowser.v
