(* ===== verification/Prelude.v ===== *)
(** * A verification development for the catalog web application

    The repository is a Flask application ([src/vagrant/catalog/project.py])
    over a SQLAlchemy schema ([src/vagrant/catalog/database_setup.py]).
    Users authenticate through HTTP basic auth (a user name and password,
    or a signed expiring token in the user-name field) or through Google
    sign-in; logged-in users create categories and items; an item is edited
    or deleted by its owner (or, on the JSON API, by an administrator).
    Every request runs one view function, which reads the session
    [login_session] from a cookie signed with the constant
    [app.secret_key] of line 22, opens a database session, and either
    commits its changes and answers, or answers early with an error.  The
    code runs with Flask 1.x and werkzeug 1.x (it imports itsdangerous'
    [TimedJSONWebSignatureSerializer], which later releases removed), under
    [app.debug = True].

    ** How the program is modelled

    The library has one file per part of the program, in dependency order:

    - [Prelude]  (this file): the request-handler monad [EM] (a state monad
      with an early exit, the shape of a view function that can [return]
      or [abort] at any point), its notation in [catalog_scope], the hint
      database [catalog], the tactic [hsimp], and the list and truthiness
      lemmas the components share.
    - [Crypto]: the three libraries the code calls for secrets: passlib's
      [pwd_context], itsdangerous' [TimedJSONWebSignatureSerializer], and
      google-auth's [id_token.verify_oauth2_token].  Each is a type class
      that states what it promises ([PasswordContext], [TimedSerializer],
      [OAuthVerifier]).  The views are proved against the classes.  An
      executable instance of each, built on a bit-string encoding, is used
      only to run the witnesses.
    - [Schema]: [database_setup.py].  The three tables [User], [Category],
      [Item] as records; a table is the list of its rows in rowid order
      (the order SQLite scans them, which fixes what [.first()] returns);
      a fresh primary key is the largest rowid plus one (SQLite's rule for
      an [INTEGER PRIMARY KEY], so a deleted item's id is reused); [commit]
      enforces the [unique=True] columns ([unique_google_id],
      [unique_category_name], [unique_item_name]) and fails with an
      IntegrityError otherwise, while foreign keys are not enforced
      (SQLite's default).  The database invariant [db_inv] takes an owner
      policy (the class [OwnerPolicy]): [db_wf] asks every item's owner to
      be a user, [db_consistent] admits any owner id.  The [User] methods
      and the [serialize] properties are definitions of this file.
    - [TableSpec]: the abstract meaning of a table, the finite map from
      primary key to row ([to_map]), and the refinement of each table
      operation by the map operation it implements.
    - [Http]: the Flask surface: requests (method, form, JSON body, basic
      auth header, query argument, raw data, the clock, passlib's salt and
      the draws of Python's [random]), the 32-character [random_token] the
      code draws from them, responses (templates, redirects, [abort], text,
      JSON, and uncaught exceptions, [uncaught], answered 500), the
      [login_session] record with its flash list, the primitives a view
      function uses, and [preserves]: a view keeps [db_inv] and the session
      invariant for every owner policy.
    - [Auth]: the signup endpoint [new_user], the basic-auth callback
      [verify_password] and the [login_required] wrapper, [get_auth_token],
      Google sign-in [gconnect], [gdisconnect], [createUser], [getUserID].
    - [Pages]: the server-rendered views [showHome], [newItem],
      [newCategory], [showCategory], [showItem], [editItem], [deleteItem].
    - [Api]: the JSON views [apiAllCategories], [apiManageCategory],
      [apiAllItems], [apiManageItem].
    - [App]: the URL map ([Route], [allowed], [view]: route and method to
      view, wrapped in [login_required] where [project.py] is; [dispatch]:
      [HEAD] runs the view of a rule that allows [GET], Flask answers
      [OPTIONS] itself, any other method the rule does not list is a 405)
      and the server ([serve]).  The world [World] holds one database and
      the session each client presents (its cookie's content).  A request
      of client [c] runs one view on the database and on that session; the
      client then holds the session the view left, except after an
      uncaught exception, which Flask re-raises under [app.debug] before
      saving the session.  [step] and [reachable] are the runs of clients
      that present the sessions the server left them, and [run_trace] runs
      a list of requests in order.
    - [Url]: the URLs.  The [@app.route] rules as a werkzeug URL map
      ([url_map]); matching a path ([match_path], [resolve]: the view with
      its [<int:...>] values, a redirect for a missing trailing slash, a
      404); [url_for], which builds a path from an endpoint and its values
      and appends the other values as a query string; Python's [str] and
      [int] on ids ([show_int], [parse_uint]).
    - [Cookie]: Flask's cookie session.  [login_session] travels in a
      cookie signed with [app.secret_key] ([open_session],
      [save_session], a class [SessionSerializer] for itsdangerous).
      [cserve] is the deployed server, whose clients hold only their
      cookies; a simulation relates it to [App.serve] for clients that keep
      their cookies.  Since the key is in the source, a client can present
      any cookie: [cstep] and [creachable] are the runs of such clients.
    - [Bounds]: each request inserts at most one row, so rowids stay
      below the number of requests served.
    - [Flows]: the two-request Google sign-in flow.
    - [Answers]: the statuses every view answers with, and the targets of
      its redirects.
    - [Browser]: a browser in front of any server (a function from a
      state, a client, a route and a request to the next state and the
      answer).  [fetch] asks for a URL ([slash_redirect]: werkzeug 1.x's
      301 for a missing trailing slash, a 405 for a method the rule does
      not answer, and Flask's [FormDataRoutingRedirect] under debug for a
      form method), [finalize] turns a view's [redirect(url_for(...))] into
      a 302 with its [Location], and [browse] follows redirects;
      [visit_sim] carries a simulation of two servers over a visit.
    - [Startup]: the module-level code.  [database_setup.secret_key],
      [CLIENT_ID] read from the parsed [client_secrets.json] ([startup]
      gives the [App.Config] or the exception start-up raises), the
      [__main__] options ([app.debug = True] on [0.0.0.0]), and [deployed],
      the development server's answer, with the debugger's traceback page
      for an uncaught exception.
    - [CookieBrowser]: the browser of [Browser] in front of the cookie
      server of [Cookie], related to the browser in front of [App.serve].

    The views are written in the handler monad [Handler] of [Http], whose
    state [HState] is the database and the current session; a view's
    [return] of an error and an uncaught exception are both an exit of the
    monad, so every branch of the code is a branch of the definition.

    ** What the theorems show

    The claims C1 to C40 of PROJECT.json, grouped:
    - invariant (Cookie, C1): every database that clients presenting any
      cookies reach is [db_consistent]: ids increasing and positive,
      unique category names, item names and Google ids, every item's
      category present, item names non-empty.  Each view's part is a
      [*_preserves] lemma of its file, proved once for every owner policy;
    - forged sessions (Cookie, C2-C3): a client that signs a session with
      line 22's string creates items owned by no user (so the owner
      foreign key is not an invariant of the deployed server) and deletes
      any user's item, whatever start-up drew;
    - authentication and authorisation (Auth, App, Api, Pages, C4-C15):
      Google sign-in linking by e-mail; [/token/] issuing a token without
      credentials; soundness of the basic-auth callback, the token round
      trip, the rejection of expired tokens; the owner-or-admin guards of
      the API; admin rights taken from the user table whatever the cookie
      says; the login and owner guards of the pages;
    - functional behaviour and error paths of each view on every branch
      (Api, Pages, Auth, App, C16-C17, C26-C38): the answers the code
      gives, the rows a signup, a create, an edit or a cascade delete
      writes, the owner's edit form on a consistent database, and the
      400/401/500 answers of the failure cases, including the divergences
      listed in the findings of PROJECT.json;
    - bounds (Bounds, C18): after [n] requests every rowid is at most [n];
    - liveness (Flows, C19): the Google sign-in flow ends logged in,
      except in the changed-e-mail case;
    - type (Browser, C20): every answer on the wire of the deployed server
      has one of the statuses 200, 301, 302, 400, 401, 404, 405, 500;
    - termination (Browser, C21): from any URL a browser reaches a page
      after at most two redirects;
    - round trip (Url, C22): the URL [url_for] builds for a route is
      routed back to that route (a negative id gives a 404);
    - the [HEAD] method (App, C23): the API views, which test for the
      other methods only, answer it with 401 or 500;
    - deployment (Startup, C24-C25): any visitor obtains the debugger's
      traceback page with one request; start-up takes [CLIENT_ID] from the
      last [web] object's last [client_id], with a 32-character key, and
      stops with KeyError or TypeError on the other files;
    - agreement of the two front ends (App, C39-C40): the category page
      and the category API list the same items, and the item page always
      finds the item's category and shows the row the item API returns.

    ** Bounds and choices

    Time is one integer clock per request ([req_now], seconds): the two
    [datetime.now()] calls of an insert read the same instant, and
    itsdangerous compares the integer expiry with it.  The draws of
    Python's [random] are a function [req_draws] of the request, and
    passlib's salt is a string [req_rand].
    Two definitions take fuel.  [Url.digits_le], the decimal digits of an
    id, takes the number of bits of the id, which is at least the number
    of its digits ([Url.digits_le_size]).  [Browser.browse] follows at most
    [fuel] redirects, and 2 is enough from any URL (C21); the examples of
    [Browser] show a visit that needs both.  Every view is a finite
    composition of structural list functions, and [run_trace] recurses on
    its list.  The two deployment values, [database_setup.secret_key] and
    [CLIENT_ID], are the fields of [App.Config], so the theorems hold for
    any of them; [app.secret_key] is the constant of the source.
    Rowids and times are unbounded integers.  SQLite's rowids are signed
    64-bit integers.  [Bounds] shows that after [n] requests every rowid
    is at most [n], so the model stays within SQLite's range for the first
    2^63 - 2 requests.  The cookie simulation assumes non-decreasing
    request times within one [PERMANENT_SESSION_LIFETIME] (31 days) of the
    first.  [Cookie.cookie_session_expires] shows the assumption is needed:
    a session unchanged for longer is dropped by Flask.

    ** Not modelled

    Template rendering (the templates are not in the repository: a view's
    answer is the template name with its arguments), the HTTP transport,
    the network call that revokes a Google token in [gdisconnect] (the code
    ignores its answer; a network failure, which would be an uncaught
    exception, is not modelled), and the signature algorithm of the
    session cookie (HMAC in itsdangerous; [Cookie] states its laws as a
    class).  Also not modelled: the templates' [get_flashed_messages],
    which empties the flash list when a page is rendered, and of
    start-up, the reading of [client_secrets.json] and the parsing of its
    JSON text (I/O and library code: [Startup] starts from the parsed
    value), the unused constants [CLIENT_SECRETS_FILE], [SCOPES],
    [API_SERVICE_NAME] and [API_VERSION], and the content of the
    debugger's page beyond the exception it reports.  Flask re-signs the
    cookie when a view writes to the session; [Cookie.save_session]
    re-signs it when the session changed.  The two differ only for a write
    of a value the session already holds, and only in the cookie's time of
    signing.  A JSON body's values are strings (other JSON values are not
    modelled).  SQLite's behaviour past rowid 2^63-1 is out of reach by
    [Bounds].  Of werkzeug's routing: the rule weights that order the
    matching (the model takes the first matching rule, and
    [Url.find_rule_unique] shows the order is irrelevant because the rules
    are pairwise disjoint), [merge_slashes], percent-decoding of paths and
    query strings, the body of a [HEAD] answer (which the server drops;
    the model keeps the response), Flask's [/static/] rule, and non-ASCII
    digits, which Python's [\d] and [int] accept.  After a redirect the
    browser's next request keeps the clock and random draws of the request
    it follows. *)

From stdpp Require Export base list strings.
From Stdlib Require Export ZArith Lia.

Declare Scope catalog_scope.
Delimit Scope catalog_scope with catalog.
Open Scope catalog_scope.

(** ** The request-handler monad

    A view function reads and writes a state (the database and the session)
    and either continues with a value or stops with an answer ([return] of
    a response, [abort], or an exception).  [EM S R A] is that effect: a
    state monad whose result is [Ret a] or [Halt r]. *)

Inductive exit (R A : Type) : Type :=
| Ret (a : A)
| Halt (r : R).
Arguments Ret {R A} a.
Arguments Halt {R A} r.

Definition EM (S R A : Type) : Type := S -> S * exit R A.

Definition em_ret {S R A} (a : A) : EM S R A := fun s => (s, Ret a).

Definition em_bind {S R A B} (m : EM S R A) (k : A -> EM S R B) : EM S R B :=
  fun s =>
    match m s with
    | (s', Ret a) => k a s'
    | (s', Halt r) => (s', Halt r)
    end.

Definition em_halt {S R A} (r : R) : EM S R A := fun s => (s, Halt r).

Definition em_get {S R} : EM S R S := fun s => (s, Ret s).

Definition em_modify {S R} (f : S -> S) : EM S R unit := fun s => (f s, Ret tt).

(** Run a view to its answer: a halted view answers with what it halted on. *)
Definition em_run {S R} (m : EM S R R) (s : S) : S * R :=
  match m s with
  | (s', Ret r) => (s', r)
  | (s', Halt r) => (s', r)
  end.

Notation "'let*' x ':=' m 'in' k" := (em_bind m (fun x => k))
  (at level 10, x name, m at level 100, k at level 200,
   format "'[' 'let*'  x  ':='  m  'in' ']' '/' k") : catalog_scope.

Notation "m ;; k" := (em_bind m (fun _ => k))
  (at level 100, k at level 200, right associativity) : catalog_scope.

(** ** Monad laws *)

Lemma em_bind_ret_l {S R A B} (a : A) (k : A -> EM S R B) s :
  em_bind (em_ret a) k s = k a s.
Proof. reflexivity. Qed.

Lemma em_bind_ret_r {S R A} (m : EM S R A) s :
  em_bind m em_ret s = m s.
Proof. unfold em_bind. by destruct (m s) as [? []]. Qed.

Lemma em_bind_assoc {S R A B C} (m : EM S R A) (f : A -> EM S R B)
      (g : B -> EM S R C) s :
  em_bind (em_bind m f) g s = em_bind m (fun a => em_bind (f a) g) s.
Proof. unfold em_bind. by destruct (m s) as [? []]. Qed.

Lemma em_bind_halt {S R A B} (r : R) (k : A -> EM S R B) s :
  em_bind (em_halt r) k s = (s, Halt r).
Proof. reflexivity. Qed.

(** ** Python truthiness of the values the views test *)

(** [if s:] on a string: the empty string is false. *)
Definition truthy (s : string) : bool := negb (String.eqb s "").

(** [if x:] on a value that may be [None]. *)
Definition truthy_opt (o : option string) : bool :=
  match o with Some s => truthy s | None => false end.

(** [if n:] on an integer that may be [None] (a user id read from the
    session). *)
Definition truthy_Z (o : option Z) : bool :=
  match o with Some n => negb (Z.eqb n 0) | None => false end.

(** [if flag:] on a boolean that may be [None] (the session's admin flag). *)
Definition truthy_bool (o : option bool) : bool :=
  match o with Some b => b | None => false end.

(** [if row:] on a query result ([.first()] is [None] or a row). *)
Definition found {A} (o : option A) : bool :=
  match o with Some _ => true | None => false end.

Lemma truthy_spec s : truthy s = true <-> s <> "".
Proof.
  unfold truthy. rewrite negb_true_iff, <- not_true_iff_false, String.eqb_eq.
  tauto.
Qed.

Lemma truthy_opt_Some o : truthy_opt o = true -> exists s, o = Some s /\ s <> "".
Proof.
  destruct o as [s|]; simpl; [|discriminate].
  rewrite truthy_spec. eauto.
Qed.

(** ** Lists searched and filtered by a boolean test *)

Lemma find_Some_In {A} (p : A -> bool) l x :
  List.find p l = Some x -> In x l /\ p x = true.
Proof. apply find_some. Qed.

Lemma find_None_forall {A} (p : A -> bool) l :
  List.find p l = None -> forall x, In x l -> p x = false.
Proof. apply find_none. Qed.

Lemma find_ext_in {A} (p q : A -> bool) l :
  (forall x, In x l -> p x = q x) -> List.find p l = List.find q l.
Proof.
  induction l as [|a l IH]; intros H; simpl; [done|].
  rewrite (H a) by (left; done).
  destruct (q a); [done|]. apply IH. intros x Hx. apply H. by right.
Qed.

Lemma find_app {A} (p : A -> bool) l1 l2 :
  List.find p (l1 ++ l2) =
  match List.find p l1 with Some x => Some x | None => List.find p l2 end.
Proof.
  induction l1 as [|a l1 IH]; simpl; [done|]. by destruct (p a).
Qed.

Lemma find_filter_none {A} (p q : A -> bool) l :
  (forall x, p x = true -> q x = true) ->
  List.find p (List.filter (fun x => negb (q x)) l) = None.
Proof.
  intros Hpq. induction l as [|a l IH]; simpl; [done|].
  destruct (q a) eqn:Eq; simpl; [done|].
  destruct (p a) eqn:Ep; [|done]. rewrite (Hpq a Ep) in Eq. discriminate.
Qed.

Lemma Forall_filter_keep {A} (P : A -> Prop) (f : A -> bool) l :
  Forall P l -> Forall P (List.filter f l).
Proof.
  rewrite !List.Forall_forall. intros H x Hx. apply filter_In in Hx as [Hx _]. auto.
Qed.

Lemma NoDup_map_filter {A B} (g : A -> B) (f : A -> bool) l :
  NoDup (map g l) -> NoDup (map g (List.filter f l)).
Proof.
  induction l as [|a l IH]; simpl; [done|].
  rewrite !NoDup_cons. intros [Hn Hl].
  destruct (f a); simpl; [rewrite NoDup_cons; split|]; auto.
  intros Hin. apply Hn. apply list_elem_of_In in Hin. apply list_elem_of_In.
  apply in_map_iff in Hin as (x & <- & Hx). apply filter_In in Hx as [Hx _].
  by apply in_map.
Qed.

(** ** Automation *)

Create HintDb catalog discriminated.
#[export] Hint Resolve Forall_filter_keep NoDup_map_filter : catalog.
#[export] Hint Constructors Forall : catalog.

(** [hsimp] unfolds the monad's operations so that a view reduces to the
    branch its guards select. *)
Ltac hsimp :=
  repeat (unfold em_run, em_bind, em_ret, em_halt, em_get, em_modify in *;
          simpl in *).

(** [case_if] splits on the first test of an [if] or [match] in the goal,
    remembering the test in a hypothesis. *)
Ltac case_if :=
  match goal with
  | |- context [if ?b then _ else _] =>
      let E := fresh "E" in destruct b eqn:E
  | |- context [match ?o with Some _ => _ | None => _ end] =>
      let E := fresh "E" in destruct o eqn:E
  end.

Lemma find_In_Some {A} (p : A -> bool) l x :
  In x l -> p x = true -> exists y, List.find p l = Some y.
Proof.
  induction l as [|a l IH]; simpl; [done|]. intros [->|Hx] Hp.
  - rewrite Hp. eauto.
  - destruct (p a); eauto.
Qed.

Lemma find_eqb_None {A} (f : A -> string) n l :
  List.find (fun x => String.eqb (f x) n) l = None <-> n ∉ map f l.
Proof.
  rewrite list_elem_of_In. split.
  - intros Hf Hin. apply in_map_iff in Hin as (x & Hx & Hin).
    eapply find_none in Hf; [|exact Hin]. rewrite Hx, String.eqb_refl in Hf. done.
  - intros Hn. destruct (List.find _ l) as [x|] eqn:E; [|done].
    apply find_some in E as [Hin Hx]. apply String.eqb_eq in Hx.
    destruct Hn. apply in_map_iff. eauto.
Qed.

Lemma NoDup_map_snoc {A B} (f : A -> B) l x :
  NoDup (map f l) -> f x ∉ map f l -> NoDup (map f (l ++ [x])).
Proof.
  intros Hl Hx. rewrite map_app. simpl. apply NoDup_app. split; [done|].
  split; [|apply NoDup_singleton]. intros y Hy Hy'. apply list_elem_of_singleton in Hy'.
  by subst.
Qed.

(** [by_decide] proves a decidable proposition about closed values by
    evaluating its decision procedure. *)
Ltac by_decide := refine (bool_decide_unpack _ _); vm_compute; exact I.
