(* ===== verification/Crypto.v ===== *)
(** * The secret-handling libraries the schema calls

    [database_setup.py] hashes passwords with passlib's
    [custom_app_context] and issues tokens with itsdangerous'
    [TimedJSONWebSignatureSerializer]; [project.py] checks Google identity
    tokens with [google.oauth2.id_token].  None of these is code of the
    repository: each is stated here as a class of what the program relies
    on, and the definitions of the other files are proved against the class.
    An executable instance of each, built on an injective bit-string
    encoding of countable values, lets the witnesses compute. *)

From S2P Require Import Prelude.
From stdpp Require Import countable.
From Stdlib Require Import Ascii.
Local Open Scope Z_scope.
Local Open Scope catalog_scope.

(** ** An injective encoding of countable values as strings *)

Fixpoint pos_to_bits (p : positive) : string :=
  match p with
  | xH => ""
  | xO q => String "0"%char (pos_to_bits q)
  | xI q => String "1"%char (pos_to_bits q)
  end.

Fixpoint bits_to_pos (s : string) : option positive :=
  match s with
  | EmptyString => Some xH
  | String c s' =>
      if Ascii.eqb c "0"%char then xO <$> bits_to_pos s'
      else if Ascii.eqb c "1"%char then xI <$> bits_to_pos s'
      else None
  end.

Definition enc_str {A} `{Countable A} (a : A) : string := pos_to_bits (encode a).

Definition dec_str {A} `{Countable A} (s : string) : option A :=
  bits_to_pos s ≫= decode.

Lemma bits_to_pos_to_bits p : bits_to_pos (pos_to_bits p) = Some p.
Proof. induction p; simpl; rewrite ?IHp; done. Qed.

Lemma dec_enc_str {A} `{Countable A} (a : A) : dec_str (enc_str a) = Some a.
Proof. unfold dec_str, enc_str. rewrite bits_to_pos_to_bits. apply decode_encode. Qed.

Lemma enc_str_inj {A} `{Countable A} (a b : A) : enc_str a = enc_str b -> a = b.
Proof.
  intros Hab. apply (f_equal (dec_str (A:=A))) in Hab. rewrite !dec_enc_str in Hab.
  by injection Hab.
Qed.

(** ** Password hashing: passlib's [pwd_context]

    [encrypt] draws a random salt; [verify secret None] is [False] (passlib
    runs a dummy verification when there is no stored hash). *)

Class PasswordContext := {
  pwd_encrypt : string -> string -> string;   (* salt, secret -> hash *)
  pwd_verify : string -> option string -> bool;
  pwd_verify_encrypt salt p : pwd_verify p (Some (pwd_encrypt salt p)) = true;
  pwd_verify_none p : pwd_verify p None = false;
  pwd_verify_sound salt p q : pwd_verify q (Some (pwd_encrypt salt p)) = true -> q = p;
}.

(** ** Signed, time-limited tokens: itsdangerous

    [dumps key now expires_in id] signs [{"id": id}] with the header
    [exp = now + expires_in]; [loads key now token] raises [BadSignature]
    on a token it did not sign with [key] or whose [exp] is negative, and
    [SignatureExpired] when [exp < now]. *)

Inductive loads_result :=
| Loaded (id : Z)
| SignatureExpired
| BadSignature.

Definition loads_outcome (exp id now : Z) : loads_result :=
  if exp <? 0 then BadSignature
  else if exp <? now then SignatureExpired
  else Loaded id.

Class TimedSerializer := {
  ts_dumps : string -> Z -> Z -> Z -> string;   (* key, now, expires_in, id *)
  ts_loads : string -> Z -> string -> loads_result;   (* key, now, token *)
  ts_loads_dumps k iat e id now :
    ts_loads k now (ts_dumps k iat e id) = loads_outcome (iat + e) id now;
  ts_loads_other_key k k' iat e id now :
    k <> k' -> ts_loads k' now (ts_dumps k iat e id) = BadSignature;
  ts_loads_sound k now t id :
    ts_loads k now t = Loaded id ->
    exists iat e, t = ts_dumps k iat e id /\ now <= iat + e;
}.

(** ** Google identity tokens

    [verify_oauth2_token token client_id] returns the token's claims when
    its signature checks and its audience is [client_id], and raises
    [ValueError] otherwise. *)

Record IdInfo := mkIdInfo {
  idi_iss : string;
  idi_sub : string;
  idi_email : string;
  idi_name : string;
  idi_picture : string;
}.

Class OAuthVerifier := {
  verify_oauth2_token : string -> string -> option IdInfo;
}.

(** ** Executable instances *)

Definition demo_encrypt (salt p : string) : string := enc_str (salt, p).

Definition demo_verify (q : string) (h : option string) : bool :=
  match h ≫= dec_str (A:=string * string) with
  | Some (_, p) => String.eqb q p
  | None => false
  end.

#[export] Program Instance demo_pwd_context : PasswordContext :=
  {| pwd_encrypt := demo_encrypt; pwd_verify := demo_verify |}.
Next Obligation.
  intros salt p. unfold demo_verify, demo_encrypt. simpl.
  rewrite dec_enc_str. apply String.eqb_refl.
Qed.
Next Obligation. done. Qed.
Next Obligation.
  intros salt p q. unfold demo_verify, demo_encrypt. simpl.
  rewrite dec_enc_str. by rewrite String.eqb_eq.
Qed.

Definition demo_dumps (k : string) (iat e id : Z) : string := enc_str (k, iat + e, id).

Definition demo_loads (k : string) (now : Z) (t : string) : loads_result :=
  match dec_str (A:=string * Z * Z) t with
  | Some (k', exp, id) =>
      if String.eqb k' k && String.eqb (enc_str (k', exp, id)) t
      then loads_outcome exp id now
      else BadSignature
  | None => BadSignature
  end.

Lemma demo_loads_dumps k iat e id now :
  demo_loads k now (demo_dumps k iat e id) = loads_outcome (iat + e) id now.
Proof.
  unfold demo_loads, demo_dumps. rewrite dec_enc_str, !String.eqb_refl. done.
Qed.

Lemma demo_loads_other_key k k' iat e id now :
  k <> k' -> demo_loads k' now (demo_dumps k iat e id) = BadSignature.
Proof.
  intros Hk. unfold demo_loads, demo_dumps. rewrite dec_enc_str.
  destruct (String.eqb k k') eqn:E; [apply String.eqb_eq in E; done|done].
Qed.

Lemma demo_loads_sound k now t id :
  demo_loads k now t = Loaded id ->
  exists iat e, t = demo_dumps k iat e id /\ now <= iat + e.
Proof.
  unfold demo_loads, loads_outcome.
  destruct (dec_str t) as [[[k' exp] id']|] eqn:Ed; [|discriminate].
  destruct (String.eqb k' k) eqn:Ek; simpl; [|discriminate].
  destruct (String.eqb (enc_str (k', exp, id')) t) eqn:Et; [|discriminate].
  apply String.eqb_eq in Ek, Et. subst.
  destruct (exp <? 0) eqn:E1; [discriminate|].
  destruct (exp <? now) eqn:E2; [discriminate|].
  intros [= <-]. exists exp, 0. unfold demo_dumps. rewrite Z.add_0_r.
  split; [done|]. apply Z.ltb_ge in E2. done.
Qed.

#[export] Instance demo_serializer : TimedSerializer :=
  {| ts_dumps := demo_dumps; ts_loads := demo_loads;
     ts_loads_dumps := demo_loads_dumps;
     ts_loads_other_key := demo_loads_other_key;
     ts_loads_sound := demo_loads_sound |}.

(** A Google token of the executable instance carries its audience and
    claims, encoded. *)
Definition demo_google_token (aud : string) (i : IdInfo) : string :=
  enc_str (aud, (idi_iss i, idi_sub i, idi_email i, idi_name i, idi_picture i)).

#[export] Instance demo_oauth : OAuthVerifier := {|
  verify_oauth2_token t client :=
    match dec_str (A:=string * (string * string * string * string * string)) t with
    | Some (aud, (iss, sub, email, name, pic)) =>
        if String.eqb aud client then Some (mkIdInfo iss sub email name pic)
        else None
    | None => None
    end |}.
