(* ===== verification/Schema.v ===== *)
(** * The database schema: [database_setup.py]

    The tables [user], [category] and [item] as records, a table as the list
    of its rows in rowid order, the SQL operations the views issue through
    the ORM ([filter_by(...).first()], [.all()], [.delete()], an [INSERT]
    with a fresh rowid, an [UPDATE] of one row), the unique constraints the
    database enforces at commit, the JSON [serialize] properties and the
    [User] methods on passwords and tokens.  The table invariant ([ids_ok])
    and the database invariant ([db_inv], relative to an [OwnerPolicy]:
    [db_wf] when owners are users, [db_consistent] for any owner id) are
    stated here, with the lemmas that every table operation keeps them. *)

From S2P Require Import Prelude Crypto.
From Stdlib Require Import Sorting.Sorted.
From stdpp Require Import sorting.
Local Open Scope Z_scope.
Local Open Scope catalog_scope.

Lemma StronglySorted_lt_NoDup (l : list Z) : StronglySorted Z.lt l -> NoDup l.
Proof.
  induction 1 as [|x l Hs IH Hx]; constructor; [|done].
  rewrite list_elem_of_In. intros Hin. rewrite List.Forall_forall in Hx.
  specialize (Hx x Hin). lia.
Qed.

(** ** Rows *)

(** [class User(Base)]; [admin] has [default=False]. *)
Record User := mkUser {
  user_id : Z;
  user_name : string;
  user_email : string;
  user_picture : option string;
  user_google_id : option string;
  user_password_hash : option string;
  user_admin : bool;
}.

(** [class Category(Base)] *)
Record Category := mkCategory {
  category_id : Z;
  category_name : string;
}.

(** [class Item(Base)]; every insert of the code sets [category_id] and
    [user_id], so they are integers here. *)
Record Item := mkItem {
  item_id : Z;
  item_name : string;
  item_description : string;
  item_category_id : Z;
  item_creation_date : Z;
  item_last_edited : Z;
  item_user_id : Z;
}.

(** The database: the three tables, each in rowid order. *)
Record Db := mkDb {
  db_users : list User;
  db_categories : list Category;
  db_items : list Item;
}.

Definition empty_db : Db := mkDb [] [] [].

Definition with_users (db : Db) (us : list User) : Db :=
  mkDb us (db_categories db) (db_items db).
Definition with_categories (db : Db) (cs : list Category) : Db :=
  mkDb (db_users db) cs (db_items db).
Definition with_items (db : Db) (its : list Item) : Db :=
  mkDb (db_users db) (db_categories db) its.

(** Assignments to an item's columns ([itemData.name = ...], ...). *)
Definition item_set_name (n : string) (it : Item) : Item :=
  mkItem (item_id it) n (item_description it) (item_category_id it)
         (item_creation_date it) (item_last_edited it) (item_user_id it).
Definition item_set_description (d : string) (it : Item) : Item :=
  mkItem (item_id it) (item_name it) d (item_category_id it)
         (item_creation_date it) (item_last_edited it) (item_user_id it).
Definition item_set_category_id (c : Z) (it : Item) : Item :=
  mkItem (item_id it) (item_name it) (item_description it) c
         (item_creation_date it) (item_last_edited it) (item_user_id it).
Definition item_set_last_edited (t : Z) (it : Item) : Item :=
  mkItem (item_id it) (item_name it) (item_description it) (item_category_id it)
         (item_creation_date it) t (item_user_id it).

(** ** Table operations, for any row type with an integer primary key *)

Section Table.
Context {R : Type} (rid : R -> Z).

Definition max_rowid (t : list R) : Z := fold_right (fun r m => Z.max (rid r) m) 0 t.

(** SQLite gives a new row of an [INTEGER PRIMARY KEY] table the largest
    rowid in use plus one (1 in an empty table). *)
Definition next_rowid (t : list R) : Z := max_rowid t + 1.

(** [session.add(row)] then [commit]: the row is appended with its new
    rowid. *)
Definition tbl_insert (mk : Z -> R) (t : list R) : list R := t ++ [mk (next_rowid t)].

(** [query(T).filter_by(...).first()]: the first row in rowid order. *)
Definition tbl_first (p : R -> bool) (t : list R) : option R := List.find p t.

(** [query(T).filter_by(id=i).first()] *)
Definition tbl_get (i : Z) (t : list R) : option R := tbl_first (fun r => rid r =? i) t.

(** [query(T).filter_by(...).delete()] *)
Definition tbl_delete (p : R -> bool) (t : list R) : list R :=
  List.filter (fun r => negb (p r)) t.

(** An [UPDATE] of the row with primary key [i]. *)
Definition tbl_update (i : Z) (f : R -> R) (t : list R) : list R :=
  map (fun r => if rid r =? i then f r else r) t.

(** Whether a row with primary key [i] exists. *)
Definition has_id (i : Z) (t : list R) : bool := existsb (fun r => rid r =? i) t.

(** Rowids are positive and strictly increasing along the table. *)
Definition ids_ok (t : list R) : Prop :=
  StronglySorted Z.lt (map rid t) /\ Forall (fun r => 0 < rid r) t.

Lemma max_rowid_ge t r : In r t -> rid r <= max_rowid t.
Proof.
  induction t as [|a t IH]; simpl; [done|].
  intros [->|Hr]; [lia|]. specialize (IH Hr). lia.
Qed.

Lemma max_rowid_nonneg t : 0 <= max_rowid t.
Proof. induction t; simpl; lia. Qed.

Lemma next_rowid_fresh t : has_id (next_rowid t) t = false.
Proof.
  unfold has_id. apply not_true_iff_false. rewrite existsb_exists.
  intros (r & Hr & Heq). apply Z.eqb_eq in Heq.
  pose proof (max_rowid_ge t r Hr). unfold next_rowid in Heq. lia.
Qed.

Lemma ids_ok_insert mk t :
  rid (mk (next_rowid t)) = next_rowid t -> ids_ok t -> ids_ok (tbl_insert mk t).
Proof.
  intros Hmk [Hs Hp]. unfold tbl_insert. split.
  - rewrite map_app. apply StronglySorted_app_2; [|done|repeat constructor].
    intros x1 x2 Hx1 Hx2. apply list_elem_of_In in Hx1, Hx2.
    simpl in Hx2. destruct Hx2 as [<-|[]].
    apply in_map_iff in Hx1 as (r & <- & Hr). rewrite Hmk.
    pose proof (max_rowid_ge t r Hr). unfold next_rowid. lia.
  - apply Forall_app. split; [done|]. repeat constructor.
    rewrite Hmk. pose proof (max_rowid_nonneg t). unfold next_rowid. lia.
Qed.

Lemma StronglySorted_map_filter (f : R -> bool) t :
  StronglySorted Z.lt (map rid t) -> StronglySorted Z.lt (map rid (List.filter f t)).
Proof.
  induction t as [|a t IH]; simpl; [done|]. intros Hs.
  apply StronglySorted_inv in Hs as [Hs Ha].
  destruct (f a); simpl; [|auto]. constructor; [auto|].
  apply List.Forall_forall. intros x Hx. apply in_map_iff in Hx as (r & <- & Hr).
  apply filter_In in Hr as [Hr _]. rewrite List.Forall_forall in Ha.
  apply Ha. by apply in_map.
Qed.

Lemma ids_ok_delete p t : ids_ok t -> ids_ok (tbl_delete p t).
Proof.
  intros [Hs Hp]. split; [by apply StronglySorted_map_filter|].
  by apply Forall_filter_keep.
Qed.

Lemma map_rid_update i f t :
  (forall r, rid r = i -> rid (f r) = rid r) -> map rid (tbl_update i f t) = map rid t.
Proof.
  intros Hf. induction t as [|a t IH]; simpl; [done|].
  rewrite IH. destruct (Z.eqb_spec (rid a) i); [by rewrite Hf|done].
Qed.

Lemma ids_ok_update i f t :
  (forall r, rid r = i -> rid (f r) = rid r) -> ids_ok t -> ids_ok (tbl_update i f t).
Proof.
  intros Hf [Hs Hp]. split; [by rewrite map_rid_update|].
  unfold tbl_update. apply List.Forall_map. eapply List.Forall_impl; [|exact Hp].
  intros r Hr. simpl. destruct (Z.eqb_spec (rid r) i); [by rewrite Hf|done].
Qed.

Lemma tbl_get_Some i t r : tbl_get i t = Some r -> In r t /\ rid r = i.
Proof.
  unfold tbl_get, tbl_first. intros H. apply find_some in H as [Hr Hi].
  by apply Z.eqb_eq in Hi.
Qed.

Lemma has_id_spec i t : has_id i t = true <-> exists r, In r t /\ rid r = i.
Proof.
  unfold has_id. rewrite existsb_exists.
  split; intros (r & Hr & Hi); exists r; [rewrite <- Z.eqb_eq|rewrite Z.eqb_eq]; done.
Qed.

Lemma has_id_tbl_get i t : has_id i t = true <-> is_Some (tbl_get i t).
Proof.
  rewrite has_id_spec. split.
  - intros (r & Hr & Hi). unfold tbl_get, tbl_first.
    destruct (List.find _ t) eqn:E; [done|].
    eapply find_none in E; [|exact Hr]. apply Z.eqb_neq in E. done.
  - intros [r Hr]. apply tbl_get_Some in Hr. eauto.
Qed.

(** In a table with distinct ids, the row a lookup finds is the one with
    that id. *)
Lemma tbl_get_In i t r :
  ids_ok t -> In r t -> rid r = i -> tbl_get i t = Some r.
Proof.
  intros [Hs _]. revert Hs. unfold tbl_get, tbl_first.
  induction t as [|a t IH]; simpl; [done|]. intros Hs Hr Hi.
  apply StronglySorted_inv in Hs as [Hs Ha].
  destruct (rid a =? i) eqn:E.
  - apply Z.eqb_eq in E. destruct Hr as [->|Hr]; [done|].
    rewrite List.Forall_forall in Ha. specialize (Ha (rid r) (in_map _ _ _ Hr)). lia.
  - destruct Hr as [->|Hr]; [apply Z.eqb_neq in E; done|auto].
Qed.

Lemma has_id_insert mk t i :
  has_id i (tbl_insert mk t) = has_id i t || (rid (mk (next_rowid t)) =? i).
Proof. unfold has_id, tbl_insert. rewrite existsb_app. simpl. by rewrite orb_false_r. Qed.

Lemma has_id_update i f t j :
  (forall r, rid r = i -> rid (f r) = rid r) -> has_id j (tbl_update i f t) = has_id j t.
Proof.
  intros Hf. unfold has_id, tbl_update. induction t as [|r t IH]; simpl; [done|].
  rewrite IH. destruct (Z.eqb_spec (rid r) i); [by rewrite Hf|done].
Qed.
End Table.

#[export] Hint Resolve ids_ok_delete ids_ok_update : catalog.

(** ** Constraints and the database invariant *)

(** The [unique=True] columns.  [user.google_id] is unique where it is
    not NULL (SQLite lets NULLs repeat). *)
Definition unique_google_id (db : Db) : bool := bool_decide (NoDup (omap user_google_id (db_users db))).
Definition unique_category_name (db : Db) : bool := bool_decide (NoDup (map category_name (db_categories db))).
Definition unique_item_name (db : Db) : bool := bool_decide (NoDup (map item_name (db_items db))).

(** SQLite checks the unique columns when the transaction commits; it
    does not check foreign keys. *)
Definition integrity_ok (db : Db) : bool :=
  unique_category_name db && unique_item_name db && unique_google_id db.

(** Which owner ids an item row may carry, given the users: the code
    writes the id of [login_session["userId"]] into [item.user_id] and the
    database checks no foreign key.  A policy is kept by a new user row and
    admits every user's id. *)
Class OwnerPolicy (owner_ok : list User -> Z -> Prop) := {
  owner_ok_insert us mk u : owner_ok us u -> owner_ok (tbl_insert user_id mk us) u;
  owner_ok_user us v : In v us -> owner_ok us (user_id v);
}.

(** The invariant of the database, relative to an owner policy: ids in
    rowid order, the unique constraints, every item's category present
    (the foreign key the database leaves to the code), every item's owner
    admitted by the policy, and item names non-empty. *)
Record db_inv (owner_ok : list User -> Z -> Prop) (db : Db) : Prop := {
  wf_users : ids_ok user_id (db_users db);
  wf_categories : ids_ok category_id (db_categories db);
  wf_items : ids_ok item_id (db_items db);
  wf_integrity : integrity_ok db = true;
  wf_item_category :
    Forall (fun it => has_id category_id (item_category_id it) (db_categories db) = true)
           (db_items db);
  wf_item_owner : Forall (fun it => owner_ok (db_users db) (item_user_id it)) (db_items db);
  wf_item_name : Forall (fun it => item_name it <> "") (db_items db);
}.
Arguments wf_users {_} _ _.
Arguments wf_categories {_} _ _.
Arguments wf_items {_} _ _.
Arguments wf_integrity {_} _ _.
Arguments wf_item_category {_} _ _.
Arguments wf_item_owner {_} _ _.
Arguments wf_item_name {_} _ _.

(** The owner is a user of the database: the invariant of runs in which
    every session names a user. *)
Definition user_present (us : list User) (u : Z) : Prop := has_id user_id u us = true.

(** Any owner: the invariant of runs in which a client presents any
    session it signed itself. *)
Definition any_owner (us : list User) (u : Z) : Prop := True.

Abbreviation db_wf := (db_inv user_present).
Abbreviation db_consistent := (db_inv any_owner).

#[export] Instance user_present_policy : OwnerPolicy user_present.
Proof.
  split; unfold user_present.
  - intros us mk u Hu. by rewrite has_id_insert, Hu.
  - intros us v Hv. apply has_id_spec. eauto.
Qed.

#[export] Instance any_owner_policy : OwnerPolicy any_owner.
Proof. by split. Qed.

(** Owners that are users are in particular owners. *)
Lemma db_wf_consistent db : db_wf db -> db_consistent db.
Proof. intros []. split; auto. eapply List.Forall_impl; [|done]. done. Qed.

Lemma integrity_ok_spec db :
  integrity_ok db = true <->
  NoDup (map category_name (db_categories db)) /\
  NoDup (map item_name (db_items db)) /\
  NoDup (omap user_google_id (db_users db)).
Proof.
  unfold integrity_ok, unique_category_name, unique_item_name, unique_google_id.
  rewrite !andb_true_iff, !bool_decide_eq_true. tauto.
Qed.

Lemma empty_db_wf {owner_ok} : db_inv owner_ok empty_db.
Proof.
  split; simpl; try (split; constructor); try constructor; done.
Qed.

(** ** The JSON the API returns *)

#[warnings="-register-all"]
Inductive JVal :=
| JNull
| JBool (b : bool)
| JNum (n : Z)
| JStr (s : string)
| JDate (t : Z)
| JList (l : list JVal)
| JObj (fields : list (string * JVal)).

(** [Category.serialize] *)
Definition category_serialize (c : Category) : JVal :=
  JObj [("name", JStr (category_name c)); ("id", JNum (category_id c))].

(** [Item.serialize] *)
Definition item_serialize (i : Item) : JVal :=
  JObj [("name", JStr (item_name i));
        ("description", JStr (item_description i));
        ("id", JNum (item_id i));
        ("category_id", JNum (item_category_id i));
        ("creation_date", JDate (item_creation_date i));
        ("last_edited", JDate (item_last_edited i))].

(** ** The [User] methods *)

Section UserMethods.
Context `{PasswordContext} `{TimedSerializer}.

(** [User.hash_password]: passlib draws the salt. *)
Definition User_hash_password (salt password : string) (u : User) : User :=
  {| user_id := user_id u; user_name := user_name u; user_email := user_email u;
     user_picture := user_picture u; user_google_id := user_google_id u;
     user_password_hash := Some (pwd_encrypt salt password);
     user_admin := user_admin u |}.

(** [User.verify_password] *)
Definition User_verify_password (u : User) (password : string) : bool :=
  pwd_verify password (user_password_hash u).

(** [User.generate_auth_token(expiration)], signed with the module's
    [secret_key] at time [now]; callers pass the default 600. *)
Definition User_generate_auth_token (secret_key : string) (now : Z) (u : User)
           (expiration : Z) : string :=
  ts_dumps secret_key now expiration (user_id u).

(** [User.verify_auth_token]: both exceptions give [None]. *)
Definition User_verify_auth_token (secret_key : string) (now : Z) (token : string)
  : option Z :=
  match ts_loads secret_key now token with
  | Loaded id => Some id
  | SignatureExpired => None
  | BadSignature => None
  end.

Lemma verify_generate_fresh key iat e now u :
  0 <= iat + e -> now <= iat + e ->
  User_verify_auth_token key now (User_generate_auth_token key iat u e) = Some (user_id u).
Proof.
  intros H1 H2. unfold User_verify_auth_token, User_generate_auth_token.
  rewrite ts_loads_dumps. unfold loads_outcome.
  destruct (Z.ltb_spec (iat + e) 0); [lia|].
  destruct (Z.ltb_spec (iat + e) now); [lia|done].
Qed.

Lemma verify_generate_expired key iat e now u :
  iat + e < now ->
  User_verify_auth_token key now (User_generate_auth_token key iat u e) = None.
Proof.
  intros H1. unfold User_verify_auth_token, User_generate_auth_token.
  rewrite ts_loads_dumps. unfold loads_outcome.
  destruct (Z.ltb_spec (iat + e) 0); [done|].
  destruct (Z.ltb_spec (iat + e) now); [done|lia].
Qed.

Lemma verify_auth_token_sound key now t id :
  User_verify_auth_token key now t = Some id ->
  exists iat e, t = ts_dumps key iat e id /\ now <= iat + e.
Proof.
  unfold User_verify_auth_token. destruct (ts_loads key now t) eqn:E; try discriminate.
  intros [= <-]. by apply ts_loads_sound.
Qed.
End UserMethods.

(** ** Rows updated in place *)

Section Update.
Context {R : Type} (rid : R -> Z).

Lemma tbl_update_absent i g t :
  (forall r, In r t -> rid r <> i) -> tbl_update rid i g t = t.
Proof.
  induction t as [|a t IH]; simpl; intros Ha; [done|].
  rewrite IH by auto. destruct (Z.eqb_spec (rid a) i); [|done].
  exfalso. by apply (Ha a); [left|].
Qed.

Lemma Forall_update (P : R -> Prop) i g t :
  Forall P t -> (forall r, In r t -> rid r = i -> P (g r)) ->
  Forall P (tbl_update rid i g t).
Proof.
  intros HP Hg. unfold tbl_update. apply List.Forall_map.
  rewrite List.Forall_forall in HP |- *. intros r Hr.
  destruct (Z.eqb_spec (rid r) i); auto.
Qed.

Lemma In_update i g t x :
  In x (tbl_update rid i g t) -> In x t \/ exists r, In r t /\ rid r = i /\ x = g r.
Proof.
  unfold tbl_update. intros Hx. apply in_map_iff in Hx as (r & <- & Hr).
  destruct (Z.eqb_spec (rid r) i); eauto.
Qed.

(** Updating the row with id [i], in a table with distinct ids, keeps a
    column unique when the new value is the old one or is unused. *)
Lemma NoDup_map_update {B} (f : R -> B) i g t :
  NoDup (map rid t) -> NoDup (map f t) ->
  (forall r, In r t -> rid r = i -> f (g r) = f r \/ f (g r) ∉ map f t) ->
  NoDup (map f (tbl_update rid i g t)).
Proof.
  unfold tbl_update. induction t as [|a t IH]; simpl; [done|].
  rewrite !NoDup_cons. intros [Hna Hid] [Hfa Hf] Hg.
  assert (Hg' : forall r, In r t -> rid r = i -> f (g r) = f r \/ f (g r) ∉ map f t).
  { intros r Hr Hi. destruct (Hg r (or_intror Hr) Hi) as [?|Hn]; [by left|right].
    intros Hin. apply Hn. simpl. by apply list_elem_of_further. }
  destruct (Z.eqb_spec (rid a) i) as [Ha|Ha]; simpl.
  - fold (tbl_update rid i g t). rewrite tbl_update_absent; [split; [|done]|].
    + destruct (Hg a (or_introl eq_refl) Ha) as [->|Hn]; [done|].
      intros Hin. apply Hn. by apply list_elem_of_further.
    + intros r Hr Hi. apply Hna. apply list_elem_of_In, in_map_iff. subst. eauto.
  - fold (tbl_update rid i g t). split; [|by apply IH].
    intros Hin. apply list_elem_of_In, in_map_iff in Hin as (x & Hx & Hin).
    apply In_update in Hin as [Hin|(r & Hr & Hi & ->)].
    + apply Hfa, list_elem_of_In, in_map_iff. eauto.
    + destruct (Hg r (or_intror Hr) Hi) as [Heq|Hn].
      * apply Hfa, list_elem_of_In, in_map_iff. exists r. by rewrite <- Heq, Hx.
      * apply Hn. rewrite Hx. apply list_elem_of_here.
Qed.
End Update.

Lemma has_id_delete {R} (rid : R -> Z) i j t :
  i <> j -> has_id rid j (tbl_delete (fun r => rid r =? i) t) = has_id rid j t.
Proof.
  intros Hij. unfold has_id, tbl_delete. induction t as [|a t IH]; simpl; [done|].
  destruct (Z.eqb_spec (rid a) i) as [Ha|Ha]; simpl; rewrite IH; [|done].
  destruct (Z.eqb_spec (rid a) j); [lia|done].
Qed.

(** ** The unique constraints under each kind of write *)

Lemma integrity_insert_category db mk :
  integrity_ok db = true ->
  category_name (mk (next_rowid category_id (db_categories db))) ∉
    map category_name (db_categories db) ->
  integrity_ok (with_categories db (tbl_insert category_id mk (db_categories db))) = true.
Proof.
  rewrite !integrity_ok_spec. intros (H1 & H2 & H3) Hn. simpl.
  split; [by apply NoDup_map_snoc|done].
Qed.

Lemma integrity_insert_item db mk :
  integrity_ok db = true ->
  item_name (mk (next_rowid item_id (db_items db))) ∉ map item_name (db_items db) ->
  integrity_ok (with_items db (tbl_insert item_id mk (db_items db))) = true.
Proof.
  rewrite !integrity_ok_spec. intros (H1 & H2 & H3) Hn. simpl.
  split; [done|split; [by apply NoDup_map_snoc|done]].
Qed.

Lemma integrity_insert_user db mk :
  integrity_ok db = true ->
  user_google_id (mk (next_rowid user_id (db_users db))) = None ->
  integrity_ok (with_users db (tbl_insert user_id mk (db_users db))) = true.
Proof.
  rewrite !integrity_ok_spec. intros (H1 & H2 & H3) Hg. simpl.
  unfold tbl_insert. rewrite omap_app. simpl. rewrite Hg. simpl. by rewrite app_nil_r.
Qed.

Lemma integrity_update_item db i it :
  integrity_ok db = true -> ids_ok item_id (db_items db) ->
  (forall r, In r (db_items db) -> item_id r = i ->
     item_name it = item_name r \/ item_name it ∉ map item_name (db_items db)) ->
  integrity_ok (with_items db (tbl_update item_id i (fun _ => it) (db_items db))) = true.
Proof.
  rewrite !integrity_ok_spec. intros (H1 & H2 & H3) [Hs _] Hn. simpl.
  split; [done|split; [|done]]. apply NoDup_map_update; auto.
  by apply StronglySorted_lt_NoDup.
Qed.

Lemma integrity_delete db pc pi :
  integrity_ok db = true ->
  integrity_ok (mkDb (db_users db) (tbl_delete pc (db_categories db))
                     (tbl_delete pi (db_items db))) = true.
Proof.
  rewrite !integrity_ok_spec. intros (H1 & H2 & H3). simpl. unfold tbl_delete.
  auto using NoDup_map_filter.
Qed.

(** ** The invariant under each kind of write *)

Section WfWrites.
Context `{Hpol : OwnerPolicy owner_ok} (db : Db) (Hwf : db_inv owner_ok db).

Lemma wf_insert_category mk :
  category_id (mk (next_rowid category_id (db_categories db))) =
    next_rowid category_id (db_categories db) ->
  integrity_ok (with_categories db (tbl_insert category_id mk (db_categories db))) = true ->
  db_inv owner_ok (with_categories db (tbl_insert category_id mk (db_categories db))).
Proof.
  destruct Hwf. intros Hid Hi. split; simpl; auto using ids_ok_insert.
  eapply List.Forall_impl; [|exact wf_item_category0].
  intros it Hit. by rewrite has_id_insert, Hit.
Qed.

Lemma wf_insert_user mk :
  user_id (mk (next_rowid user_id (db_users db))) = next_rowid user_id (db_users db) ->
  integrity_ok (with_users db (tbl_insert user_id mk (db_users db))) = true ->
  db_inv owner_ok (with_users db (tbl_insert user_id mk (db_users db))).
Proof.
  destruct Hwf. intros Hid Hi. split; simpl; auto using ids_ok_insert.
  eapply List.Forall_impl; [|exact wf_item_owner0]. intros it. apply owner_ok_insert.
Qed.

(** What a written item row must satisfy. *)
Definition item_row_ok (it : Item) : Prop :=
  has_id category_id (item_category_id it) (db_categories db) = true /\
  owner_ok (db_users db) (item_user_id it) /\
  item_name it <> "".

Lemma wf_insert_item mk :
  item_id (mk (next_rowid item_id (db_items db))) = next_rowid item_id (db_items db) ->
  item_row_ok (mk (next_rowid item_id (db_items db))) ->
  integrity_ok (with_items db (tbl_insert item_id mk (db_items db))) = true ->
  db_inv owner_ok (with_items db (tbl_insert item_id mk (db_items db))).
Proof.
  destruct Hwf. intros Hid (Hc & Hu & Hn) Hi.
  split; simpl; auto using ids_ok_insert;
    unfold tbl_insert; apply List.Forall_app; auto.
Qed.

Lemma wf_update_item i it :
  item_id it = i -> item_row_ok it ->
  integrity_ok (with_items db (tbl_update item_id i (fun _ => it) (db_items db))) = true ->
  db_inv owner_ok (with_items db (tbl_update item_id i (fun _ => it) (db_items db))).
Proof.
  destruct Hwf. intros Hid (Hc & Hu & Hn) Hi.
  split; simpl; try done.
  - apply ids_ok_update; [|done]. intros r Hr. congruence.
  - by apply Forall_update.
  - by apply Forall_update.
  - by apply Forall_update.
Qed.

Lemma wf_delete_items p : db_inv owner_ok (with_items db (tbl_delete p (db_items db))).
Proof.
  destruct Hwf. split; simpl; auto using ids_ok_delete; unfold tbl_delete;
    auto using Forall_filter_keep.
  pose proof (integrity_delete db (fun _ => false) p wf_integrity0) as Hi.
  unfold tbl_delete in Hi. simpl in Hi. by rewrite filter_true in Hi.
Qed.

Lemma wf_clear_items : db_inv owner_ok (with_items db []).
Proof.
  pose proof (wf_delete_items (fun _ => true)) as H. unfold tbl_delete in H.
  by rewrite filter_false in H.
Qed.

(** Deleting a category with the items that reference it. *)
Lemma wf_delete_category cid :
  db_inv owner_ok (mkDb (db_users db) (tbl_delete (fun c => category_id c =? cid) (db_categories db))
              (tbl_delete (fun it => item_category_id it =? cid) (db_items db))).
Proof.
  destruct Hwf. split; simpl; auto using ids_ok_delete, integrity_delete;
    unfold tbl_delete; auto using Forall_filter_keep.
  rewrite List.Forall_forall in wf_item_category0 |- *. intros it Hit.
  apply filter_In in Hit as [Hit Hc]. fold (tbl_delete (fun c => category_id c =? cid)
                                                        (db_categories db)).
  rewrite has_id_delete; [auto|]. apply negb_true_iff, Z.eqb_neq in Hc. done.
Qed.

Lemma wf_clear_catalog : db_inv owner_ok (mkDb (db_users db) [] []).
Proof.
  destruct Hwf. split; simpl; try done; try (by split; constructor); try by constructor.
  apply integrity_ok_spec. apply integrity_ok_spec in wf_integrity0.
  simpl. repeat split; try constructor. tauto.
Qed.
End WfWrites.

(** ** Queries on well-formed tables *)

Lemma first_has_id {R} (rid : R -> Z) p t r :
  tbl_first p t = Some r -> has_id rid (rid r) t = true.
Proof.
  unfold tbl_first. intros H. apply find_some in H as [Hr _].
  apply has_id_spec. eauto.
Qed.

(** With unique names, the first row of a given name is the row of that
    name. *)
Lemma first_name_unique {R} (f : R -> string) n t r :
  NoDup (map f t) -> In r t -> f r = n ->
  tbl_first (fun x => String.eqb (f x) n) t = Some r.
Proof.
  unfold tbl_first. induction t as [|a t IH]; simpl; [done|].
  rewrite NoDup_cons. intros [Ha Ht] [->|Hr] Hn.
  - by rewrite Hn, String.eqb_refl.
  - destruct (String.eqb_spec (f a) n) as [Hfa|]; [|auto].
    exfalso. apply Ha. apply list_elem_of_In, in_map_iff. exists r. by rewrite Hfa.
Qed.

Lemma tbl_get_wf {R} (rid : R -> Z) t r :
  ids_ok rid t -> In r t -> tbl_get rid (rid r) t = Some r.
Proof. intros Hok Hr. by apply tbl_get_In. Qed.

Lemma wf_insert_new_item `{OwnerPolicy owner_ok} db n d c t u p :
  db_inv owner_ok db -> tbl_first p (db_categories db) = Some c ->
  owner_ok (db_users db) u -> n <> "" ->
  integrity_ok (with_items db (tbl_insert item_id
    (fun id => mkItem id n d (category_id c) t t u) (db_items db))) = true ->
  db_inv owner_ok (with_items db (tbl_insert item_id
    (fun id => mkItem id n d (category_id c) t t u) (db_items db))).
Proof.
  intros Hwf Hc Hu Hn Hi. apply wf_insert_item; auto.
  split; simpl; [by eapply first_has_id|auto].
Qed.

(** ** An executable check of the invariant *)

Fixpoint ids_sortedb {R} (rid : R -> Z) (t : list R) : bool :=
  match t with
  | [] => true
  | r :: t' => forallb (fun r' => rid r <? rid r') t' && ids_sortedb rid t'
  end.

Definition ids_okb {R} (rid : R -> Z) (t : list R) : bool :=
  ids_sortedb rid t && forallb (fun r => 0 <? rid r) t.

Definition db_wfb (db : Db) : bool :=
  ids_okb user_id (db_users db) && ids_okb category_id (db_categories db) &&
  ids_okb item_id (db_items db) && integrity_ok db &&
  forallb (fun it => has_id category_id (item_category_id it) (db_categories db)) (db_items db) &&
  forallb (fun it => has_id user_id (item_user_id it) (db_users db)) (db_items db) &&
  forallb (fun it => truthy (item_name it)) (db_items db).

Lemma ids_okb_sound {R} (rid : R -> Z) t : ids_okb rid t = true -> ids_ok rid t.
Proof.
  unfold ids_okb. rewrite andb_true_iff, forallb_forall. intros [Hs Hp]. split.
  - clear Hp. induction t as [|r t IH]; simpl in *; [constructor|].
    apply andb_true_iff in Hs as [Hr Ht]. constructor; [by apply IH|].
    apply List.Forall_map, List.Forall_forall. intros x Hx.
    rewrite forallb_forall in Hr. by apply Z.ltb_lt, Hr.
  - apply List.Forall_forall. intros x Hx. by apply Z.ltb_lt, Hp.
Qed.

Lemma db_wfb_sound db : db_wfb db = true -> db_wf db.
Proof.
  unfold db_wfb. rewrite !andb_true_iff, !forallb_forall.
  intros ((((((Hu & Hc) & Hi) & Hint) & Hfc) & Hfu) & Hn).
  split; auto using ids_okb_sound; apply List.Forall_forall; auto.
  intros it Hit. by apply truthy_spec, Hn.
Qed.

Lemma In_tbl_delete_id {R} (f : R -> Z) i t x :
  In x (tbl_delete (fun r => f r =? i) t) <-> In x t /\ f x <> i.
Proof.
  unfold tbl_delete. rewrite filter_In, negb_true_iff, Z.eqb_neq. done.
Qed.
