(* ===== verification/TableSpec.v ===== *)
(** * Tables refine finite maps from rowids to rows

    A table of [Schema] is the list of its rows in rowid order; what a view
    means by it is the finite map from primary key to row.  [to_map] is the
    abstraction, and each SQL operation the views issue is shown to act on
    the map as the corresponding map operation: a lookup by id is [!!], an
    [INSERT] is [<[k := _]>] at a key above every key in use, an [UPDATE] of
    one row is [alter], and a [DELETE ... WHERE p] is [filter]. *)

From S2P Require Import Prelude Schema.
From Stdlib Require Import Sorting.Sorted.
From stdpp Require Import gmap.
Local Open Scope Z_scope.
Local Open Scope catalog_scope.

Section TableSpec.
Context {R : Type} (rid : R -> Z).

(** The abstraction: each row under its primary key. *)
Definition to_map (t : list R) : gmap Z R := list_to_map (map (fun r => (rid r, r)) t).

Lemma to_map_cons a t : to_map (a :: t) = <[rid a := a]> (to_map t).
Proof. done. Qed.

(** A lookup by primary key is the map's lookup, on any list: both take the
    first row with that key. *)
Lemma to_map_lookup t i : to_map t !! i = tbl_get rid i t.
Proof.
  unfold tbl_get, tbl_first. induction t as [|a t IH]; simpl; [done|].
  rewrite to_map_cons. destruct (Z.eqb_spec (rid a) i) as [<-|Hne].
  - by rewrite lookup_insert_eq.
  - by rewrite lookup_insert_ne.
Qed.

Lemma to_map_lookup_next t : to_map t !! next_rowid rid t = None.
Proof.
  rewrite to_map_lookup. destruct (tbl_get rid _ t) eqn:E; [|done].
  pose proof (next_rowid_fresh rid t) as Hf. apply not_true_iff_false in Hf.
  exfalso. apply Hf, has_id_tbl_get. by rewrite E.
Qed.

(** A lookup after an [UPDATE] of row [i] by a function that keeps the key. *)
Lemma tbl_get_update i f t j :
  (forall r, rid r = i -> rid (f r) = rid r) ->
  tbl_get rid j (tbl_update rid i f t) =
    (fun r => if rid r =? i then f r else r) <$> tbl_get rid j t.
Proof.
  intros Hf. unfold tbl_get, tbl_first, tbl_update.
  induction t as [|a t IH]; simpl; [done|].
  assert (Hk : rid (if rid a =? i then f a else a) = rid a).
  { destruct (Z.eqb_spec (rid a) i); [by apply Hf|done]. }
  rewrite Hk. by destruct (rid a =? j).
Qed.

(** A lookup after a [DELETE] in a table with distinct keys. *)
Lemma tbl_get_delete p t i :
  ids_ok rid t ->
  tbl_get rid i (tbl_delete p t) = tbl_get rid i t ≫= fun r => if p r then None else Some r.
Proof.
  intros [Hs _]. unfold tbl_get, tbl_first, tbl_delete.
  induction t as [|a t IH]; simpl; [done|].
  apply StronglySorted_inv in Hs as [Hs Ha]. rewrite List.Forall_forall in Ha.
  destruct (p a) eqn:Ep; simpl.
  - rewrite IH by done. destruct (Z.eqb_spec (rid a) i) as [<-|]; [|done].
    simpl. rewrite Ep. destruct (List.find _ t) as [r|] eqn:E; [|done].
    apply find_some in E as [Hr Hi]. apply Z.eqb_eq in Hi.
    specialize (Ha (rid r) (in_map _ _ _ Hr)). lia.
  - destruct (rid a =? i); simpl; [by rewrite Ep|auto].
Qed.

(** The rowid an [INSERT] takes is above every key of the map. *)
Lemma next_rowid_above t k r : to_map t !! k = Some r -> k < next_rowid rid t.
Proof.
  rewrite to_map_lookup. intros [Hr <-]%tbl_get_Some.
  pose proof (max_rowid_ge rid t r Hr). unfold next_rowid. lia.
Qed.

Lemma tbl_insert_refines mk t :
  rid (mk (next_rowid rid t)) = next_rowid rid t ->
  to_map (tbl_insert rid mk t) = <[next_rowid rid t := mk (next_rowid rid t)]> (to_map t).
Proof.
  intros Hmk. apply map_eq. intros j. rewrite to_map_lookup.
  unfold tbl_get, tbl_first, tbl_insert. rewrite find_app. simpl. rewrite Hmk.
  destruct (decide (j = next_rowid rid t)) as [->|Hne].
  - rewrite lookup_insert_eq, Z.eqb_refl.
    pose proof (to_map_lookup_next t) as Hn. rewrite to_map_lookup in Hn.
    unfold tbl_get, tbl_first in Hn. by rewrite Hn.
  - rewrite lookup_insert_ne, to_map_lookup by done. unfold tbl_get, tbl_first.
    destruct (List.find _ t); [done|]. by destruct (Z.eqb_spec (next_rowid rid t) j).
Qed.

Lemma tbl_update_refines i f t :
  (forall r, rid r = i -> rid (f r) = rid r) ->
  to_map (tbl_update rid i f t) = alter f i (to_map t).
Proof.
  intros Hf. apply map_eq. intros j. rewrite to_map_lookup, tbl_get_update by done.
  destruct (decide (i = j)) as [<-|Hne].
  - rewrite lookup_alter_eq, to_map_lookup.
    destruct (tbl_get rid i t) as [r|] eqn:E; [|reflexivity].
    apply tbl_get_Some in E as [_ <-]. simpl. by rewrite Z.eqb_refl.
  - rewrite lookup_alter_ne, to_map_lookup by done.
    destruct (tbl_get rid j t) as [r|] eqn:E; [|reflexivity].
    apply tbl_get_Some in E as [_ <-]. simpl. by destruct (Z.eqb_spec (rid r) i).
Qed.

Lemma tbl_delete_refines p t :
  ids_ok rid t ->
  to_map (tbl_delete p t) = filter (fun kr => p kr.2 = false) (to_map t).
Proof.
  intros Hok. apply map_eq. intros j.
  rewrite map_lookup_filter, !to_map_lookup, tbl_get_delete by done.
  destruct (tbl_get rid j t) as [r|]; simpl; [|done].
  destruct (p r) eqn:Ep; [rewrite option_guard_False|rewrite option_guard_True]; done.
Qed.

End TableSpec.

(** Refinement of a table by its map.  On a table whose rowids are
    positive and increasing, a lookup by id is the map's lookup; an
    [INSERT] puts the new row under the key [max + 1], which is above every
    key in use; an [UPDATE] of row [i] by a function that keeps the key is
    [alter] at [i]; and a [DELETE] of the rows satisfying [p] is the map's
    [filter]. *)
Theorem table_refines_map {R} (rid : R -> Z) (t : list R) mk i f p :
  ids_ok rid t ->
  rid (mk (next_rowid rid t)) = next_rowid rid t ->
  (forall r, rid r = i -> rid (f r) = rid r) ->
  (forall j, tbl_get rid j t = to_map rid t !! j) /\
  to_map rid (tbl_insert rid mk t) = <[next_rowid rid t := mk (next_rowid rid t)]> (to_map rid t) /\
  (forall k r, to_map rid t !! k = Some r -> k < next_rowid rid t) /\
  to_map rid (tbl_update rid i f t) = alter f i (to_map rid t) /\
  to_map rid (tbl_delete p t) = filter (fun kr => p kr.2 = false) (to_map rid t).
Proof.
  intros Hok Hmk Hf. split; [intros j; by rewrite to_map_lookup|].
  split; [by apply tbl_insert_refines|]. split; [apply next_rowid_above|].
  split; [by apply tbl_update_refines|by apply tbl_delete_refines].
Qed.

(** The category table of two rows, with a third row inserted, the second
    renamed, and the first deleted. *)
Lemma table_refines_map_witness :
  let t := [mkCategory 1 "Soccer"; mkCategory 2 "Chess"] in
  ids_ok category_id t /\
  to_map category_id (tbl_insert category_id (fun k => mkCategory k "Books") t) =
    <[3 := mkCategory 3 "Books"]> (to_map category_id t) /\
  to_map category_id (tbl_update category_id 2 (fun c => mkCategory (category_id c) "Go") t) =
    alter (fun c => mkCategory (category_id c) "Go") 2 (to_map category_id t).
Proof.
  intros t. assert (Hok : ids_ok category_id t) by (apply ids_okb_sound; reflexivity).
  destruct (table_refines_map category_id t (fun k => mkCategory k "Books") 2
              (fun c => mkCategory (category_id c) "Go") (fun _ => false) Hok eq_refl
              (fun r _ => eq_refl)) as (_ & Hi & _ & Hu & _).
  split; [exact Hok|]. split; [exact Hi|exact Hu].
Defined.
