(* ===== verification/Http.v ===== *)
(** * The Flask surface the views are written against

    A request, the answers a view gives, the [login_session] cookie (one
    record per client, with its flash list), and the handler monad
    [Handler] over the database and the session, with the primitives the
    views of [project.py] call: [abort], [flash], [redirect], reading
    [request.form], [request.get_json()], the session keys, and the
    database session's [commit]. *)

From S2P Require Import Prelude Crypto Schema.
From stdpp Require Import gmap.
From Stdlib Require Import Ascii.
Local Open Scope Z_scope.
Local Open Scope catalog_scope.

(** The request methods; werkzeug adds [HEAD] to every rule that allows
    [GET] and [OPTIONS] to every rule. *)
Inductive Method := GET | POST | PUT | DELETE | HEAD | OPTIONS.

#[export] Instance Method_eq_dec : EqDecision Method.
Proof. solve_decision. Defined.

(** A request.  [req_json] is [request.get_json()]: [None] when the body is
    not a JSON object.  [req_auth] is the basic-auth pair; flask_httpauth
    passes [("", "")] to the callback when the header is absent.
    [req_now] is the clock ([datetime.now()], [time.time()]), [req_rand]
    the salt passlib draws for a new password hash, and [req_draws] the
    draws of Python's [random] module during the request ([req_draws x] is
    the index the [x]-th [random.choice] picks). *)
Record Request := mkRequest {
  req_method : Method;
  req_form : list (string * string);
  req_json : option (gmap string string);
  req_auth : option (string * string);
  req_arg_state : option string;
  req_data : string;
  req_now : Z;
  req_rand : string;
  req_draws : nat -> nat;
}.

(** [string.ascii_uppercase + string.digits] *)
Definition token_alphabet : string := "ABCDEFGHIJKLMNOPQRSTUVWXYZ0123456789".

(** [''.join(random.choice(token_alphabet) for x in range(32))], the
    anti-forgery state of [showHome] and the [secret_key] of
    [database_setup.py]: the [x]-th character is the one the [x]-th draw
    picks. *)
Definition random_token (draw : nat -> nat) : string :=
  String.string_of_list_ascii
    (map (fun x => nth (Nat.modulo (draw x) 36) (String.list_ascii_of_string token_alphabet) "A"%char)
         (seq 0 32)).

(** The characters of a token, one per draw, each from the alphabet. *)
Lemma random_token_chars draw :
  String.list_ascii_of_string (random_token draw) =
    map (fun x => nth (Nat.modulo (draw x) 36) (String.list_ascii_of_string token_alphabet) "A"%char)
        (seq 0 32) /\
  length (String.list_ascii_of_string (random_token draw)) = 32%nat /\
  Forall (fun ch => In ch (String.list_ascii_of_string token_alphabet))
         (String.list_ascii_of_string (random_token draw)).
Proof.
  unfold random_token. rewrite String.list_ascii_of_string_of_list_ascii.
  split; [done|]. split; [by rewrite length_map, length_seq|].
  apply List.Forall_map, List.Forall_forall. intros x _. apply nth_In.
  replace (length (String.list_ascii_of_string token_alphabet)) with 36%nat by reflexivity.
  apply Nat.mod_upper_bound. lia.
Qed.

(** The templates a view renders, with the arguments it passes. *)
Inductive Template :=
| THome (categories : list Category) (latest : list Item) (userId : option Z) (state : string)
| TNewItem (categories : list Category)
| TNewCategory
| TCategory (categoryData : Category) (items : list Item) (userId : option Z)
| TItem (categoryData : option Category) (itemData : Item) (userId : option Z)
| TEditItem (categories : list Category) (itemData : Item) (itemCategory : string)
| TDeleteItem (itemData : Item).

(** What a view answers.  [ServerError] is an exception the view does not
    catch (Flask answers 500). *)
Inductive Response :=
| Render (t : Template)
| Redirect (endpoint : string) (args : list (string * Z))
| Abort (code : Z) (msg : string)
| Text (code : Z) (body : string)
| Json (code : Z) (v : JVal)
| ServerError (exn : string).

(** An answer that is an uncaught exception.  [project.py] runs with
    [app.debug = True], under which Flask's [handle_exception] re-raises
    it ([PROPAGATE_EXCEPTIONS]) before [save_session] runs: the client
    keeps the session it sent. *)
Definition uncaught (r : Response) : bool :=
  match r with ServerError _ => true | _ => false end.

Definition status (r : Response) : Z :=
  match r with
  | Render _ => 200
  | Redirect _ _ => 302
  | Abort c _ => c
  | Text c _ => c
  | Json c _ => c
  | ServerError _ => 500
  end.

(** [login_session]: the keys the views use, and Flask's flash list. *)
Record Session := mkSession {
  ls_userId : option Z;
  ls_admin : option bool;
  ls_state : option string;
  ls_credentials : option string;
  ls_flashes : list string;
}.

Definition empty_session : Session := mkSession None None None None [].

(** What a view reads and writes. *)
Record HState := mkHState {
  hs_db : Db;
  hs_sess : Session;
}.

Abbreviation Handler := (EM HState Response).

(** ** Field updates *)

(** [login_session["userId"] = u], [login_session["admin"] = a], ... *)
Definition set_userId (u : option Z) (ss : Session) : Session :=
  mkSession u (ls_admin ss) (ls_state ss) (ls_credentials ss) (ls_flashes ss).
Definition set_admin (a : option bool) (ss : Session) : Session :=
  mkSession (ls_userId ss) a (ls_state ss) (ls_credentials ss) (ls_flashes ss).
Definition set_state (st : option string) (ss : Session) : Session :=
  mkSession (ls_userId ss) (ls_admin ss) st (ls_credentials ss) (ls_flashes ss).
Definition set_credentials (c : option string) (ss : Session) : Session :=
  mkSession (ls_userId ss) (ls_admin ss) (ls_state ss) c (ls_flashes ss).

(** ** Primitives *)

Definition get_db : Handler Db := fun s => (s, Ret (hs_db s)).

Definition get_sess : Handler Session := fun s => (s, Ret (hs_sess s)).

Definition set_sess (f : Session -> Session) : Handler unit :=
  em_modify (fun s => mkHState (hs_db s) (f (hs_sess s))).

(** [flash(msg)] appends to the session's flash list. *)
Definition push_flash (msg : string) (ss : Session) : Session :=
  mkSession (ls_userId ss) (ls_admin ss) (ls_state ss) (ls_credentials ss) (ls_flashes ss ++ [msg]).

Definition flash (msg : string) : Handler unit := set_sess (push_flash msg).

(** [login_session.get(k)] of the keys the views read. *)
Definition sess_userId : Handler (option Z) := fun s => (s, Ret (ls_userId (hs_sess s))).
Definition sess_admin : Handler (option bool) := fun s => (s, Ret (ls_admin (hs_sess s))).

(** [return abort(code, msg)] *)
Definition abort {A} (code : Z) (msg : string) : Handler A := em_halt (Abort code msg).

(** An early [return] of a response. *)
Definition respond {A} (r : Response) : Handler A := em_halt r.

(** An uncaught exception. *)
Definition raise {A} (exn : string) : Handler A := em_halt (ServerError exn).

(** [session.commit()]: the transaction's new state is written, unless it
    breaks a unique constraint (IntegrityError). *)
Definition commit (db' : Db) : Handler unit :=
  if integrity_ok db' then em_modify (fun s => mkHState db' (hs_sess s))
  else raise "IntegrityError".

(** The first value a form gives to key [k] (a MultiDict's [k] item). *)
Definition form_lookup (r : Request) (k : string) : option string :=
  snd <$> List.find (fun kv => String.eqb kv.1 k) (req_form r).

(** [request.form[k]]: a missing key is werkzeug's BadRequestKeyError, a
    400. *)
Definition form_get (r : Request) (k : string) : Handler string :=
  match form_lookup r k with
  | Some v => em_ret v
  | None => abort 400 "Bad Request"
  end.

(** [body.get(k)] on [body = request.get_json()]: [None.get] raises. *)
Definition body_get (b : option (gmap string string)) (k : string) : Handler (option string) :=
  match b with
  | Some m => em_ret (m !! k)
  | None => raise "AttributeError"
  end.

(** [body[k]]: a missing key raises KeyError. *)
Definition body_idx (b : option (gmap string string)) (k : string) : Handler string :=
  match b with
  | Some m => match m !! k with Some v => em_ret v | None => raise "KeyError" end
  | None => raise "TypeError"
  end.

(** A view whose method tests all fail returns [None]: Flask raises. *)
Definition no_response : Handler Response := raise "TypeError: view returned None".

(** Run a view on a database and a session. *)
Definition run_view (h : Handler Response) (db : Db) (ss : Session) : Db * Session * Response :=
  let '(s', r) := em_run h (mkHState db ss) in (hs_db s', hs_sess s', r).

(** ** Lemmas on the primitives *)

Lemma commit_ok db' s :
  integrity_ok db' = true -> commit db' s = (mkHState db' (hs_sess s), Ret tt).
Proof. unfold commit. by intros ->. Qed.

Lemma commit_fail db' s :
  integrity_ok db' = false -> commit db' s = (s, Halt (ServerError "IntegrityError")).
Proof. unfold commit. by intros ->. Qed.

Lemma flash_db msg s : hs_db (fst (flash msg s)) = hs_db s.
Proof. done. Qed.

(** [vsimp] unfolds the primitives of a view, leaving [commit] folded. *)
Ltac vsimp :=
  repeat (unfold run_view, get_db, get_sess, set_sess, sess_userId, sess_admin, flash,
            abort, respond, raise, no_response, body_get, body_idx, form_get in *; hsimp).

(** ** The session invariant

    A session names an owner the policy admits: with [user_present], a
    user of the database.  Users are never deleted, so a view keeps every
    session within the policy when the owners it admits remain. *)

Definition sess_inv (owner_ok : list User -> Z -> Prop) (db : Db) (ss : Session) : Prop :=
  forall u, ls_userId ss = Some u -> owner_ok (db_users db) u.

Definition owners_grow (owner_ok : list User -> Z -> Prop) (db db' : Db) : Prop :=
  forall u, owner_ok (db_users db) u -> owner_ok (db_users db') u.

Abbreviation sess_wf := (sess_inv user_present).
Abbreviation users_grow := (owners_grow user_present).

(** What every view must keep, for every owner policy: the database
    invariant, the session invariant, and the owners. *)
Definition preserves_by (owner_ok : list User -> Z -> Prop) (v : Handler Response) : Prop :=
  forall db ss, db_inv owner_ok db -> sess_inv owner_ok db ss ->
  let '(db', ss', _) := run_view v db ss in
  db_inv owner_ok db' /\ sess_inv owner_ok db' ss' /\ owners_grow owner_ok db db'.

Definition preserves (v : Handler Response) : Prop :=
  forall owner_ok (Hpol : OwnerPolicy owner_ok), preserves_by owner_ok v.

Section OwnerLemmas.
Context `{OwnerPolicy owner_ok}.

Lemma sess_wf_grow db db' ss : owners_grow owner_ok db db' -> sess_inv owner_ok db ss -> sess_inv owner_ok db' ss.
Proof. intros Hg Hs u Hu. auto. Qed.

Lemma users_grow_refl db : owners_grow owner_ok db db.
Proof. by intros u. Qed.

Lemma users_grow_same db db' : db_users db' = db_users db -> owners_grow owner_ok db db'.
Proof. intros E u. by rewrite E. Qed.

Lemma users_grow_insert db mk :
  owners_grow owner_ok db (with_users db (tbl_insert user_id mk (db_users db))).
Proof. intros u Hu. simpl. by apply owner_ok_insert. Qed.

(** A session naming a row of the users is within every policy. *)
Lemma sess_inv_user db ss v :
  In v (db_users db) -> ls_userId ss = Some (user_id v) -> sess_inv owner_ok db ss.
Proof. intros Hv Hu u Hu'. rewrite Hu in Hu'. injection Hu' as <-. by apply owner_ok_user. Qed.

End OwnerLemmas.

#[export] Hint Resolve users_grow_refl users_grow_same sess_wf_grow users_grow_insert : catalog.

(** [case_commit] splits on whether the transaction the goal commits
    passes the unique constraints. *)
Ltac case_commit :=
  match goal with
  | |- context [commit ?d ?s] =>
      let E := fresh "Ei" in
      unfold commit; destruct (integrity_ok d) eqn:E; vsimp
  end.

#[export] Hint Resolve wf_insert_category wf_insert_user wf_insert_item wf_update_item
  wf_delete_items wf_clear_items wf_delete_category wf_clear_catalog : catalog.
#[export] Hint Extern 1 (_ = _) => reflexivity : catalog.

(** [finish_preserves] closes the goal of [preserves] for one branch. *)
Ltac finish_preserves :=
  split; [|split]; eauto with catalog.

(** ** Example data for the witnesses *)

Definition demo_db : Db :=
  mkDb [mkUser 1 "alice" "alice@example.com" None None None false;
        mkUser 2 "root" "root@example.com" None None None true;
        mkUser 3 "bob" "bob@example.com" None None None false]
       [mkCategory 1 "Soccer"; mkCategory 2 "Chess"]
       [mkItem 1 "Ball" "A round ball" 1 10 10 1;
        mkItem 2 "Board" "A chess board" 2 20 20 1;
        mkItem 3 "Boots" "Football boots" 1 30 30 3].

(** The sessions of a logged-in user, of an administrator, and of a new
    visitor. *)
Definition alice_session : Session := mkSession (Some 1) (Some false) None None [].
Definition root_session : Session := mkSession (Some 2) (Some true) None None [].
Definition bob_session : Session := mkSession (Some 3) (Some false) None None [].

(** The state [showHome] draws when every draw is 0: 32 times "A". *)
Definition demo_state : string := random_token (fun _ => 0%nat).

(** A form post to a page route, at time 100. *)
Definition form_req (m : Method) (form : list (string * string)) : Request :=
  mkRequest m form None None None "" 100 "" (fun _ => 0%nat).

(** An API request with a JSON body, at time 100. *)
Definition api_req (m : Method) (body : gmap string string) : Request :=
  mkRequest m [] (Some body) None None "" 100 "" (fun _ => 0%nat).
