(* ===== verification/Auth.v ===== *)
(** * Identity and authentication: the auth views of [project.py]

    Local signup ([new_user]), the basic-auth callback ([verify_password])
    and the [@auth.login_required] wrapper that consults it, the token
    endpoint ([get_auth_token]), Google sign-in and sign-out ([gconnect],
    [gdisconnect]) with their helpers [createUser] and [getUserID].  The
    module-level [secret_key] of [database_setup.py] and the [CLIENT_ID] read
    from [client_secrets.json] are the section's variables. *)

From S2P Require Import Prelude Crypto Schema Http.
From stdpp Require Import gmap.
Local Open Scope Z_scope.
Local Open Scope catalog_scope.

Section Auth.
Context `{PasswordContext} `{TimedSerializer} `{OAuthVerifier}.
Context (secret_key CLIENT_ID : string).

(** [POST /users/] *)
Definition new_user (r : Request) : Handler Response :=
  let* username := body_get (req_json r) "username" in
  let* password := body_get (req_json r) "password" in
  let* email := body_get (req_json r) "email" in
  match username, password, email with
  | Some username, Some password, Some email =>
      let* db := get_db in
      match tbl_first (fun u => String.eqb (user_name u) username) (db_users db) with
      | Some _ => abort 400 "Username already used"
      | None =>
          let mk id := User_hash_password (req_rand r) password
                         (mkUser id username email None None None false) in
          commit (with_users db (tbl_insert user_id mk (db_users db)));;
          (* jsonify({"username": username}, 201) serialises both arguments *)
          respond (Json 200 (JList [JObj [("username", JStr username)]; JNum 201]))
      end
  | _, _, _ => abort 400 "You need to supply an username and a password"
  end.

(** The [@auth.verify_password] callback, on the basic-auth pair. *)
Definition verify_password (r : Request) : Handler bool :=
  if decide (req_method r = GET) then em_ret true else
  let '(username_or_token, password) := default ("", "") (req_auth r) in
  let* db := get_db in
  let user_id := User_verify_auth_token secret_key (req_now r) username_or_token in
  let* found :=
    if truthy_Z user_id then
      match user_id ≫= fun i => tbl_get Schema.user_id i (db_users db) with
      | Some user => em_ret (Some user)
      | None => raise "AttributeError"
      end
    else
      em_ret (match tbl_first (fun u => String.eqb (user_name u) username_or_token)
                              (db_users db) with
              | Some user => if User_verify_password user password then Some user else None
              | None => None
              end) in
  match found with
  | None => em_ret false
  | Some user =>
      set_sess (fun ss => set_admin (Some (user_admin user))
                            (set_userId (Some (Schema.user_id user)) ss));;
      em_ret true
  end.

(** [@auth.login_required]: a [False] from the callback is
    flask_httpauth's 401. *)
Definition login_required (r : Request) (view : Handler Response) : Handler Response :=
  let* ok := verify_password r in
  if ok then view else respond (Text 401 "Unauthorized Access").

(** [GET /token/] (behind [login_required]) *)
Definition get_auth_token (r : Request) : Handler Response :=
  let* uid := sess_userId in
  match uid with
  | None => raise "KeyError"
  | Some uid =>
      let* db := get_db in
      match tbl_get user_id uid (db_users db) with
      | Some user =>
          respond (Json 200 (JObj [("token",
            JStr (User_generate_auth_token secret_key (req_now r) user 600))]))
      | None => raise "AttributeError"
      end
  end.

(** [getUserID(email)] *)
Definition getUserID (email : string) : Handler (option Z) :=
  let* db := get_db in
  em_ret (user_id <$> tbl_first (fun u => String.eqb (user_email u) email) (db_users db)).

(** [createUser(idinfo)]: insert, commit, then [.one()] by e-mail. *)
Definition createUser (idinfo : IdInfo) : Handler Z :=
  let* db := get_db in
  let mk id := mkUser id (idi_name idinfo) (idi_email idinfo) (Some (idi_picture idinfo))
                      (Some (idi_sub idinfo)) None false in
  commit (with_users db (tbl_insert user_id mk (db_users db)));;
  let* db := get_db in
  match List.filter (fun u => String.eqb (user_email u) (idi_email idinfo)) (db_users db) with
  | [user] => em_ret (user_id user)
  | [] => raise "NoResultFound"
  | _ => raise "MultipleResultsFound"
  end.

Definition google_issuers : list string := ["accounts.google.com"; "https://accounts.google.com"].

(** [POST /gconnect] *)
Definition gconnect (r : Request) : Handler Response :=
  let token := req_data r in
  let* ss := get_sess in
  match ls_state ss with
  | None => raise "KeyError"
  | Some st =>
      if negb (bool_decide (req_arg_state r = Some st)) then
        respond (Text 401 "Invalid state content")
      else
        match verify_oauth2_token token CLIENT_ID with
        | None => raise "ValueError"
        | Some idinfo =>
            if negb (bool_decide (idi_iss idinfo ∈ google_issuers)) then
              raise "ValueError: Wrong issuer."
            else
              let* found := getUserID (idi_email idinfo) in
              let* userId :=
                match found with Some u => em_ret u | None => createUser idinfo end in
              set_sess (fun ss => set_credentials (Some token) (set_userId (Some userId) ss));;
              respond (Redirect "showHome" [])
        end
  end.

(** [GET /gdisconnect]; the revocation request's answer is not used. *)
Definition gdisconnect (r : Request) : Handler Response :=
  let* ss := get_sess in
  match ls_userId ss with
  | None => respond (Text 401 "Current user not connected.")
  | Some _ =>
      match ls_credentials ss with
      | None => raise "KeyError"
      | Some _ =>
          set_sess (fun ss => set_credentials None (set_userId None ss));;
          respond (Redirect "showHome" [])
      end
  end.
End Auth.

(** ** Lemmas shared by the proofs *)

Lemma integrity_dup_google db x g :
  user_google_id x = Some g -> g ∈ omap user_google_id (db_users db) ->
  integrity_ok (with_users db (db_users db ++ [x])) = false.
Proof.
  intros Hx Hg. apply not_true_iff_false. rewrite integrity_ok_spec. simpl.
  rewrite omap_app. simpl. rewrite Hx. intros (_ & _ & Hnd).
  apply NoDup_app in Hnd as (_ & Hdis & _). apply (Hdis g Hg). apply list_elem_of_here.
Qed.

Lemma user_id_pos db u : db_wf db -> In u (db_users db) -> 0 < user_id u.
Proof.
  intros Hwf Hu. destruct (wf_users _ Hwf) as [_ Hp].
  rewrite List.Forall_forall in Hp. auto.
Qed.

Section AuthProofs.
Context `{PasswordContext} `{TimedSerializer} `{OAuthVerifier}.
Context (secret_key CLIENT_ID : string).

(** C8: The basic-auth callback rejects a token whose expiry has passed:
    on any method but GET, a token past [iat + expiration] in the user-name
    field is refused (no user bears the token as a name), and the session
    is not touched. *)
Theorem verify_password_expired_token r db ss u iat e p :
  req_method r <> GET ->
  req_auth r = Some (User_generate_auth_token secret_key iat u e, p) ->
  iat + e < req_now r ->
  User_generate_auth_token secret_key iat u e ∉ map user_name (db_users db) ->
  verify_password secret_key r (mkHState db ss) = (mkHState db ss, Ret false).
Proof.
  intros Hm Ha He Hn. unfold verify_password. rewrite decide_False by done.
  rewrite Ha. simpl. vsimp. rewrite verify_generate_expired by done. simpl.
  unfold tbl_first. by rewrite (proj2 (find_eqb_None _ _ _) Hn).
Qed.

(** C7: Token round trip: [/token/] answers with a token for the session's
    user, and until [iat + 600] that token in the user-name field of any
    non-GET request authenticates as that same user, whatever the password
    field holds, setting the session's user and admin flag. *)
Theorem auth_token_roundtrip r r' db ss ss' u p :
  db_wf db -> In u (db_users db) -> ls_userId ss = Some (user_id u) ->
  req_method r' <> GET ->
  req_auth r' = Some (User_generate_auth_token secret_key (req_now r) u 600, p) ->
  0 <= req_now r + 600 -> req_now r' <= req_now r + 600 ->
  run_view (get_auth_token secret_key r) db ss =
    (db, ss, Json 200 (JObj [("token", JStr (User_generate_auth_token secret_key (req_now r) u 600))])) /\
  verify_password secret_key r' (mkHState db ss') =
    (mkHState db (set_admin (Some (user_admin u)) (set_userId (Some (user_id u)) ss')), Ret true).
Proof.
  intros Hwf Hu Hs Hm Ha Hz Hle.
  pose proof (tbl_get_wf _ _ _ (wf_users _ Hwf) Hu) as Hg.
  pose proof (user_id_pos _ _ Hwf Hu) as Hp. split.
  - unfold get_auth_token. vsimp. rewrite Hs. vsimp. by rewrite Hg.
  - unfold verify_password. rewrite decide_False by done. rewrite Ha. simpl. vsimp.
    rewrite verify_generate_fresh by done. simpl.
    replace (user_id u =? 0) with false by (symmetry; apply Z.eqb_neq; lia). simpl.
    by rewrite Hg.
Qed.

(** What the basic-auth callback does when it accepts a non-GET request:
    it logs the session in as a user of the table, with that user's admin
    column, and the credentials are a live token for that user or that
    user's name and password. *)
Lemma verify_password_accepts r db ss s' :
  req_method r <> GET ->
  verify_password secret_key r (mkHState db ss) = (s', Ret true) ->
  hs_db s' = db /\
  exists u, In u (db_users db) /\
    hs_sess s' = set_admin (Some (user_admin u)) (set_userId (Some (user_id u)) ss) /\
    let '(name, pw) := default ("", "") (req_auth r) in
    ((exists iat e, name = ts_dumps secret_key iat e (user_id u) /\ req_now r <= iat + e) \/
     (user_name u = name /\ User_verify_password u pw = true)).
Proof.
  intros Hm. unfold verify_password. rewrite decide_False by done.
  destruct (default ("", "") (req_auth r)) as [name pw]. vsimp.
  destruct (User_verify_auth_token secret_key (req_now r) name) as [i|] eqn:Ev; simpl.
  - destruct (i =? 0); simpl.
    + unfold tbl_first. destruct (List.find _ (db_users db)) as [u|] eqn:Ef; simpl;
        [|discriminate].
      apply find_some in Ef as [Hu Hn]. apply String.eqb_eq in Hn.
      destruct (User_verify_password u pw) eqn:Ep; simpl; [|discriminate].
      intros [= <-]. split; [done|]. exists u. split_and!; auto.
    + destruct (tbl_get user_id i (db_users db)) as [u|] eqn:Eg; simpl; [|discriminate].
      intros [= <-]. apply tbl_get_Some in Eg as [Hu Hi]. split; [done|].
      exists u. split_and!; auto. left. subst i. by apply verify_auth_token_sound.
  - unfold tbl_first. destruct (List.find _ (db_users db)) as [u|] eqn:Ef; simpl;
      [|discriminate].
    apply find_some in Ef as [Hu Hn]. apply String.eqb_eq in Hn.
    destruct (User_verify_password u pw) eqn:Ep; simpl; [|discriminate].
    intros [= <-]. split; [done|]. exists u. split_and!; auto.
Qed.

(** C6: The basic-auth callback authenticates only on valid credentials:
    when it accepts a non-GET request, the session now names a user of the
    table, and either the user-name field is a token signed with the secret
    key for that user's id and not expired, or it is that user's name and
    the password verifies against the stored hash. *)
Theorem verify_password_sound r db ss s' :
  req_method r <> GET ->
  verify_password secret_key r (mkHState db ss) = (s', Ret true) ->
  hs_db s' = db /\
  exists u, In u (db_users db) /\ ls_userId (hs_sess s') = Some (user_id u) /\
    let '(name, pw) := default ("", "") (req_auth r) in
    ((exists iat e, name = ts_dumps secret_key iat e (user_id u) /\ req_now r <= iat + e) \/
     (user_name u = name /\ User_verify_password u pw = true)).
Proof.
  intros Hm Hv. destruct (verify_password_accepts r db ss s' Hm Hv) as (Hdb & u & Hu & Hs & Hc).
  split; [done|]. exists u. rewrite Hs. by split_and!.
Qed.

(** Signup with a user name some user already has answers 400 and
    creates no user. *)
Theorem new_user_duplicate r db ss b p e u :
  req_json r = Some b -> b !! "username" = Some (user_name u) ->
  b !! "password" = Some p -> b !! "email" = Some e -> In u (db_users db) ->
  run_view (new_user r) db ss = (db, ss, Abort 400 "Username already used").
Proof.
  intros Hb Hn Hp He Hu. unfold new_user. vsimp. rewrite Hb, Hn, Hp, He. simpl.
  destruct (find_In_Some (fun v => String.eqb (user_name v) (user_name u))
              _ u Hu (String.eqb_refl _)) as [v Hf].
  unfold tbl_first. by rewrite Hf.
Qed.

(** C26: Local signup.  A JSON body with a user name no user has, a
    password and an e-mail address creates a user with the next rowid,
    that name and that address (the code checks neither that the address
    is the caller's nor that another user has it), no Google id, no admin
    flag, and a password hash that verifies that password and no other.
    The answer is a 200 whose body is the pair [[{"username": n}, 201]]:
    [jsonify] serialises both of its arguments, so the 201 the code means
    is never sent. *)
Theorem new_user_creates r db ss b n p e :
  db_consistent db -> req_json r = Some b -> b !! "username" = Some n ->
  b !! "password" = Some p -> b !! "email" = Some e -> n ∉ map user_name (db_users db) ->
  exists u,
    run_view (new_user r) db ss =
      (with_users db (db_users db ++ [u]), ss, Json 200 (JList [JObj [("username", JStr n)]; JNum 201])) /\
    user_id u = next_rowid user_id (db_users db) /\ user_name u = n /\ user_email u = e /\
    user_google_id u = None /\ user_admin u = false /\
    (forall q, User_verify_password u q = true <-> q = p).
Proof.
  intros Hwf Hb Hn Hp He Hfree. unfold new_user. vsimp. rewrite Hb, Hn, Hp, He. simpl.
  unfold tbl_first. rewrite (proj2 (find_eqb_None _ _ _) Hfree).
  rewrite commit_ok by (apply integrity_insert_user; [apply (wf_integrity _ Hwf)|done]). vsimp.
  eexists. split; [reflexivity|]. split_and!; try reflexivity.
  intros q. unfold User_verify_password. simpl. split; [apply pwd_verify_sound|intros ->; apply pwd_verify_encrypt].
Qed.

(** C35: Google sign-in whose anti-forgery state differs from the one the
    session holds answers 401 and changes neither the session nor the
    database. *)
Theorem gconnect_state_mismatch r db ss st :
  ls_state ss = Some st -> req_arg_state r <> Some st ->
  run_view (gconnect CLIENT_ID r) db ss = (db, ss, Text 401 "Invalid state content").
Proof.
  intros Hs Ha. unfold gconnect. vsimp. rewrite Hs. by rewrite bool_decide_false.
Qed.

(** C4: Google sign-in with a valid identity token logs the session in as
    the first user, in rowid order, whose e-mail is the token's e-mail,
    whatever that user's Google id or password: a local account registered
    under someone's address is the account they get. *)
Theorem gconnect_links_by_email r db ss st info u :
  ls_state ss = Some st -> req_arg_state r = Some st ->
  verify_oauth2_token (req_data r) CLIENT_ID = Some info ->
  idi_iss info ∈ google_issuers ->
  tbl_first (fun v => String.eqb (user_email v) (idi_email info)) (db_users db) = Some u ->
  run_view (gconnect CLIENT_ID r) db ss =
    (db, set_credentials (Some (req_data r)) (set_userId (Some (user_id u)) ss),
     Redirect "showHome" []).
Proof.
  intros Hs Ha Hv Hi Hf. unfold gconnect, getUserID. vsimp. rewrite Hs.
  rewrite bool_decide_true by done. simpl. rewrite Hv.
  rewrite bool_decide_true by done. simpl. vsimp. by rewrite Hf.
Qed.

(** C36: Google sign-in for an account whose e-mail no user has, but whose
    Google id a user already holds (the account's address changed), breaks
    the unique [google_id] column: the insert fails with an
    IntegrityError (status 500) and nothing changes. *)
Theorem gconnect_changed_email r db ss st info v :
  ls_state ss = Some st -> req_arg_state r = Some st ->
  verify_oauth2_token (req_data r) CLIENT_ID = Some info ->
  idi_iss info ∈ google_issuers ->
  idi_email info ∉ map user_email (db_users db) ->
  In v (db_users db) -> user_google_id v = Some (idi_sub info) ->
  run_view (gconnect CLIENT_ID r) db ss = (db, ss, ServerError "IntegrityError").
Proof.
  intros Hs Ha Hv Hi Hfree Hin Hg. unfold gconnect, getUserID, createUser. vsimp. rewrite Hs.
  rewrite bool_decide_true by done. simpl. rewrite Hv.
  rewrite bool_decide_true by done. simpl. vsimp.
  unfold tbl_first. rewrite (proj2 (find_eqb_None _ _ _) Hfree). simpl. vsimp.
  unfold tbl_insert. rewrite commit_fail; [done|].
  apply (integrity_dup_google _ _ (idi_sub info)); [done|].
  apply list_elem_of_omap. exists v. split; [by apply list_elem_of_In|done].
Qed.

(** C37: Google sign-out of a session that signed in with Google revokes
    and forgets the user and the token and redirects home; the admin flag a
    basic-auth login put in the session stays set. *)
Theorem gdisconnect_signs_out r db ss u c :
  ls_userId ss = Some u -> ls_credentials ss = Some c ->
  let '(db', ss', resp) := run_view (gdisconnect r) db ss in
  db' = db /\ ls_userId ss' = None /\ ls_credentials ss' = None /\
  ls_admin ss' = ls_admin ss /\ resp = Redirect "showHome" [].
Proof. intros Hu Hc. unfold gdisconnect. vsimp. by rewrite Hu, Hc. Qed.

(** C38: Google sign-out of a session logged in through basic auth (a user
    but no Google token) fails with a KeyError (status 500) and leaves the
    user logged in. *)
Theorem gdisconnect_basic_auth_session r db ss u :
  ls_userId ss = Some u -> ls_credentials ss = None ->
  run_view (gdisconnect r) db ss = (db, ss, ServerError "KeyError").
Proof. intros Hu Hc. unfold gdisconnect. vsimp. by rewrite Hu, Hc. Qed.

(** ** The invariant: every auth view keeps it *)

Lemma new_user_preserves r : preserves (new_user r).
Proof.
  intros P HP db ss Hwf Hs. unfold new_user. vsimp.
  repeat case_if; vsimp; try case_commit; finish_preserves.
Qed.

(** The callback leaves the database alone and logs in only users of it. *)
Lemma verify_password_state `{OwnerPolicy owner_ok} r db ss :
  let '(s', _) := verify_password secret_key r (mkHState db ss) in
  hs_db s' = db /\ (sess_inv owner_ok db ss -> sess_inv owner_ok db (hs_sess s')).
Proof.
  unfold verify_password. case_decide; [vsimp; auto|].
  destruct (default ("", "") (req_auth r)) as [name pw]. vsimp.
  repeat case_if; vsimp; split; auto; intros _; eapply sess_inv_user; try reflexivity.
  - destruct (User_verify_auth_token _ _ _); simpl in *; [|discriminate].
    by apply tbl_get_Some in E0 as [? _].
  - destruct (tbl_first _ _) as [v|] eqn:Ef; [|discriminate].
    destruct (User_verify_password v pw); [|discriminate]. injection E0 as <-.
    by apply find_some in Ef as [? _].
Qed.

Lemma login_required_preserves r v : preserves v -> preserves (login_required secret_key r v).
Proof.
  intros Hv P HP db ss Hwf Hs. unfold login_required. pose proof (verify_password_state r db ss) as Hvp.
  unfold run_view, em_run, em_bind in *.
  destruct (verify_password secret_key r (mkHState db ss)) as [[db1 ss1] e].
  simpl in Hvp. destruct Hvp as [-> Hs1]. specialize (Hs1 Hs).
  destruct e as [[|]|resp]; [apply (Hv _ _ _ _ Hwf Hs1)| |]; vsimp; finish_preserves.
Qed.

Lemma get_auth_token_preserves r : preserves (get_auth_token secret_key r).
Proof.
  intros P HP db ss Hwf Hs. unfold get_auth_token. vsimp. repeat case_if; vsimp; finish_preserves.
Qed.

Lemma gdisconnect_preserves r : preserves (gdisconnect r).
Proof.
  intros P HP db ss Hwf Hs. unfold gdisconnect. vsimp. repeat case_if; vsimp; finish_preserves.
  intros u; simpl; discriminate.
Qed.

Lemma gconnect_preserves r : preserves (gconnect CLIENT_ID r).
Proof.
  intros P HP db ss Hwf Hs. unfold gconnect, getUserID, createUser. vsimp.
  repeat case_if; vsimp; try case_commit; repeat case_if; vsimp; try finish_preserves.
  - destruct (tbl_first _ _) as [v|] eqn:Ef; simpl in E3; [|discriminate].
    injection E3 as <-. apply find_some in Ef as [? _]. by eapply sess_inv_user.
  - match goal with |- context [List.filter ?p ?l] =>
      destruct (List.filter p l) as [|v [|v' l']] eqn:Ef end; vsimp; finish_preserves.
    match goal with |- sess_inv _ (with_users _ ?us) _ =>
      assert (Hin : In v (List.filter (fun u => String.eqb (user_email u) (idi_email i)) us)) end.
    { rewrite Ef. by left. }
    apply filter_In in Hin as [? _]. by eapply sess_inv_user.
Qed.
End AuthProofs.

(** ** Witnesses, with the executable instances of [Crypto] *)

Definition demo_key : string := "SECRETKEY".
Definition demo_client : string := "client-id".
Definition alice : User := mkUser 1 "alice" "alice@example.com" None None None false.
Definition alice_token : string := User_generate_auth_token demo_key 100 alice 600.

Definition auth_req (m : Method) (name pw : string) (now : Z) : Request :=
  mkRequest m [] None (Some (name, pw)) None "" now "" (fun _ => 0%nat).

Lemma verify_password_expired_token_witness :
  verify_password demo_key (auth_req POST alice_token "" 701) (mkHState demo_db empty_session) =
    (mkHState demo_db empty_session, Ret false).
Proof.
  apply (verify_password_expired_token demo_key _ _ _ alice 100 600 "");
    [discriminate|reflexivity|vm_compute; reflexivity|by_decide].
Defined.

Lemma auth_token_roundtrip_witness :
  run_view (get_auth_token demo_key (auth_req GET "" "" 100)) demo_db alice_session =
    (demo_db, alice_session, Json 200 (JObj [("token", JStr alice_token)])) /\
  verify_password demo_key (auth_req DELETE alice_token "anything" 700)
    (mkHState demo_db empty_session) =
    (mkHState demo_db (set_admin (Some false) (set_userId (Some 1) empty_session)), Ret true).
Proof.
  apply (auth_token_roundtrip demo_key (auth_req GET "" "" 100) _ _ _ _ alice "anything");
    [apply db_wfb_sound; vm_compute; reflexivity|simpl; auto|reflexivity|discriminate
    |reflexivity|vm_compute; discriminate|vm_compute; discriminate].
Defined.

Lemma verify_password_sound_witness :
  hs_db (mkHState demo_db (set_admin (Some false) (set_userId (Some 1) empty_session))) = demo_db /\
  exists u, In u (db_users demo_db) /\
    ls_userId (set_admin (Some false) (set_userId (Some 1) empty_session)) = Some (user_id u) /\
    let '(name, pw) := default ("", "") (req_auth (auth_req PUT alice_token "x" 200)) in
    ((exists iat e, name = ts_dumps demo_key iat e (user_id u) /\ 200 <= iat + e) \/
     (user_name u = name /\ User_verify_password u pw = true)).
Proof.
  apply (verify_password_sound demo_key (auth_req PUT alice_token "x" 200) demo_db empty_session);
    [discriminate|vm_compute; reflexivity].
Defined.

Lemma new_user_duplicate_witness :
  run_view (new_user (mkRequest POST [] (Some {["username" := "alice"; "password" := "pw";
                                               "email" := "x@example.com"]})
                                None None "" 100 "salt" (fun _ => 0%nat)))
           demo_db empty_session =
    (demo_db, empty_session, Abort 400 "Username already used").
Proof.
  apply (new_user_duplicate _ _ _ {["username" := "alice"; "password" := "pw";
                                    "email" := "x@example.com"]} "pw" "x@example.com" alice);
    try reflexivity. simpl; auto.
Defined.

(** A visitor whose session holds the state [S] posts an identity token. *)
Definition google_req (state token : string) : Request :=
  mkRequest POST [] None None (Some state) token 100 "" (fun _ => 0%nat).
Definition pending_session : Session := mkSession None None (Some "S") None [].
Definition alice_google : IdInfo :=
  mkIdInfo "accounts.google.com" "g-123" "alice@example.com" "Alice" "pic.png".

(** Mallory signs up under the victim's address, which the demo
    database's users do not have. *)
Lemma new_user_creates_witness :
  exists u,
    run_view (new_user (api_req POST {["username" := "mallory"; "password" := "pw"; "email" := "victim@example.com"]}))
             demo_db empty_session =
      (with_users demo_db (db_users demo_db ++ [u]), empty_session,
       Json 200 (JList [JObj [("username", JStr "mallory")]; JNum 201])) /\
    user_id u = 4 /\ user_name u = "mallory" /\ user_email u = "victim@example.com" /\
    user_google_id u = None /\ user_admin u = false /\
    (forall q, User_verify_password u q = true <-> q = "pw").
Proof.
  exact (new_user_creates (api_req POST {["username" := "mallory"; "password" := "pw"; "email" := "victim@example.com"]})
           demo_db empty_session _ "mallory" "pw" "victim@example.com"
           (db_wf_consistent demo_db (db_wfb_sound demo_db ltac:(vm_compute; reflexivity)))
           eq_refl eq_refl eq_refl eq_refl ltac:(by_decide)).
Defined.

Lemma gconnect_state_mismatch_witness :
  run_view (gconnect demo_client (google_req "T" "")) demo_db pending_session =
    (demo_db, pending_session, Text 401 "Invalid state content").
Proof. apply (gconnect_state_mismatch demo_client _ _ _ "S"); [reflexivity|discriminate]. Defined.

(** The Google owner of alice@example.com is logged in as the local user 1. *)
Lemma gconnect_links_by_email_witness :
  run_view (gconnect demo_client (google_req "S" (demo_google_token demo_client alice_google)))
           demo_db pending_session =
    (demo_db, set_credentials (Some (demo_google_token demo_client alice_google))
                (set_userId (Some 1) pending_session), Redirect "showHome" []).
Proof.
  apply (gconnect_links_by_email demo_client
           (google_req "S" (demo_google_token demo_client alice_google)) demo_db pending_session
           "S" alice_google alice);
    try reflexivity; try (vm_compute; reflexivity); by_decide.
Defined.

Definition carol : User :=
  mkUser 4 "Carol" "carol@old.example" (Some "pic.png") (Some "g-9") None false.
Definition carol_db : Db := with_users demo_db (db_users demo_db ++ [carol]).
Definition carol_google : IdInfo :=
  mkIdInfo "https://accounts.google.com" "g-9" "carol@new.example" "Carol" "pic.png".

Lemma gconnect_changed_email_witness :
  run_view (gconnect demo_client (google_req "S" (demo_google_token demo_client carol_google)))
           carol_db pending_session =
    (carol_db, pending_session, ServerError "IntegrityError").
Proof.
  apply (gconnect_changed_email demo_client _ _ _ "S" carol_google carol);
    try reflexivity; try (vm_compute; reflexivity); try by_decide. simpl; auto 6.
Defined.

Lemma gdisconnect_signs_out_witness :
  let '(db', ss', resp) := run_view (gdisconnect (auth_req GET "" "" 100)) demo_db
                             (mkSession (Some 1) (Some true) None (Some "tok") []) in
  db' = demo_db /\ ls_userId ss' = None /\ ls_credentials ss' = None /\
  ls_admin ss' = Some true /\ resp = Redirect "showHome" [].
Proof.
  exact (gdisconnect_signs_out (auth_req GET "" "" 100) demo_db
           (mkSession (Some 1) (Some true) None (Some "tok") []) 1 "tok" eq_refl eq_refl).
Defined.

Lemma gdisconnect_basic_auth_session_witness :
  run_view (gdisconnect (auth_req GET "" "" 100)) demo_db alice_session =
    (demo_db, alice_session, ServerError "KeyError").
Proof. apply (gdisconnect_basic_auth_session _ _ _ 1); reflexivity. Defined.
