(* ===== verification/Api.v ===== *)
(** * The JSON API: [apiAllCategories], [apiManageCategory], [apiAllItems],
    [apiManageItem] of [project.py]

    Each definition is the body of the view; the route wraps it in
    [login_required] (file [App]), so on every method but GET the session
    holds the user the credentials named.  The theorems give the answer and
    the new database of each branch the spec lists, and the lemmas that
    every branch keeps [db_wf]. *)

From S2P Require Import Prelude Crypto Schema Http.
From stdpp Require Import gmap.
Local Open Scope Z_scope.
Local Open Scope catalog_scope.

(** [/api/categories/]: GET, POST, DELETE *)
Definition apiAllCategories (r : Request) : Handler Response :=
  match req_method r with
  | GET =>
      let* db := get_db in
      respond (Json 200 (JObj [("categories", JList (map category_serialize (db_categories db)))]))
  | POST =>
      let* uid := sess_userId in
      if negb (truthy_Z uid) then
        abort 401 "Only registered users can perform this operation"
      else
        let* name := body_idx (req_json r) "name" in
        let* db := get_db in
        match tbl_first (fun c => String.eqb (category_name c) name) (db_categories db) with
        | Some _ => abort 400 "Category already exists"
        | None =>
            commit (with_categories db
                      (tbl_insert category_id (fun id => mkCategory id name) (db_categories db)));;
            respond (Text 200 ("New Category " ++ name ++ " created"))
        end
  | DELETE =>
      let* admin := sess_admin in
      if negb (truthy_bool admin) then
        abort 401 "Only administrators can perform this operation"
      else
        let* db := get_db in
        commit (mkDb (db_users db) [] []);;
        respond (Text 200 "All categories and items deleted")
  | _ => no_response
  end.

(** [/api/categories/<int:category_id>/]: GET, DELETE.  The DELETE branch's
    existence check calls [abort] without [return]; [abort] raises, so the
    answer is the same. *)
Definition apiManageCategory (r : Request) (cid : Z) : Handler Response :=
  match req_method r with
  | GET =>
      let* db := get_db in
      match tbl_get category_id cid (db_categories db) with
      | None => abort 400 "Category does not exist"
      | Some _ =>
          respond (Json 200 (JList (map item_serialize
            (List.filter (fun it => item_category_id it =? cid) (db_items db)))))
      end
  | DELETE =>
      let* admin := sess_admin in
      if negb (truthy_bool admin) then
        abort 401 "Only administrators can perform this operation"
      else
        let* db := get_db in
        match tbl_get category_id cid (db_categories db) with
        | None => abort 400 "Category does not exist"
        | Some _ =>
            commit (mkDb (db_users db)
                      (tbl_delete (fun c => category_id c =? cid) (db_categories db))
                      (tbl_delete (fun it => item_category_id it =? cid) (db_items db)));;
            respond (Text 200 "Category deleted")
        end
  | _ => no_response
  end.

(** [/api/items/]: GET, POST, DELETE *)
Definition apiAllItems (r : Request) : Handler Response :=
  match req_method r with
  | GET =>
      let* db := get_db in
      respond (Json 200 (JObj [("items", JList (map item_serialize (db_items db)))]))
  | POST =>
      let b := req_json r in
      let* name := body_get b "name" in
      let* desc := body_get b "description" in
      let* category := body_get b "category" in
      match name, desc, category with
      | Some name, Some desc, Some category =>
          if truthy name && truthy desc && truthy category then
            let* db := get_db in
            match tbl_first (fun it => String.eqb (item_name it) name) (db_items db) with
            | Some _ => abort 400 "Item already exists"
            | None =>
                match tbl_first (fun c => String.eqb (category_name c) category)
                                (db_categories db) with
                | None => abort 400 "Category does not exist"
                | Some cat =>
                    let* uid := sess_userId in
                    match uid with
                    | None => raise "KeyError"
                    | Some uid =>
                        let mk id := mkItem id name desc (category_id cat)
                                            (req_now r) (req_now r) uid in
                        commit (with_items db (tbl_insert item_id mk (db_items db)));;
                        respond (Text 200 ("New item " ++ name ++ " sucessfully created"))
                    end
                end
            end
          else abort 400 "The name, description and category parameters must be supplied"
      | _, _, _ => abort 400 "The name, description and category parameters must be supplied"
      end
  | DELETE =>
      let* admin := sess_admin in
      if negb (truthy_bool admin) then
        respond (Text 200 "Only administrators can perform this operation")
      else
        let* db := get_db in
        commit (with_items db []);;
        respond (Text 200 "All items were deleted")
  | _ => no_response
  end.

(** Whether the session may change [it]: its owner, or an administrator. *)
Definition may_change (it : Item) (uid : option Z) (admin : option bool) : bool :=
  bool_decide (Some (item_user_id it) = uid) || truthy_bool admin.

(** The PUT branch's field updates, in the code's order: a new name (if
    given) must be unused by every item, this one included; a new category
    (if given) must exist, or the transaction is rolled back. *)
Definition put_item_fields (db : Db) (now : Z) (name desc category : option string)
           (itemData : Item) : Handler Item :=
  let* it1 :=
    match name with
    | Some n =>
        if truthy n then
          match tbl_first (fun it => String.eqb (item_name it) n) (db_items db) with
          | Some _ => abort 400 "The new item name has already been used"
          | None => em_ret (item_set_name n itemData)
          end
        else em_ret itemData
    | None => em_ret itemData
    end in
  let it2 := match desc with
             | Some d => if truthy d then item_set_description d it1 else it1
             | None => it1
             end in
  let* it3 :=
    match category with
    | Some c =>
        if truthy c then
          match tbl_first (fun k => String.eqb (category_name k) c) (db_categories db) with
          | None => abort 400 "The new category does not exist yet"
          | Some catData => em_ret (item_set_category_id (category_id catData) it2)
          end
        else em_ret it2
    | None => em_ret it2
    end in
  em_ret (item_set_last_edited now it3).

(** [/api/items/<int:item_id>/]: GET, PUT, DELETE *)
Definition apiManageItem (r : Request) (iid : Z) : Handler Response :=
  match req_method r with
  | GET =>
      let* db := get_db in
      match tbl_get item_id iid (db_items db) with
      | None => abort 400 "Item does not exist"
      | Some itemData => respond (Json 200 (JObj [("item", item_serialize itemData)]))
      end
  | PUT =>
      let b := req_json r in
      let* db := get_db in
      match tbl_get item_id iid (db_items db) with
      | None => abort 400 "Item does not exist"
      | Some itemData =>
          let* uid := sess_userId in
          let* admin := sess_admin in
          if negb (may_change itemData uid admin) then abort 401 "You cannot edit this item"
          else
            let* name := body_get b "name" in
            let* desc := body_get b "description" in
            let* category := body_get b "category" in
            let* it := put_item_fields db (req_now r) name desc category itemData in
            commit (with_items db (tbl_update item_id iid (fun _ => it) (db_items db)));;
            respond (Text 200 "Item sucessfully edited")
      end
  | DELETE =>
      let* db := get_db in
      match tbl_get item_id iid (db_items db) with
      | None => abort 400 "The requested item does not exist"
      | Some item =>
          let* uid := sess_userId in
          let* admin := sess_admin in
          if negb (may_change item uid admin) then abort 401 "You cannot edit this item"
          else
            commit (with_items db (tbl_delete (fun it => item_id it =? iid) (db_items db)));;
            respond (Text 200 ("Deleted item " ++ item_name item))
      end
  | _ => no_response
  end.

(** ** The invariant: every API view keeps it *)

Lemma apiAllCategories_preserves r : preserves (apiAllCategories r).
Proof.
  intros P HP db ss Hwf Hs. unfold apiAllCategories. destruct (req_method r); vsimp.
  all: repeat case_if; vsimp; try case_commit; finish_preserves.
Qed.

Lemma apiManageCategory_preserves r cid : preserves (apiManageCategory r cid).
Proof.
  intros P HP db ss Hwf Hs. unfold apiManageCategory. destruct (req_method r); vsimp.
  all: repeat case_if; vsimp; try case_commit; finish_preserves.
Qed.

Lemma apiAllItems_preserves r : preserves (apiAllItems r).
Proof.
  intros P HP db ss Hwf Hs. unfold apiAllItems. destruct (req_method r); vsimp.
  all: repeat case_if; vsimp; try case_commit; finish_preserves.
  rewrite !andb_true_iff in E3. destruct E3 as [[Hn _] _].
  eapply wf_insert_new_item; eauto. by apply truthy_spec.
Qed.

Lemma put_item_fields_state db now n d c itemData s :
  fst (put_item_fields db now n d c itemData s) = s.
Proof.
  unfold put_item_fields. vsimp. repeat case_if; vsimp; done.
Qed.

Lemma put_item_fields_ok `{OwnerPolicy owner_ok} db now n d c itemData s it :
  db_inv owner_ok db -> In itemData (db_items db) ->
  snd (put_item_fields db now n d c itemData s) = Ret it ->
  item_id it = item_id itemData /\ @item_row_ok owner_ok db it.
Proof.
  intros Hwf Hin. pose proof Hwf as [_ _ _ _ Hc Hu Hn].
  rewrite List.Forall_forall in Hc, Hu, Hn.
  unfold put_item_fields. vsimp. repeat case_if; vsimp; intros [= <-]; simpl;
    (split; [done|split; [|split]]); simpl; auto; try by eapply first_has_id.
  all: by apply truthy_spec.
Qed.

Lemma apiManageItem_preserves r iid : preserves (apiManageItem r iid).
Proof.
  intros P HP db ss Hwf Hs. unfold apiManageItem. destruct (req_method r); vsimp.
  all: repeat case_if; vsimp; try case_commit; try finish_preserves.
  apply tbl_get_Some in E as [Hin Hid].
  pose proof (put_item_fields_state db (req_now r) (g !! "name") (g !! "description")
                (g !! "category") i (mkHState db ss)) as Hst.
  pose proof (put_item_fields_ok db (req_now r) (g !! "name") (g !! "description")
                (g !! "category") i (mkHState db ss)) as Hok.
  destruct (put_item_fields _ _ _ _ _ _ _) as [s' [it|resp]]; simpl in Hst, Hok; subst s'.
  - destruct (Hok it Hwf Hin eq_refl) as [Hid' Hrow].
    case_commit; finish_preserves. apply wf_update_item; auto. congruence.
  - finish_preserves.
Qed.

(** ** Behaviour of each branch *)

(** Creating a category through the API under a name some category
    already has answers 400 and leaves the database and session unchanged. *)
Theorem apiAllCategories_post_duplicate r db ss b c :
  req_method r = POST -> truthy_Z (ls_userId ss) = true ->
  req_json r = Some b -> b !! "name" = Some (category_name c) ->
  In c (db_categories db) ->
  run_view (apiAllCategories r) db ss = (db, ss, Abort 400 "Category already exists").
Proof.
  intros Hm Hu Hb Hn Hc. unfold apiAllCategories. rewrite Hm. vsimp.
  rewrite Hu, Hb, Hn. simpl.
  destruct (find_In_Some (fun c0 => String.eqb (category_name c0) (category_name c))
              _ c Hc (String.eqb_refl _)) as [c' Hf].
  unfold tbl_first. by rewrite Hf.
Qed.

(** A logged-in API user creating a category under a fresh name gets a
    new row with the next rowid and that name, appended to the table; any
    string is accepted, the empty one included. *)
Theorem apiAllCategories_post_creates r db ss b n :
  db_wf db -> req_method r = POST -> truthy_Z (ls_userId ss) = true ->
  req_json r = Some b -> b !! "name" = Some n ->
  n ∉ map category_name (db_categories db) ->
  run_view (apiAllCategories r) db ss =
    (with_categories db (db_categories db ++
       [mkCategory (next_rowid category_id (db_categories db)) n]),
     ss, Text 200 ("New Category " ++ n ++ " created")).
Proof.
  intros Hwf Hm Hu Hb Hn Hfresh. unfold apiAllCategories. rewrite Hm. vsimp.
  rewrite Hu, Hb, Hn. simpl. unfold tbl_first. rewrite (proj2 (find_eqb_None _ _ _) Hfresh).
  rewrite commit_ok; [done|]. apply integrity_insert_category; [apply Hwf|done].
Qed.

(** C16: An administrator's DELETE of an existing category removes that
    category and exactly the items that reference it; every other row, the
    users and the session are untouched, and the database stays well
    formed. *)
Theorem apiManageCategory_delete_cascade r db ss cid :
  db_wf db -> req_method r = DELETE -> truthy_bool (ls_admin ss) = true ->
  has_id category_id cid (db_categories db) = true ->
  let '(db', ss', resp) := run_view (apiManageCategory r cid) db ss in
  resp = Text 200 "Category deleted" /\ ss' = ss /\ db_users db' = db_users db /\
  (forall it, In it (db_items db') <-> In it (db_items db) /\ item_category_id it <> cid) /\
  (forall c, In c (db_categories db') <-> In c (db_categories db) /\ category_id c <> cid) /\
  db_wf db'.
Proof.
  intros Hwf Hm Ha Hc. apply has_id_tbl_get in Hc as [c Hc].
  unfold apiManageCategory. rewrite Hm. vsimp. rewrite Ha. simpl. rewrite Hc.
  rewrite commit_ok by (apply integrity_delete, Hwf). vsimp.
  split_and!; auto using In_tbl_delete_id, wf_delete_category.
Qed.

(** An API item creation whose name, description or category is missing
    or empty answers 400 and changes nothing. *)
Theorem apiAllItems_post_missing_field r db ss b :
  req_method r = POST -> req_json r = Some b ->
  truthy_opt (b !! "name") && truthy_opt (b !! "description") &&
    truthy_opt (b !! "category") = false ->
  run_view (apiAllItems r) db ss =
    (db, ss, Abort 400 "The name, description and category parameters must be supplied").
Proof.
  intros Hm Hb Ht. unfold apiAllItems. rewrite Hm. vsimp. rewrite Hb.
  destruct (b !! "name"), (b !! "description"), (b !! "category"); simpl in *; try done.
  by rewrite Ht.
Qed.

(** An API item creation naming a category that does not exist answers
    400 and changes nothing. *)
Theorem apiAllItems_post_unknown_category r db ss b n d c :
  req_method r = POST -> req_json r = Some b ->
  b !! "name" = Some n -> b !! "description" = Some d -> b !! "category" = Some c ->
  truthy n && truthy d && truthy c = true ->
  n ∉ map item_name (db_items db) -> c ∉ map category_name (db_categories db) ->
  run_view (apiAllItems r) db ss = (db, ss, Abort 400 "Category does not exist").
Proof.
  intros Hm Hb Hn Hd Hc Ht Hfree Hnone. unfold apiAllItems. rewrite Hm. vsimp.
  rewrite Hb, Hn, Hd, Hc. simpl. rewrite Ht. simpl. unfold tbl_first.
  by rewrite (proj2 (find_eqb_None _ _ _) Hfree), (proj2 (find_eqb_None _ _ _) Hnone).
Qed.

(** C27: An API item creation with a fresh name and an existing category
    appends the item with the next rowid, both timestamps at the request's
    time, and the session's user as owner. *)
Theorem apiAllItems_post_creates r db ss b n d cat u :
  db_wf db -> req_method r = POST -> req_json r = Some b ->
  b !! "name" = Some n -> b !! "description" = Some d ->
  b !! "category" = Some (category_name cat) ->
  truthy n && truthy d && truthy (category_name cat) = true ->
  n ∉ map item_name (db_items db) -> In cat (db_categories db) -> ls_userId ss = Some u ->
  run_view (apiAllItems r) db ss =
    (with_items db (db_items db ++
       [mkItem (next_rowid item_id (db_items db)) n d (category_id cat)
               (req_now r) (req_now r) u]),
     ss, Text 200 ("New item " ++ n ++ " sucessfully created")).
Proof.
  intros Hwf Hm Hb Hn Hd Hc Ht Hfree Hcat Hu.
  pose proof (wf_integrity _ Hwf) as Hi. apply integrity_ok_spec in Hi as (Hcn & _).
  unfold apiAllItems. rewrite Hm. vsimp. rewrite Hb, Hn, Hd, Hc. simpl. rewrite Ht. simpl.
  unfold tbl_first at 1. rewrite (proj2 (find_eqb_None _ _ _) Hfree).
  rewrite (first_name_unique _ _ _ cat Hcn Hcat eq_refl). vsimp. rewrite Hu.
  rewrite commit_ok; [done|]. by apply integrity_insert_item; [apply Hwf|].
Qed.

(** C9: A PUT on an item by a session that is neither its owner nor an
    administrator answers 401 and changes nothing. *)
Theorem apiManageItem_put_forbidden r db ss it :
  db_wf db -> req_method r = PUT -> In it (db_items db) ->
  ls_userId ss <> Some (item_user_id it) -> truthy_bool (ls_admin ss) = false ->
  run_view (apiManageItem r (item_id it)) db ss = (db, ss, Abort 401 "You cannot edit this item").
Proof.
  intros Hwf Hm Hin Hu Ha. unfold apiManageItem. rewrite Hm. vsimp.
  rewrite (tbl_get_wf _ _ _ (wf_items _ Hwf) Hin). vsimp. unfold may_change.
  rewrite Ha, bool_decide_false by congruence. done.
Qed.

(** C10: A DELETE of an item by a session that is neither its owner nor an
    administrator answers 401 and changes nothing. *)
Theorem apiManageItem_delete_forbidden r db ss it :
  db_wf db -> req_method r = DELETE -> In it (db_items db) ->
  ls_userId ss <> Some (item_user_id it) -> truthy_bool (ls_admin ss) = false ->
  run_view (apiManageItem r (item_id it)) db ss = (db, ss, Abort 401 "You cannot edit this item").
Proof.
  intros Hwf Hm Hin Hu Ha. unfold apiManageItem. rewrite Hm. vsimp.
  rewrite (tbl_get_wf _ _ _ (wf_items _ Hwf) Hin). vsimp. unfold may_change.
  rewrite Ha, bool_decide_false by congruence. done.
Qed.

(** C29: A PUT by the item's owner that sets the name the item already has
    answers 400: the uniqueness query does not exclude the item itself. *)
Theorem apiManageItem_put_own_name r db ss it b :
  db_wf db -> req_method r = PUT -> In it (db_items db) ->
  ls_userId ss = Some (item_user_id it) ->
  req_json r = Some b -> b !! "name" = Some (item_name it) ->
  run_view (apiManageItem r (item_id it)) db ss =
    (db, ss, Abort 400 "The new item name has already been used").
Proof.
  intros Hwf Hm Hin Hu Hb Hn. pose proof (wf_item_name _ Hwf) as Hne.
  rewrite List.Forall_forall in Hne.
  unfold apiManageItem. rewrite Hm. vsimp.
  rewrite (tbl_get_wf _ _ _ (wf_items _ Hwf) Hin). vsimp. unfold may_change.
  rewrite Hu, bool_decide_true by done. simpl. rewrite Hb. vsimp.
  unfold put_item_fields. vsimp. rewrite Hn.
  rewrite (proj2 (truthy_spec _) (Hne it Hin)).
  destruct (find_In_Some (fun x => String.eqb (item_name x) (item_name it))
              _ it Hin (String.eqb_refl _)) as [y Hy].
  unfold tbl_first. by rewrite Hy.
Qed.

(** C15: A DELETE of all items by a session without the admin flag answers
    with status 200 and a refusal text, not 401, and deletes nothing. *)
Theorem apiAllItems_delete_nonadmin r db ss :
  req_method r = DELETE -> truthy_bool (ls_admin ss) = false ->
  run_view (apiAllItems r) db ss =
    (db, ss, Text 200 "Only administrators can perform this operation").
Proof. intros Hm Ha. unfold apiAllItems. rewrite Hm. vsimp. by rewrite Ha. Qed.

(** A DELETE of an item by its owner or an administrator removes
    exactly that item and touches no other table. *)
Theorem apiManageItem_delete_authorized r db ss it :
  db_wf db -> req_method r = DELETE -> In it (db_items db) ->
  may_change it (ls_userId ss) (ls_admin ss) = true ->
  let '(db', ss', resp) := run_view (apiManageItem r (item_id it)) db ss in
  resp = Text 200 ("Deleted item " ++ item_name it) /\ ss' = ss /\
  db_users db' = db_users db /\ db_categories db' = db_categories db /\
  (forall x, In x (db_items db') <-> In x (db_items db) /\ item_id x <> item_id it) /\
  db_wf db'.
Proof.
  intros Hwf Hm Hin Hc. unfold apiManageItem. rewrite Hm. vsimp.
  rewrite (tbl_get_wf _ _ _ (wf_items _ Hwf) Hin). vsimp. rewrite Hc. simpl.
  rewrite commit_ok; [vsimp|].
  - split_and!; auto using In_tbl_delete_id, wf_delete_items.
  - pose proof (wf_delete_items db Hwf (fun x => item_id x =? item_id it)) as W.
    apply W.
Qed.

(** C28: A PUT by the owner or an administrator giving a fresh name, a
    description and an existing category rewrites those three columns and
    [last_edited] to the request's time, keeping the id, creation date and
    owner. *)
Theorem apiManageItem_put_edits r db ss it b n d cat :
  db_wf db -> req_method r = PUT -> In it (db_items db) ->
  may_change it (ls_userId ss) (ls_admin ss) = true ->
  req_json r = Some b -> b !! "name" = Some n -> b !! "description" = Some d ->
  b !! "category" = Some (category_name cat) ->
  truthy n && truthy d && truthy (category_name cat) = true ->
  n ∉ map item_name (db_items db) -> In cat (db_categories db) ->
  run_view (apiManageItem r (item_id it)) db ss =
    (with_items db (tbl_update item_id (item_id it)
       (fun _ => mkItem (item_id it) n d (category_id cat) (item_creation_date it)
                        (req_now r) (item_user_id it)) (db_items db)),
     ss, Text 200 "Item sucessfully edited").
Proof.
  intros Hwf Hm Hin Hc Hb Hn Hd Hcat Ht Hfree Hcin.
  pose proof (wf_integrity _ Hwf) as Hi. apply integrity_ok_spec in Hi as (Hcn & _).
  rewrite !andb_true_iff in Ht. destruct Ht as [[Htn Htd] Htc].
  unfold apiManageItem. rewrite Hm. vsimp.
  rewrite (tbl_get_wf _ _ _ (wf_items _ Hwf) Hin). vsimp. rewrite Hc. simpl. rewrite Hb. vsimp.
  unfold put_item_fields. vsimp. rewrite Hn, Hd, Hcat, Htn, Htd, Htc.
  unfold tbl_first at 1. rewrite (proj2 (find_eqb_None _ _ _) Hfree).
  rewrite (first_name_unique _ _ _ cat Hcn Hcin eq_refl). vsimp.
  rewrite commit_ok; [done|]. apply integrity_update_item; [apply Hwf|apply Hwf|].
  intros x _ _. by right.
Qed.

Lemma apiAllCategories_post_duplicate_witness :
  run_view (apiAllCategories (api_req POST {["name" := "Soccer"]})) demo_db alice_session =
    (demo_db, alice_session, Abort 400 "Category already exists").
Proof.
  apply (apiAllCategories_post_duplicate _ _ _ {["name" := "Soccer"]} (mkCategory 1 "Soccer"));
    try reflexivity.
  simpl. auto.
Defined.

(** The empty name is accepted: the API has no check the page route has. *)
Lemma apiAllCategories_post_creates_witness :
  run_view (apiAllCategories (api_req POST {["name" := ""]})) demo_db alice_session =
    (with_categories demo_db (db_categories demo_db ++
       [mkCategory (next_rowid category_id (db_categories demo_db)) ""]),
     alice_session, Text 200 ("New Category " ++ "" ++ " created")).
Proof.
  apply (apiAllCategories_post_creates _ _ _ {["name" := ""]} "");
    [apply db_wfb_sound; vm_compute|..]; try reflexivity.
  simpl. rewrite list_elem_of_In. simpl. intuition discriminate.
Defined.

Lemma apiManageCategory_delete_cascade_witness :
  let '(db', ss', resp) := run_view (apiManageCategory (api_req DELETE ∅) 1) demo_db root_session in
  resp = Text 200 "Category deleted" /\ ss' = root_session /\
  db_users db' = db_users demo_db /\
  (forall it, In it (db_items db') <-> In it (db_items demo_db) /\ item_category_id it <> 1) /\
  (forall c, In c (db_categories db') <-> In c (db_categories demo_db) /\ category_id c <> 1) /\
  db_wf db'.
Proof.
  apply apiManageCategory_delete_cascade; [apply db_wfb_sound; vm_compute|..]; reflexivity.
Defined.

Lemma apiAllItems_post_missing_field_witness :
  run_view (apiAllItems (api_req POST {["name" := "Lamp"]})) demo_db alice_session =
    (demo_db, alice_session,
     Abort 400 "The name, description and category parameters must be supplied").
Proof. apply (apiAllItems_post_missing_field _ _ _ {["name" := "Lamp"]}); reflexivity. Defined.

Definition lamp_body (cat : string) : gmap string string :=
  {["name" := "Lamp"; "description" := "Bright"; "category" := cat]}.

Lemma apiAllItems_post_unknown_category_witness :
  run_view (apiAllItems (api_req POST (lamp_body "Music"))) demo_db alice_session =
    (demo_db, alice_session, Abort 400 "Category does not exist").
Proof.
  apply (apiAllItems_post_unknown_category _ _ _ (lamp_body "Music") "Lamp" "Bright" "Music");
    try reflexivity; by_decide.
Defined.

Lemma apiAllItems_post_creates_witness :
  run_view (apiAllItems (api_req POST (lamp_body "Chess"))) demo_db alice_session =
    (with_items demo_db (db_items demo_db ++
       [mkItem (next_rowid item_id (db_items demo_db)) "Lamp" "Bright" 2 100 100 1]),
     alice_session, Text 200 ("New item " ++ "Lamp" ++ " sucessfully created")).
Proof.
  apply (apiAllItems_post_creates (api_req POST (lamp_body "Chess")) demo_db alice_session
           (lamp_body "Chess") "Lamp" "Bright"
           (mkCategory 2 "Chess") 1);
    [apply db_wfb_sound; vm_compute|..]; try reflexivity; [by_decide|].
  simpl. auto.
Defined.

Lemma apiManageItem_put_forbidden_witness :
  run_view (apiManageItem (api_req PUT {["name" := "Globe"]}) 1) demo_db bob_session =
    (demo_db, bob_session, Abort 401 "You cannot edit this item").
Proof.
  apply (apiManageItem_put_forbidden _ _ _ (mkItem 1 "Ball" "A round ball" 1 10 10 1));
    [apply db_wfb_sound; vm_compute|..]; try reflexivity; [simpl; auto|discriminate].
Defined.

Lemma apiManageItem_delete_forbidden_witness :
  run_view (apiManageItem (api_req DELETE ∅) 1) demo_db bob_session =
    (demo_db, bob_session, Abort 401 "You cannot edit this item").
Proof.
  apply (apiManageItem_delete_forbidden _ _ _ (mkItem 1 "Ball" "A round ball" 1 10 10 1));
    [apply db_wfb_sound; vm_compute|..]; try reflexivity; [simpl; auto|discriminate].
Defined.

Definition ball : Item := mkItem 1 "Ball" "A round ball" 1 10 10 1.

Lemma apiManageItem_put_own_name_witness :
  run_view (apiManageItem (api_req PUT {["name" := "Ball"]}) 1) demo_db alice_session =
    (demo_db, alice_session, Abort 400 "The new item name has already been used").
Proof.
  apply (apiManageItem_put_own_name _ _ _ ball {["name" := "Ball"]});
    [apply db_wfb_sound; vm_compute|..]; try reflexivity. simpl. auto.
Defined.

Lemma apiAllItems_delete_nonadmin_witness :
  run_view (apiAllItems (api_req DELETE ∅)) demo_db alice_session =
    (demo_db, alice_session, Text 200 "Only administrators can perform this operation").
Proof. apply apiAllItems_delete_nonadmin; reflexivity. Defined.

(** The administrator deletes alice's item. *)
Lemma apiManageItem_delete_authorized_witness :
  let '(db', ss', resp) := run_view (apiManageItem (api_req DELETE ∅) 1) demo_db root_session in
  resp = Text 200 ("Deleted item " ++ "Ball") /\ ss' = root_session /\
  db_users db' = db_users demo_db /\ db_categories db' = db_categories demo_db /\
  (forall x, In x (db_items db') <-> In x (db_items demo_db) /\ item_id x <> 1) /\
  db_wf db'.
Proof.
  apply (apiManageItem_delete_authorized _ _ _ ball);
    [apply db_wfb_sound; vm_compute|..]; try reflexivity. simpl. auto.
Defined.

(** The administrator edits alice's item through the API. *)
Lemma apiManageItem_put_edits_witness :
  run_view (apiManageItem (api_req PUT (lamp_body "Chess")) 1) demo_db root_session =
    (with_items demo_db (tbl_update item_id 1
       (fun _ => mkItem 1 "Lamp" "Bright" 2 10 100 1) (db_items demo_db)),
     root_session, Text 200 "Item sucessfully edited").
Proof.
  apply (apiManageItem_put_edits (api_req PUT (lamp_body "Chess")) demo_db root_session ball
           (lamp_body "Chess") "Lamp" "Bright" (mkCategory 2 "Chess"));
    [apply db_wfb_sound; vm_compute|..]; try reflexivity; [simpl; auto|by_decide|simpl; auto].
Defined.
