(* ===== verification/Pages.v ===== *)
(** * The server-rendered views of [project.py]

    [showHome], [newItem], [newCategory], [showCategory], [showItem],
    [editItem], [deleteItem].  They read the user from the session (set by
    Google sign-in or by a basic-auth request), answer with a template, a
    redirect with a flash message, or an abort.  The page routes check
    ownership against the session's user only: the admin flag is not
    consulted.  The theorems give each branch's answer, the order of the
    home page's latest items, and that every view keeps the invariant. *)

From S2P Require Import Prelude Crypto Schema Http.
From Stdlib Require Import Sorting.Sorted Permutation.
From stdpp Require Import gmap sorting.
Local Open Scope Z_scope.
Local Open Scope catalog_scope.

(** ** [order_by(desc(Item.creation_date)).limit(5)]

    A stable sort, newest first; rows with the same date stay in rowid
    order. *)

Fixpoint insert_desc (it : Item) (l : list Item) : list Item :=
  match l with
  | [] => [it]
  | x :: l' =>
      if item_creation_date x <=? item_creation_date it then it :: l
      else x :: insert_desc it l'
  end.

Fixpoint sort_desc (l : list Item) : list Item :=
  match l with
  | [] => []
  | it :: l' => insert_desc it (sort_desc l')
  end.

Definition latest_items (items : list Item) : list Item := firstn 5 (sort_desc items).

(** [GET /] and [GET /catalog/]: draws the anti-forgery state, stores it
    in the session, renders the categories and the latest items. *)
Definition showHome (r : Request) : Handler Response :=
  let* userId := sess_userId in
  let state := random_token (req_draws r) in
  set_sess (set_state (Some state));;
  let* db := get_db in
  respond (Render (THome (db_categories db) (latest_items (db_items db)) userId state)).

(** The answer of a page route to a session without a user. *)
Definition not_connected : Handler Response :=
  flash "User is not connected";;
  respond (Redirect "showHome" []).

(** [/catalog/items/new/]: GET, POST.  After the field checks the code
    tests [if not category] on the form value, not on the query result:
    an unknown category reaches [categoryData.id] on [None]. *)
Definition newItem (r : Request) : Handler Response :=
  let* userId := sess_userId in
  match userId with
  | None => not_connected
  | Some uid =>
      let* db := get_db in
      match req_method r with
      | GET => respond (Render (TNewItem (db_categories db)))
      | POST =>
          let* name := form_get r "name" in
          let* description := form_get r "description" in
          let* category := form_get r "category" in
          if truthy name && truthy description && truthy category then
            match tbl_first (fun it => String.eqb (item_name it) name) (db_items db) with
            | Some _ => abort 400 "Item already exists"
            | None =>
                let categoryData :=
                  tbl_first (fun c => String.eqb (category_name c) category) (db_categories db) in
                if negb (truthy category) then abort 400 "Category does not exist"
                else
                  match categoryData with
                  | None => raise "AttributeError"
                  | Some cd =>
                      let mk id := mkItem id name description (category_id cd)
                                          (req_now r) (req_now r) uid in
                      commit (with_items db (tbl_insert item_id mk (db_items db)));;
                      flash ("New item " ++ name ++ " created!");;
                      respond (Redirect "showHome" [])
                  end
            end
          else abort 400 "The name, description and category parameters must be supplied"
      | _ => no_response
      end
  end.

(** [/catalog/categories/new/]: GET, POST *)
Definition newCategory (r : Request) : Handler Response :=
  let* userId := sess_userId in
  match userId with
  | None => not_connected
  | Some _ =>
      match req_method r with
      | GET => respond (Render TNewCategory)
      | POST =>
          let* name := form_get r "name" in
          if negb (truthy name) then abort 400 "No category name provided"
          else
            let* db := get_db in
            match tbl_first (fun c => String.eqb (category_name c) name) (db_categories db) with
            | Some _ => abort 400 "Category already exists"
            | None =>
                commit (with_categories db
                          (tbl_insert category_id (fun id => mkCategory id name) (db_categories db)));;
                flash ("New category " ++ name ++ " created!");;
                respond (Redirect "showHome" [])
            end
      | _ => no_response
      end
  end.

(** [GET /catalog/<int:category_id>/] *)
Definition showCategory (cid : Z) : Handler Response :=
  let* userId := sess_userId in
  let* db := get_db in
  match tbl_get category_id cid (db_categories db) with
  | None => abort 404 "Not Found"
  | Some categoryData =>
      respond (Render (TCategory categoryData
                 (List.filter (fun it => item_category_id it =? cid) (db_items db)) userId))
  end.

(** [GET /catalog/items/<int:item_id>/] *)
Definition showItem (iid : Z) : Handler Response :=
  let* userId := sess_userId in
  let* db := get_db in
  match tbl_get item_id iid (db_items db) with
  | None => abort 404 "Not Found"
  | Some itemData =>
      respond (Render (TItem (tbl_get category_id (item_category_id itemData) (db_categories db))
                             itemData userId))
  end.

(** The POST branch of [editItem] after its guards: each non-empty field
    is assigned; a non-empty category name that matches no category reaches
    [newCategory.id] on [None]. *)
Definition edit_item_fields (db : Db) (now : Z) (newName newDesc newCat : string)
           (itemData : Item) : Handler Item :=
  let newCategory :=
    if truthy newCat then tbl_first (fun c => String.eqb (category_name c) newCat)
                                    (db_categories db)
    else None in
  let it1 := if truthy newName then item_set_name newName itemData else itemData in
  let it2 := if truthy newDesc then item_set_description newDesc it1 else it1 in
  let* it3 :=
    if truthy newCat then
      match newCategory with
      | None => raise "AttributeError"
      | Some nc => em_ret (item_set_category_id (category_id nc) it2)
      end
    else em_ret it2 in
  em_ret (item_set_last_edited now it3).

(** [/catalog/items/<int:item_id>/edit/]: GET, POST *)
Definition editItem (r : Request) (iid : Z) : Handler Response :=
  let* userId := sess_userId in
  match userId with
  | None => not_connected
  | Some uid =>
      let* db := get_db in
      match tbl_get item_id iid (db_items db) with
      | None => abort 404 "Not Found"
      | Some itemData =>
          if negb (bool_decide (item_user_id itemData = uid)) then
            flash ("User cannot edit item " ++ item_name itemData);;
            respond (Redirect "showHome" [])
          else
            match req_method r with
            | GET =>
                match tbl_get category_id (item_category_id itemData) (db_categories db) with
                | None => raise "AttributeError"
                | Some itemCategory =>
                    respond (Render (TEditItem (db_categories db) itemData
                                               (category_name itemCategory)))
                end
            | POST =>
                let* newName := form_get r "name" in
                let* newDesc := form_get r "description" in
                let* newCat := form_get r "category" in
                if negb (truthy newName) && negb (truthy newDesc) && negb (truthy newCat) then
                  flash "Item not edited";;
                  respond (Redirect "showItem" [("item_id", iid)])
                else if negb (String.eqb newName (item_name itemData)) &&
                        found (tbl_first (fun it => String.eqb (item_name it) newName)
                                         (db_items db)) then
                  abort 400 "This item name has already been used"
                else
                  let* it := edit_item_fields db (req_now r) newName newDesc newCat itemData in
                  commit (with_items db (tbl_update item_id iid (fun _ => it) (db_items db)));;
                  flash "Item successfully edited";;
                  respond (Redirect "showItem" [("category_id", item_category_id it); ("item_id", iid)])
            | _ => no_response
            end
      end
  end.

(** [/catalog/items/<int:item_id>/delete/]: GET, POST *)
Definition deleteItem (r : Request) (iid : Z) : Handler Response :=
  let* userId := sess_userId in
  match userId with
  | None => not_connected
  | Some uid =>
      let* db := get_db in
      match tbl_get item_id iid (db_items db) with
      | None => abort 404 "Not Found"
      | Some itemData =>
          if negb (bool_decide (item_user_id itemData = uid)) then
            flash ("User cannot delete item " ++ item_name itemData);;
            respond (Redirect "showHome" [])
          else
            match req_method r with
            | GET => respond (Render (TDeleteItem itemData))
            | POST =>
                commit (with_items db (tbl_delete (fun it => item_id it =? iid) (db_items db)));;
                flash ("Item " ++ item_name itemData ++ " successfully deleted");;
                respond (Redirect "showCategory" [("category_id", item_category_id itemData)])
            | _ => no_response
            end
      end
  end.

(** ** The invariant: every page view keeps it *)

Lemma not_connected_preserves : preserves not_connected.
Proof. intros P HP db ss Hwf Hs. unfold not_connected. vsimp. finish_preserves. Qed.

Lemma showHome_preserves r : preserves (showHome r).
Proof. intros P HP db ss Hwf Hs. unfold showHome. vsimp. finish_preserves. Qed.

Lemma showCategory_preserves cid : preserves (showCategory cid).
Proof. intros P HP db ss Hwf Hs. unfold showCategory. vsimp. repeat case_if; vsimp; finish_preserves. Qed.

Lemma showItem_preserves iid : preserves (showItem iid).
Proof. intros P HP db ss Hwf Hs. unfold showItem. vsimp. repeat case_if; vsimp; finish_preserves. Qed.

Lemma newCategory_preserves r : preserves (newCategory r).
Proof.
  intros P HP db ss Hwf Hs. unfold newCategory, not_connected. destruct (req_method r); vsimp.
  all: repeat case_if; vsimp; try case_commit; finish_preserves.
Qed.

Lemma newItem_preserves r : preserves (newItem r).
Proof.
  intros P HP db ss Hwf Hs. unfold newItem, not_connected. destruct (req_method r); vsimp.
  all: repeat case_if; vsimp; try case_commit; try finish_preserves.
  rewrite !andb_true_iff in E4. destruct E4 as [[Hn _] _].
  eapply wf_insert_new_item; eauto. by apply truthy_spec.
Qed.

Lemma edit_item_fields_state db now n d c itemData s :
  fst (edit_item_fields db now n d c itemData s) = s.
Proof. unfold edit_item_fields. vsimp. repeat case_if; vsimp; done. Qed.

Lemma edit_item_fields_ok `{OwnerPolicy owner_ok} db now n d c itemData s it :
  db_inv owner_ok db -> In itemData (db_items db) ->
  snd (edit_item_fields db now n d c itemData s) = Ret it ->
  item_id it = item_id itemData /\ @item_row_ok owner_ok db it.
Proof.
  intros Hwf Hin. pose proof Hwf as [_ _ _ _ Hc Hu Hn].
  rewrite List.Forall_forall in Hc, Hu, Hn.
  unfold edit_item_fields. vsimp. repeat case_if; vsimp; intros [= <-]; simpl;
    (split; [done|split; [|split]]); simpl; auto; try by eapply first_has_id.
  all: by apply truthy_spec.
Qed.

Lemma editItem_preserves r iid : preserves (editItem r iid).
Proof.
  intros P HP db ss Hwf Hs. unfold editItem, not_connected. destruct (req_method r); vsimp.
  all: repeat case_if; vsimp; try case_commit; try finish_preserves.
  apply tbl_get_Some in E0 as [Hin Hid].
  pose proof (edit_item_fields_state db (req_now r) s s0 s1 i (mkHState db ss)) as Hst.
  pose proof (edit_item_fields_ok db (req_now r) s s0 s1 i (mkHState db ss)) as Hok.
  destruct (edit_item_fields _ _ _ _ _ _ _) as [s' [it|resp]]; simpl in Hst, Hok; subst s'.
  - destruct (Hok it Hwf Hin eq_refl) as [Hid' Hrow].
    case_commit; finish_preserves. apply wf_update_item; auto. congruence.
  - finish_preserves.
Qed.

Lemma deleteItem_preserves r iid : preserves (deleteItem r iid).
Proof.
  intros P HP db ss Hwf Hs. unfold deleteItem, not_connected. destruct (req_method r); vsimp.
  all: repeat case_if; vsimp; try case_commit; finish_preserves.
Qed.

(** ** The latest items *)

(** [a] is listed before [b]: [b] is not newer. *)
Definition newer_eq (a b : Item) : Prop := item_creation_date b <= item_creation_date a.

#[local] Instance newer_eq_trans : Transitive newer_eq.
Proof. intros a b c; unfold newer_eq; lia. Qed.

Lemma insert_desc_perm it l : Permutation (insert_desc it l) (it :: l).
Proof.
  induction l as [|x l IH]; simpl; [done|].
  destruct (item_creation_date x <=? item_creation_date it); [done|].
  rewrite IH. apply perm_swap.
Qed.

Lemma sort_desc_perm l : Permutation (sort_desc l) l.
Proof. induction l as [|x l IH]; simpl; [done|]. by rewrite insert_desc_perm, IH. Qed.

Lemma insert_desc_sorted it l : Sorted newer_eq l -> Sorted newer_eq (insert_desc it l).
Proof.
  induction 1 as [|x l Hl IH Hx]; simpl; [repeat constructor|].
  destruct (Z.leb_spec (item_creation_date x) (item_creation_date it)) as [Hle|Hgt].
  - constructor; [by constructor|]. constructor. unfold newer_eq. lia.
  - constructor; [done|]. destruct l as [|y l]; simpl.
    + constructor. unfold newer_eq. lia.
    + inversion Hx; subst. destruct (item_creation_date y <=? item_creation_date it);
        constructor; unfold newer_eq in *; lia.
Qed.

Lemma sort_desc_sorted l : StronglySorted newer_eq (sort_desc l).
Proof.
  apply Sorted_StronglySorted; [apply newer_eq_trans|].
  induction l; simpl; [constructor|]. by apply insert_desc_sorted.
Qed.

(** What [latest_items] promises: at most five rows of the table, newest
    first, and no row left out is newer than a row shown. *)
Lemma latest_items_spec items :
  length (latest_items items) = Nat.min 5 (length items) /\
  StronglySorted newer_eq (latest_items items) /\
  (forall x, In x (latest_items items) -> In x items) /\
  (forall x y, In x items -> ~ In x (latest_items items) -> In y (latest_items items) ->
     item_creation_date x <= item_creation_date y).
Proof.
  unfold latest_items. pose proof (sort_desc_perm items) as Hp.
  pose proof (sort_desc_sorted items) as Hs.
  rewrite <- (firstn_skipn 5 (sort_desc items)) in Hs.
  split_and!.
  - by rewrite length_firstn, (Permutation_length Hp).
  - by eapply StronglySorted_app_1_l.
  - intros x Hx. apply (Permutation_in _ Hp).
    rewrite <- (firstn_skipn 5 (sort_desc items)). apply in_or_app. by left.
  - intros x y Hx Hnx Hy.
    apply (Permutation_in _ (Permutation_sym Hp)) in Hx.
    rewrite <- (firstn_skipn 5 (sort_desc items)) in Hx.
    apply in_app_or in Hx as [Hx|Hx]; [done|].
    apply (StronglySorted_app_1_elem_of _ _ _ y x Hs); by apply list_elem_of_In.
Qed.

(** ** Behaviour of each branch *)

(** C34: The home page stores a fresh anti-forgery state in the session and
    renders every category with at most five items of the table, newest
    first, such that no item left out is newer than an item shown; the
    database is unchanged. *)
Theorem showHome_renders_latest r db ss :
  let '(db', ss', resp) := run_view (showHome r) db ss in
  db' = db /\ ls_state ss' = Some (random_token (req_draws r)) /\ ls_userId ss' = ls_userId ss /\
  exists latest,
    resp = Render (THome (db_categories db) latest (ls_userId ss) (random_token (req_draws r))) /\
    length latest = Nat.min 5 (length (db_items db)) /\
    StronglySorted newer_eq latest /\
    (forall x, In x latest -> In x (db_items db)) /\
    (forall x y, In x (db_items db) -> ~ In x latest -> In y latest ->
       item_creation_date x <= item_creation_date y).
Proof.
  unfold showHome. vsimp. split_and!; try done.
  exists (latest_items (db_items db)). split; [done|]. apply latest_items_spec.
Qed.

(** C12: Every page route that changes data, reached by a session without a
    user, flashes "User is not connected", redirects home and changes no
    row. *)
Theorem pages_require_login r iid db ss v :
  ls_userId ss = None ->
  v = newItem r \/ v = newCategory r \/ v = editItem r iid \/ v = deleteItem r iid ->
  run_view v db ss = (db, push_flash "User is not connected" ss, Redirect "showHome" []).
Proof.
  intros Hu Hv. destruct Hv as [-> | [-> | [-> | ->]]];
    unfold newItem, newCategory, editItem, deleteItem, not_connected; vsimp; by rewrite Hu.
Qed.

(** Creating a category on the page route under a name some category
    already has answers 400 and changes nothing. *)
Theorem newCategory_duplicate r db ss u c :
  req_method r = POST -> ls_userId ss = Some u ->
  form_lookup r "name" = Some (category_name c) -> category_name c <> "" ->
  In c (db_categories db) ->
  run_view (newCategory r) db ss = (db, ss, Abort 400 "Category already exists").
Proof.
  intros Hm Hu Hn Hne Hc. unfold newCategory. vsimp. rewrite Hu, Hm. vsimp. rewrite Hn.
  rewrite (proj2 (truthy_spec _) Hne). simpl.
  destruct (find_In_Some (fun c0 => String.eqb (category_name c0) (category_name c))
              _ c Hc (String.eqb_refl _)) as [c' Hf].
  unfold tbl_first. by rewrite Hf.
Qed.

(** Creating a category on the page route with an empty name answers
    400 and changes nothing. *)
Theorem newCategory_empty_name r db ss u :
  req_method r = POST -> ls_userId ss = Some u -> form_lookup r "name" = Some "" ->
  run_view (newCategory r) db ss = (db, ss, Abort 400 "No category name provided").
Proof. intros Hm Hu Hn. unfold newCategory. vsimp. rewrite Hu, Hm. vsimp. by rewrite Hn. Qed.

(** Creating an item on the page route with an empty name, description
    or category answers 400 and changes nothing. *)
Theorem newItem_missing_field r db ss u n d c :
  req_method r = POST -> ls_userId ss = Some u ->
  form_lookup r "name" = Some n -> form_lookup r "description" = Some d ->
  form_lookup r "category" = Some c ->
  truthy n && truthy d && truthy c = false ->
  run_view (newItem r) db ss =
    (db, ss, Abort 400 "The name, description and category parameters must be supplied").
Proof.
  intros Hm Hu Hn Hd Hc Ht. unfold newItem. vsimp. rewrite Hu, Hm. vsimp.
  by rewrite Hn, Hd, Hc, Ht.
Qed.

(** C30: Creating an item on the page route that names a category no row
    has is rejected without a change, but as an uncaught AttributeError
    (status 500), not the intended 400: the guard tests the form value
    instead of the query's result. *)
Theorem newItem_unknown_category r db ss u n d c :
  req_method r = POST -> ls_userId ss = Some u ->
  form_lookup r "name" = Some n -> form_lookup r "description" = Some d ->
  form_lookup r "category" = Some c ->
  truthy n && truthy d && truthy c = true ->
  n ∉ map item_name (db_items db) -> c ∉ map category_name (db_categories db) ->
  run_view (newItem r) db ss = (db, ss, ServerError "AttributeError").
Proof.
  intros Hm Hu Hn Hd Hc Ht Hfree Hnone. unfold newItem. vsimp. rewrite Hu, Hm. vsimp.
  rewrite Hn, Hd, Hc, Ht. simpl. unfold tbl_first.
  rewrite (proj2 (find_eqb_None _ _ _) Hfree), (proj2 (find_eqb_None _ _ _) Hnone).
  rewrite !andb_true_iff in Ht. destruct Ht as [_ Htc]. by rewrite Htc.
Qed.

(** The POST of a new item with a fresh name, naming an existing
    category, by a session naming any owner id. *)
Lemma newItem_post_inserts {owner_ok} r db ss u n d cat :
  db_inv owner_ok db -> req_method r = POST -> ls_userId ss = Some u ->
  form_lookup r "name" = Some n -> form_lookup r "description" = Some d ->
  form_lookup r "category" = Some (category_name cat) ->
  truthy n && truthy d && truthy (category_name cat) = true ->
  n ∉ map item_name (db_items db) -> In cat (db_categories db) ->
  run_view (newItem r) db ss =
    (with_items db (db_items db ++
       [mkItem (next_rowid item_id (db_items db)) n d (category_id cat) (req_now r) (req_now r) u]),
     push_flash ("New item " ++ n ++ " created!") ss, Redirect "showHome" []).
Proof.
  intros Hwf Hm Hu Hn Hd Hc Ht Hfree Hcat.
  pose proof (wf_integrity _ Hwf) as Hi. apply integrity_ok_spec in Hi as (Hcn & _).
  unfold newItem. vsimp. rewrite Hu, Hm. vsimp. rewrite Hn, Hd, Hc, Ht. simpl.
  unfold tbl_first at 1. rewrite (proj2 (find_eqb_None _ _ _) Hfree).
  rewrite (first_name_unique _ _ _ cat Hcn Hcat eq_refl).
  rewrite !andb_true_iff in Ht. destruct Ht as [_ Htc]. rewrite Htc. simpl.
  rewrite commit_ok; [done|]. by apply integrity_insert_item; [apply Hwf|].
Qed.

(** C32: Creating an item on the page route with a fresh name and an
    existing category appends the item, owned by the session's user and
    stamped with the request's time, flashes a confirmation and redirects
    home. *)
Theorem newItem_creates r db ss u n d cat :
  db_wf db -> req_method r = POST -> ls_userId ss = Some u ->
  form_lookup r "name" = Some n -> form_lookup r "description" = Some d ->
  form_lookup r "category" = Some (category_name cat) ->
  truthy n && truthy d && truthy (category_name cat) = true ->
  n ∉ map item_name (db_items db) -> In cat (db_categories db) ->
  run_view (newItem r) db ss =
    (with_items db (db_items db ++
       [mkItem (next_rowid item_id (db_items db)) n d (category_id cat) (req_now r) (req_now r) u]),
     push_flash ("New item " ++ n ++ " created!") ss, Redirect "showHome" []).
Proof. apply newItem_post_inserts. Qed.

(** The page routes test ownership only: a session whose user does not
    own an item gets a flash and a redirect home from its edit and delete
    routes, whether or not it has the admin flag. *)
Lemma editItem_nonowner_redirect r db ss u it :
  db_consistent db -> ls_userId ss = Some u -> In it (db_items db) -> item_user_id it <> u ->
  run_view (editItem r (item_id it)) db ss =
    (db, push_flash ("User cannot edit item " ++ item_name it) ss, Redirect "showHome" []).
Proof.
  intros Hwf Hu Hin Hne. unfold editItem. vsimp. rewrite Hu. vsimp.
  rewrite (tbl_get_wf _ _ _ (wf_items _ Hwf) Hin). vsimp.
  by rewrite bool_decide_false.
Qed.

Lemma deleteItem_nonowner_redirect r db ss u it :
  db_consistent db -> ls_userId ss = Some u -> In it (db_items db) -> item_user_id it <> u ->
  run_view (deleteItem r (item_id it)) db ss =
    (db, push_flash ("User cannot delete item " ++ item_name it) ss, Redirect "showHome" []).
Proof.
  intros Hwf Hu Hin Hne. unfold deleteItem. vsimp. rewrite Hu. vsimp.
  rewrite (tbl_get_wf _ _ _ (wf_items _ Hwf) Hin). vsimp.
  by rewrite bool_decide_false.
Qed.

(** C13: On the page route, a logged-in session that neither owns an item
    nor has the admin flag is refused the item's edit form and its edit
    (the comment above [editItem] allows the owner or an admin): it gets
    a flash and a redirect home, and no row changes. *)
Theorem editItem_nonowner_refused r db ss u it :
  db_consistent db -> ls_userId ss = Some u -> ls_admin ss <> Some true ->
  In it (db_items db) -> item_user_id it <> u ->
  run_view (editItem r (item_id it)) db ss =
    (db, push_flash ("User cannot edit item " ++ item_name it) ss, Redirect "showHome" []).
Proof. intros Hwf Hu _. by apply editItem_nonowner_redirect. Qed.

(** C14: On the page route, a logged-in session that neither owns an item
    nor has the admin flag cannot delete it, by GET or by POST: it gets a
    flash and a redirect home, and no row changes. *)
Theorem deleteItem_nonowner_refused r db ss u it :
  db_consistent db -> ls_userId ss = Some u -> ls_admin ss <> Some true ->
  In it (db_items db) -> item_user_id it <> u ->
  run_view (deleteItem r (item_id it)) db ss =
    (db, push_flash ("User cannot delete item " ++ item_name it) ss, Redirect "showHome" []).
Proof. intros Hwf Hu _. by apply deleteItem_nonowner_redirect. Qed.

(** C33: The owner's edit on the page route with a fresh name, a
    description and an existing category rewrites those columns and
    [last_edited], flashes a confirmation and redirects to the item. *)
Theorem editItem_post_edits r db ss it n d cat :
  db_wf db -> req_method r = POST -> ls_userId ss = Some (item_user_id it) ->
  In it (db_items db) ->
  form_lookup r "name" = Some n -> form_lookup r "description" = Some d ->
  form_lookup r "category" = Some (category_name cat) ->
  truthy n && truthy d && truthy (category_name cat) = true ->
  n ∉ map item_name (db_items db) -> In cat (db_categories db) ->
  run_view (editItem r (item_id it)) db ss =
    (with_items db (tbl_update item_id (item_id it)
       (fun _ => mkItem (item_id it) n d (category_id cat) (item_creation_date it)
                        (req_now r) (item_user_id it)) (db_items db)),
     push_flash "Item successfully edited" ss,
     Redirect "showItem" [("category_id", category_id cat); ("item_id", item_id it)]).
Proof.
  intros Hwf Hm Hu Hin Hn Hd Hc Ht Hfree Hcat.
  pose proof (wf_integrity _ Hwf) as Hi. apply integrity_ok_spec in Hi as (Hcn & _).
  rewrite !andb_true_iff in Ht. destruct Ht as [[Htn Htd] Htc].
  unfold editItem. vsimp. rewrite Hu. vsimp.
  rewrite (tbl_get_wf _ _ _ (wf_items _ Hwf) Hin). vsimp.
  rewrite bool_decide_true by done. simpl. rewrite Hm. vsimp.
  rewrite Hn, Hd, Hc, Htn, Htd, Htc. simpl.
  unfold tbl_first at 1. rewrite (proj2 (find_eqb_None _ _ _) Hfree), andb_false_r.
  unfold edit_item_fields. vsimp. rewrite Htn, Htd, Htc.
  rewrite (first_name_unique _ _ _ cat Hcn Hcat eq_refl). vsimp.
  rewrite commit_ok; [done|]. apply integrity_update_item; [apply Hwf|apply Hwf|].
  intros x _ _. by right.
Qed.

(** C31: The owner's edit on the page route naming a category no row has is
    rejected without a change, but as an uncaught AttributeError (status
    500): the code reads [newCategory.id] on a missing category. *)
Theorem editItem_unknown_category r db ss it n d c :
  db_wf db -> req_method r = POST -> ls_userId ss = Some (item_user_id it) ->
  In it (db_items db) ->
  form_lookup r "name" = Some n -> form_lookup r "description" = Some d ->
  form_lookup r "category" = Some c -> truthy c = true ->
  (n = item_name it \/ n ∉ map item_name (db_items db)) ->
  c ∉ map category_name (db_categories db) ->
  run_view (editItem r (item_id it)) db ss = (db, ss, ServerError "AttributeError").
Proof.
  intros Hwf Hm Hu Hin Hn Hd Hc Htc Hname Hnone.
  unfold editItem. vsimp. rewrite Hu. vsimp.
  rewrite (tbl_get_wf _ _ _ (wf_items _ Hwf) Hin). vsimp.
  rewrite bool_decide_true by done. simpl. rewrite Hm. vsimp.
  rewrite Hn, Hd, Hc, Htc, !andb_false_r. simpl.
  assert (Hok : negb (String.eqb n (item_name it)) &&
    found (tbl_first (fun x => String.eqb (item_name x) n) (db_items db)) = false).
  { destruct Hname as [->|Hfree]; [by rewrite String.eqb_refl|].
    unfold tbl_first. rewrite (proj2 (find_eqb_None _ _ _) Hfree). apply andb_false_r. }
  rewrite Hok. unfold edit_item_fields. vsimp. rewrite Htc. unfold tbl_first.
  by rewrite (proj2 (find_eqb_None _ _ _) Hnone).
Qed.

(** The owner's delete on the page route removes exactly that item,
    flashes a confirmation and redirects to its category. *)
Theorem deleteItem_post_owner {owner_ok} r db ss it :
  db_inv owner_ok db -> req_method r = POST -> ls_userId ss = Some (item_user_id it) ->
  In it (db_items db) ->
  run_view (deleteItem r (item_id it)) db ss =
    (with_items db (tbl_delete (fun x => item_id x =? item_id it) (db_items db)),
     push_flash ("Item " ++ item_name it ++ " successfully deleted") ss,
     Redirect "showCategory" [("category_id", item_category_id it)]).
Proof.
  intros Hwf Hm Hu Hin. unfold deleteItem. vsimp. rewrite Hu. vsimp.
  rewrite (tbl_get_wf _ _ _ (wf_items _ Hwf) Hin). vsimp.
  rewrite bool_decide_true by done. simpl. rewrite Hm.
  rewrite commit_ok; [done|]. apply (wf_delete_items db Hwf).
Qed.

(** ** Witnesses *)

Definition ball : Item := mkItem 1 "Ball" "A round ball" 1 10 10 1.

Definition lamp_form (cat : string) : list (string * string) :=
  [("name", "Lamp"); ("description", "Bright"); ("category", cat)].

Lemma pages_require_login_witness :
  run_view (newItem (form_req POST (lamp_form "Chess"))) demo_db empty_session =
    (demo_db, push_flash "User is not connected" empty_session, Redirect "showHome" []).
Proof.
  apply (pages_require_login (form_req POST (lamp_form "Chess")) 1); [reflexivity|by left].
Defined.

Lemma newCategory_duplicate_witness :
  run_view (newCategory (form_req POST [("name", "Chess")])) demo_db alice_session =
    (demo_db, alice_session, Abort 400 "Category already exists").
Proof.
  apply (newCategory_duplicate _ _ _ 1 (mkCategory 2 "Chess")); try reflexivity;
    [discriminate|simpl; auto].
Defined.

Lemma newCategory_empty_name_witness :
  run_view (newCategory (form_req POST [("name", "")])) demo_db alice_session =
    (demo_db, alice_session, Abort 400 "No category name provided").
Proof. apply (newCategory_empty_name _ _ _ 1); reflexivity. Defined.

Lemma newItem_missing_field_witness :
  run_view (newItem (form_req POST (lamp_form ""))) demo_db alice_session =
    (demo_db, alice_session,
     Abort 400 "The name, description and category parameters must be supplied").
Proof. apply (newItem_missing_field _ _ _ 1 "Lamp" "Bright" ""); reflexivity. Defined.

Lemma newItem_unknown_category_witness :
  run_view (newItem (form_req POST (lamp_form "Music"))) demo_db alice_session =
    (demo_db, alice_session, ServerError "AttributeError").
Proof.
  apply (newItem_unknown_category _ _ _ 1 "Lamp" "Bright" "Music"); try reflexivity; by_decide.
Defined.

Lemma newItem_creates_witness :
  run_view (newItem (form_req POST (lamp_form "Chess"))) demo_db alice_session =
    (with_items demo_db (db_items demo_db ++
       [mkItem (next_rowid item_id (db_items demo_db)) "Lamp" "Bright" 2 100 100 1]),
     push_flash ("New item " ++ "Lamp" ++ " created!") alice_session, Redirect "showHome" []).
Proof.
  apply (newItem_creates (form_req POST (lamp_form "Chess")) demo_db alice_session 1
           "Lamp" "Bright" (mkCategory 2 "Chess"));
    [apply db_wfb_sound; vm_compute|..]; try reflexivity; [by_decide|simpl; auto].
Defined.

(** The administrator is refused on the page route. *)
(** Bob, who is no administrator, on Alice's ball. *)
Lemma editItem_nonowner_refused_witness :
  run_view (editItem (form_req GET []) 1) demo_db bob_session =
    (demo_db, push_flash ("User cannot edit item " ++ "Ball") bob_session,
     Redirect "showHome" []).
Proof.
  apply (editItem_nonowner_refused _ _ _ 3 ball);
    [apply db_wf_consistent, db_wfb_sound; vm_compute; reflexivity|reflexivity|discriminate|simpl; auto|discriminate].
Defined.

Lemma deleteItem_nonowner_refused_witness :
  run_view (deleteItem (form_req POST []) 1) demo_db bob_session =
    (demo_db, push_flash ("User cannot delete item " ++ "Ball") bob_session,
     Redirect "showHome" []).
Proof.
  apply (deleteItem_nonowner_refused _ _ _ 3 ball);
    [apply db_wf_consistent, db_wfb_sound; vm_compute; reflexivity|reflexivity|discriminate|simpl; auto|discriminate].
Defined.

(** The administrator is refused too, on both routes. *)
Lemma page_routes_refuse_admin :
  run_view (editItem (form_req GET []) 1) demo_db root_session =
    (demo_db, push_flash ("User cannot edit item " ++ "Ball") root_session, Redirect "showHome" []) /\
  run_view (deleteItem (form_req POST []) 1) demo_db root_session =
    (demo_db, push_flash ("User cannot delete item " ++ "Ball") root_session, Redirect "showHome" []).
Proof. split; vm_compute; reflexivity. Qed.

Lemma editItem_post_edits_witness :
  run_view (editItem (form_req POST (lamp_form "Chess")) 1) demo_db alice_session =
    (with_items demo_db (tbl_update item_id 1
       (fun _ => mkItem 1 "Lamp" "Bright" 2 10 100 1) (db_items demo_db)),
     push_flash "Item successfully edited" alice_session,
     Redirect "showItem" [("category_id", 2); ("item_id", 1)]).
Proof.
  apply (editItem_post_edits (form_req POST (lamp_form "Chess")) demo_db alice_session ball
           "Lamp" "Bright" (mkCategory 2 "Chess"));
    [apply db_wfb_sound; vm_compute|..]; try reflexivity; [simpl; auto|by_decide|simpl; auto].
Defined.

Lemma editItem_unknown_category_witness :
  run_view (editItem (form_req POST (lamp_form "Music")) 1) demo_db alice_session =
    (demo_db, alice_session, ServerError "AttributeError").
Proof.
  apply (editItem_unknown_category _ _ _ ball "Lamp" "Bright" "Music");
    [apply db_wfb_sound; vm_compute|..]; try reflexivity; [simpl; auto|right; by_decide|by_decide].
Defined.

Lemma deleteItem_post_owner_witness :
  run_view (deleteItem (form_req POST []) 1) demo_db alice_session =
    (with_items demo_db (tbl_delete (fun x => item_id x =? 1) (db_items demo_db)),
     push_flash ("Item " ++ "Ball" ++ " successfully deleted") alice_session,
     Redirect "showCategory" [("category_id", 1)]).
Proof.
  apply (deleteItem_post_owner (owner_ok := user_present) _ _ _ ball);
    [apply db_wfb_sound; vm_compute; reflexivity|reflexivity|reflexivity|simpl; auto].
Defined.
