(* ===== verification/App.v ===== *)
(** * The application: the URL map and the server as a transition system

    [project.py]'s [@app.route] decorators map a URL and a method to a view;
    the API routes and [/token/] are wrapped in [@auth.login_required].
    Werkzeug adds [HEAD] to every rule that allows [GET] and runs the view
    for it; Flask answers [OPTIONS] itself; any other method a route does
    not list is answered 405 before any view runs.  The
    server's state is one database and, per client, the session its cookie
    carries; a request of one client runs one view on the database and the
    session that client presents.  The theorems quantify over the sessions
    the clients present, so they hold for forged cookies too
    ([Cookie.creachable]).  They show: every request keeps the world well
    formed when the sessions name users, the token route issues a token
    without credentials, a [HEAD] request to the API never succeeds, and
    the page views and the API show the same rows. *)

From S2P Require Import Prelude Crypto Schema Http Auth Api Pages.
From stdpp Require Import gmap.
Local Open Scope Z_scope.
Local Open Scope catalog_scope.

(** The URL rules of [project.py]; the integer converters are the ids. *)
Inductive Route :=
| R_users                  (* /users/ *)
| R_token                  (* /token/ *)
| R_gconnect               (* /gconnect *)
| R_gdisconnect            (* /gdisconnect *)
| R_home                   (* / and /catalog/ *)
| R_newItem                (* /catalog/items/new/ *)
| R_newCategory            (* /catalog/categories/new/ *)
| R_showCategory (cid : Z) (* /catalog/<int:category_id>/ *)
| R_showItem (iid : Z)     (* /catalog/items/<int:item_id>/ *)
| R_editItem (iid : Z)     (* /catalog/items/<int:item_id>/edit/ *)
| R_deleteItem (iid : Z)   (* /catalog/items/<int:item_id>/delete/ *)
| R_apiCategories          (* /api/categories/ *)
| R_apiCategory (cid : Z)  (* /api/categories/<int:category_id>/ *)
| R_apiItems               (* /api/items/ *)
| R_apiItem (iid : Z).     (* /api/items/<int:item_id>/ *)

(** The [methods=] of each rule (GET when none is given). *)
Definition allowed (rt : Route) : list Method :=
  match rt with
  | R_users | R_gconnect => [POST]
  | R_token | R_gdisconnect | R_home | R_showCategory _ | R_showItem _ => [GET]
  | R_newItem | R_newCategory | R_editItem _ | R_deleteItem _ => [GET; POST]
  | R_apiCategories | R_apiItems => [GET; POST; DELETE]
  | R_apiCategory _ => [GET; DELETE]
  | R_apiItem _ => [GET; PUT; DELETE]
  end.

(** The process-wide values: [database_setup.secret_key] and [CLIENT_ID]. *)
Record Config := mkConfig {
  cfg_secret_key : string;
  cfg_client_id : string;
}.

Section App.
Context `{PasswordContext} `{TimedSerializer} `{OAuthVerifier}.
Context (cfg : Config).

Definition view (rt : Route) (r : Request) : Handler Response :=
  let key := cfg_secret_key cfg in
  match rt with
  | R_users => new_user r
  | R_token => login_required key r (get_auth_token key r)
  | R_gconnect => gconnect (cfg_client_id cfg) r
  | R_gdisconnect => gdisconnect r
  | R_home => showHome r
  | R_newItem => newItem r
  | R_newCategory => newCategory r
  | R_showCategory cid => showCategory cid
  | R_showItem iid => showItem iid
  | R_editItem iid => editItem r iid
  | R_deleteItem iid => deleteItem r iid
  | R_apiCategories => login_required key r (apiAllCategories r)
  | R_apiCategory cid => login_required key r (apiManageCategory r cid)
  | R_apiItems => login_required key r (apiAllItems r)
  | R_apiItem iid => login_required key r (apiManageItem r iid)
  end.

(** The methods a rule answers: werkzeug adds [HEAD] when the rule
    allows [GET], and Flask adds [OPTIONS] ([provide_automatic_options]). *)
Definition rule_methods (rt : Route) : list Method :=
  allowed rt ++ (if bool_decide (GET ∈ allowed rt) then [HEAD] else []) ++ [OPTIONS].

(** Werkzeug's routing and Flask's [dispatch_request]: a method the rule
    does not answer is a 405; [OPTIONS] is answered by Flask
    ([make_default_options_response]: 200 with the [Allow] header); any
    other method, [HEAD] included, runs the view. *)
Definition dispatch (rt : Route) (r : Request) : Handler Response :=
  if bool_decide (req_method r ∈ rule_methods rt) then
    if bool_decide (req_method r = OPTIONS) then respond (Text 200 "")
    else view rt r
  else respond (Text 405 "Method Not Allowed").

(** The server: the database and the session each client presents, the
    content of its cookie (a client without a cookie presents the empty
    session).  [Cookie] models the cookie itself: its signature, its age,
    and clients that sign their own. *)
Record World := mkWorld {
  w_db : Db;
  w_sessions : gmap nat Session;
}.

Definition init_world : World := mkWorld empty_db ∅.

Definition session_of (w : World) (c : nat) : Session :=
  default empty_session (w_sessions w !! c).

(** Client [c] sends request [r] to route [rt]: the view runs on the
    database and the session [c] presents; what it committed stays, and
    [c] holds the session the view left, unless the view raised. *)
Definition serve (w : World) (c : nat) (rt : Route) (r : Request) : World * Response :=
  let '(db', ss', resp) := run_view (dispatch rt r) (w_db w) (session_of w c) in
  (mkWorld db' (if uncaught resp then w_sessions w else <[c := ss']> (w_sessions w)), resp).

(** Runs of clients that present the sessions the server left them. *)
Inductive step : World -> World -> Prop :=
| step_serve w c rt r : step w (serve w c rt r).1.

Inductive reachable : World -> Prop :=
| reach_init : reachable init_world
| reach_step w w' : reachable w -> step w w' -> reachable w'.

(** A run of requests, in order, with the answers. *)
Fixpoint run_trace (w : World) (reqs : list (nat * Route * Request)) : World * list Response :=
  match reqs with
  | [] => (w, [])
  | (c, rt, r) :: rest =>
      let '(w1, resp) := serve w c rt r in
      let '(w2, resps) := run_trace w1 rest in
      (w2, resp :: resps)
  end.

(** The world invariant: the database is well formed and every session
    names a user of it. *)
Definition world_wf (w : World) : Prop :=
  db_wf (w_db w) /\ forall c ss, w_sessions w !! c = Some ss -> sess_wf (w_db w) ss.

End App.

Section AppProofs.
Context `{PasswordContext} `{TimedSerializer} `{OAuthVerifier}.
Context (cfg : Config).

Lemma options_not_allowed rt : OPTIONS ∉ allowed rt.
Proof. destruct rt; simpl; by_decide. Qed.

(** A method the rule lists runs the view. *)
Lemma dispatch_view rt r : req_method r ∈ allowed rt -> dispatch cfg rt r = view cfg rt r.
Proof.
  intros Hm. unfold dispatch. rewrite bool_decide_true by (unfold rule_methods; set_solver).
  rewrite bool_decide_false; [done|]. intros Ho. rewrite Ho in Hm. by apply (options_not_allowed rt).
Qed.

(** A [HEAD] request to a rule that allows [GET] runs the view. *)
Lemma dispatch_head rt r : req_method r = HEAD -> GET ∈ allowed rt -> dispatch cfg rt r = view cfg rt r.
Proof.
  intros Hm Hg. unfold dispatch. rewrite Hm.
  rewrite bool_decide_true; [rewrite bool_decide_false; [done|discriminate]|].
  unfold rule_methods. rewrite bool_decide_true by done. set_solver.
Qed.

(** The other answers of [dispatch] are Flask's [OPTIONS] answer and
    werkzeug's 405. *)
Lemma dispatch_cases rt r :
  dispatch cfg rt r = view cfg rt r \/ dispatch cfg rt r = respond (Text 200 "") \/
  dispatch cfg rt r = respond (Text 405 "Method Not Allowed").
Proof. unfold dispatch. case_decide; [case_decide|]; auto. Qed.

Lemma view_preserves rt r : preserves (view cfg rt r).
Proof.
  destruct rt; simpl; auto using new_user_preserves, login_required_preserves,
    get_auth_token_preserves, gconnect_preserves, gdisconnect_preserves, showHome_preserves,
    newItem_preserves, newCategory_preserves, showCategory_preserves, showItem_preserves,
    editItem_preserves, deleteItem_preserves, apiAllCategories_preserves,
    apiManageCategory_preserves, apiAllItems_preserves, apiManageItem_preserves.
Qed.

Lemma dispatch_preserves rt r : preserves (dispatch cfg rt r).
Proof.
  destruct (dispatch_cases rt r) as [->|[-> | ->]]; [apply view_preserves| |].
  all: intros P HP db ss Hwf Hs; vsimp; finish_preserves.
Qed.

Lemma session_of_wf w c : world_wf w -> sess_wf (w_db w) (session_of w c).
Proof.
  intros [_ Hs]. unfold session_of. destruct (w_sessions w !! c) eqn:E; simpl; eauto.
  intros u; discriminate.
Qed.

(** A request's write-back keeps the world well formed when the view kept
    the database, the client's session and the users. *)
Lemma world_wf_write_back w c db' ss' :
  world_wf w -> db_wf db' -> sess_wf db' ss' -> users_grow (w_db w) db' ->
  world_wf (mkWorld db' (<[c := ss']> (w_sessions w))).
Proof.
  intros Hw Hdb Hss Hgrow. split; [done|]. simpl.
  intros c' ss0 Hc'. destruct (decide (c = c')) as [<-|Hne].
  - rewrite lookup_insert_eq in Hc'. by injection Hc' as <-.
  - rewrite lookup_insert_ne in Hc' by done.
    apply (sess_wf_grow (w_db w)); [done|]. by apply (proj2 Hw c').
Qed.

(** So does a request whose view raised, and which changes no session. *)
Lemma world_wf_keep w db' :
  world_wf w -> db_wf db' -> users_grow (w_db w) db' -> world_wf (mkWorld db' (w_sessions w)).
Proof.
  intros Hw Hdb Hgrow. split; [done|]. intros c ss Hc.
  apply (sess_wf_grow (w_db w)); [done|]. by apply (proj2 Hw c).
Qed.

(** Every request, of any client to any route with any method, keeps the
    world well formed. *)
Lemma serve_keeps_world_wf w c rt r : world_wf w -> world_wf (serve cfg w c rt r).1.
Proof.
  intros Hw. pose proof (dispatch_preserves rt r _ _ (w_db w) (session_of w c)
                           (proj1 Hw) (session_of_wf w c Hw)) as Hp.
  unfold serve. destruct (run_view _ _ _) as [[db' ss'] resp].
  destruct Hp as (Hdb & Hss & Hgrow). destruct (uncaught resp).
  - by apply world_wf_keep.
  - by apply world_wf_write_back.
Qed.

Lemma init_world_wf : world_wf init_world.
Proof. split; [apply empty_db_wf|]. intros c ss. simpl. by rewrite lookup_empty. Qed.

(** Every world that clients presenting the sessions the server left them
    reach from the empty database is well formed: every item's owner and
    every session's user is a user.  A forged cookie breaks it
    ([Cookie.forged_cookie_orphans_item]). *)
Theorem reachable_world_wf w : reachable cfg w -> world_wf w.
Proof.
  induction 1 as [|w w' _ IH Hstep]; [apply init_world_wf|].
  destruct Hstep. by apply serve_keeps_world_wf.
Qed.

Lemma run_trace_reachable w reqs : reachable cfg w -> reachable cfg (run_trace cfg w reqs).1.
Proof.
  revert w. induction reqs as [|[[c rt] r] rest IH]; intros w Hw; simpl; [done|].
  destruct (serve cfg w c rt r) as [w1 resp] eqn:E.
  pose proof (IH w1) as IH1. destruct (run_trace cfg w1 rest) as [w2 resps]. simpl in *.
  apply IH1. eapply reach_step; [exact Hw|]. replace w1 with (serve cfg w c rt r).1 by (by rewrite E).
  constructor.
Qed.
(** C5: [GET /token/] issues a token whatever credentials the request
    carries, none included: [verify_password] answers [True] to every GET, so
    [login_required] lets the request through and the token is made for the
    user the session cookie names. *)
Theorem token_route_ignores_credentials w c r u :
  req_method r = GET -> db_wf (w_db w) -> In u (db_users (w_db w)) ->
  ls_userId (session_of w c) = Some (user_id u) ->
  (serve cfg w c R_token r).2 =
    Json 200 (JObj [("token", JStr (User_generate_auth_token (cfg_secret_key cfg) (req_now r) u 600))]).
Proof.
  intros Hm Hwf Hu Hs. unfold serve. rewrite dispatch_view by (rewrite Hm; set_solver).
  unfold view, login_required, verify_password, get_auth_token. rewrite decide_True by done.
  vsimp. rewrite Hs. simpl. rewrite (tbl_get_wf _ _ _ (wf_users _ Hwf) Hu). done.
Qed.
(** The routes of the JSON API. *)
Definition api_route (rt : Route) : bool :=
  match rt with R_apiCategories | R_apiCategory _ | R_apiItems | R_apiItem _ => true | _ => false end.

(** The API views branch on GET, POST, PUT and DELETE only: on any other
    method they fall off their end. *)
Lemma api_view_head rt r :
  api_route rt = true -> req_method r = HEAD ->
  GET ∈ allowed rt /\ view cfg rt r = login_required (cfg_secret_key cfg) r no_response.
Proof.
  intros Hapi Hm. destruct rt; try discriminate Hapi; (split; [simpl; set_solver|]); simpl;
    [unfold apiAllCategories|unfold apiManageCategory|unfold apiAllItems|unfold apiManageItem];
    by rewrite Hm.
Qed.

(** The basic-auth callback stops early only with the AttributeError of
    a token whose user no longer exists. *)
Lemma verify_password_halt r s s' resp :
  verify_password (cfg_secret_key cfg) r s = (s', Halt resp) -> resp = ServerError "AttributeError".
Proof.
  destruct s as [db ss]. unfold verify_password. case_decide; [vsimp; by inversion 1|].
  destruct (default _ _) as [u p]. vsimp. repeat case_if; vsimp; intros Hh; simplify_eq; done.
Qed.

(** C23: [HEAD] on the JSON API.  Werkzeug routes a [HEAD] request to every
    rule that allows [GET], and Flask runs the view with the method [HEAD].
    [verify_password] lets only [GET] through without credentials, and the
    API views test for [GET], [POST], [PUT] and [DELETE] only, so a [HEAD]
    request to the API never succeeds: it is refused with 401, or it falls
    off the end of the view (which returns [None]) or of the callback, and
    Flask answers 500.  No row changes. *)
Theorem head_api_fails w c rt r :
  api_route rt = true -> req_method r = HEAD ->
  let '(w', resp) := serve cfg w c rt r in
  w_db w' = w_db w /\ (resp = Text 401 "Unauthorized Access" \/ exists exn, resp = ServerError exn).
Proof.
  intros Hapi Hm. destruct (api_view_head rt r Hapi Hm) as [Hg Hv].
  unfold serve. rewrite dispatch_head, Hv by done. unfold login_required.
  pose proof (verify_password_state (cfg_secret_key cfg) r (w_db w) (session_of w c)) as Hvp.
  unfold run_view, em_run, em_bind in *.
  destruct (verify_password _ r _) as [s' [[|]|resp]] eqn:Evp; destruct Hvp as [Hdb _]; simpl; rewrite ?Hdb.
  - split; [done|]. right. eexists. reflexivity.
  - split; [done|]. by left.
  - split; [done|]. right. eexists. by eapply verify_password_halt.
Qed.

(** The API routes whose DELETE only an administrator may perform. *)
Definition admin_delete_route (rt : Route) : bool :=
  match rt with R_apiCategories | R_apiCategory _ | R_apiItems => true | _ => false end.

(** C11: Administrator rights come from the user table, not from the
    cookie.  Whatever session the client presents (one it signed itself
    with [admin] set included), a DELETE to [/api/categories/],
    [/api/categories/<id>/] or [/api/items/] that changes the database
    carries the basic-auth credentials of a user whose [admin] column is
    set: a live token for that user, or that user's name and password.
    The callback overwrites [login_session["admin"]] with the column
    before the view tests it. *)
Theorem api_admin_delete_needs_admin rt r db ss :
  admin_delete_route rt = true -> req_method r = DELETE ->
  (run_view (view cfg rt r) db ss).1.1 <> db ->
  exists u, In u (db_users db) /\ user_admin u = true /\
    let '(name, pw) := default ("", "") (req_auth r) in
    ((exists iat e, name = ts_dumps (cfg_secret_key cfg) iat e (user_id u) /\ req_now r <= iat + e) \/
     (user_name u = name /\ User_verify_password u pw = true)).
Proof.
  intros Hrt Hm Hch.
  assert (Hv : exists v, view cfg rt r = login_required (cfg_secret_key cfg) r v /\
            forall ss', truthy_bool (ls_admin ss') = false -> (run_view v db ss').1.1 = db).
  { destruct rt; try discriminate Hrt; eexists; (split; [reflexivity|]); intros ss' Ha;
      [unfold apiAllCategories|unfold apiManageCategory|unfold apiAllItems]; rewrite Hm; vsimp; by rewrite Ha. }
  destruct Hv as (v & Ev & Hrefuse). rewrite Ev in Hch. unfold login_required, run_view, em_run, em_bind in Hch.
  pose proof (verify_password_state (cfg_secret_key cfg) r db ss) as Hvp.
  destruct (verify_password _ r _) as [s' [[|]|resp]] eqn:Evp; destruct Hvp as [Hdb _].
  - destruct (verify_password_accepts (cfg_secret_key cfg) r db ss s' ltac:(by rewrite Hm) Evp)
      as (_ & u & Hu & Hs & Hc).
    exists u. split; [done|]. split; [|done].
    destruct (user_admin u) eqn:Ea; [done|]. destruct s' as [db1 ss1]. simpl in Hdb, Hs. subst db1 ss1.
    exfalso. apply Hch. specialize (Hrefuse (set_admin (Some false) (set_userId (Some (user_id u)) ss)) eq_refl).
    unfold run_view, em_run in Hrefuse. destruct (v _) as [[db2 ss2] e2]. exact Hrefuse.
  - exfalso. apply Hch. vsimp. done.
  - exfalso. apply Hch. simpl. done.
Qed.

End AppProofs.

(** ** The account capture, as a run of the server

    With the executable instances of [Crypto], a visitor (client 1) signs up
    through [/users/] under the e-mail address of a Google user, without
    proving that the address is theirs, and adds a category.  The Google user
    (client 2) then signs in with Google: [gconnect] finds the local account
    by e-mail and logs them in as it.  The item they create belongs to that
    account, and client 1 deletes it through the API with the password they
    chose. *)

Definition demo_cfg : Config := mkConfig demo_key demo_client.

Definition victim_google : IdInfo :=
  mkIdInfo "accounts.google.com" "g-1" "victim@example.com" "Victim" "v.png".

Definition capture_script : list (nat * Route * Request) :=
  [(1%nat, R_users, mkRequest POST [] (Some {["username" := "mallory"; "password" := "pw";
                                             "email" := "victim@example.com"]}) None None "" 10 "salt" (fun _ => 0%nat));
   (1%nat, R_apiCategories, mkRequest POST [] (Some {["name" := "Books"]}) (Some ("mallory", "pw")) None "" 11 "" (fun _ => 0%nat));
   (2%nat, R_home, mkRequest GET [] None None None "" 12 "" (fun _ => 0%nat));
   (2%nat, R_gconnect, mkRequest POST [] None None (Some demo_state)
                         (demo_google_token demo_client victim_google) 13 "" (fun _ => 0%nat));
   (2%nat, R_newItem, mkRequest POST [("name", "Diary"); ("description", "Private"); ("category", "Books")]
                        None None None "" 14 "" (fun _ => 0%nat));
   (1%nat, R_apiItem 1, mkRequest DELETE [] None (Some ("mallory", "pw")) None "" 15 "" (fun _ => 0%nat))].

(** On the run [capture_script] from the empty server, the Google
    user's session is logged in as the account client 1 created (user 1),
    the item they create is owned by it, and client 1's API delete of that
    item succeeds; the final world is reachable. *)
Theorem google_signin_captured_by_local_signup :
  let '(w, resps) := run_trace demo_cfg init_world capture_script in
  reachable demo_cfg w /\
  ls_userId (session_of w 2) = Some 1 /\
  resps = [Json 200 (JList [JObj [("username", JStr "mallory")]; JNum 201]);
           Text 200 "New Category Books created";
           Render (THome [mkCategory 1 "Books"] [] None demo_state);
           Redirect "showHome" [];
           Redirect "showHome" [];
           Text 200 "Deleted item Diary"] /\
  db_items (w_db w) = [].
Proof.
  pose proof (run_trace_reachable demo_cfg init_world capture_script (reach_init _)) as Hr.
  destruct (run_trace demo_cfg init_world capture_script) as [w resps] eqn:E.
  vm_compute in E. injection E as <- <-. split; [exact Hr|]. vm_compute. auto.
Qed.

(** Alice's cookie and a GET without an Authorization header give her token. *)
Lemma token_route_ignores_credentials_witness :
  (serve demo_cfg (mkWorld demo_db {[1%nat := alice_session]}) 1 R_token
         (mkRequest GET [] None None None "" 100 "" (fun _ => 0%nat))).2 =
    Json 200 (JObj [("token", JStr (User_generate_auth_token demo_key 100 alice 600))]).
Proof.
  apply (token_route_ignores_credentials demo_cfg (mkWorld demo_db {[1%nat := alice_session]}) 1
           (mkRequest GET [] None None None "" 100 "" (fun _ => 0%nat)) alice);
    [reflexivity|apply db_wfb_sound; vm_compute; reflexivity|simpl; auto|reflexivity].
Defined.

Lemma reachable_world_wf_witness :
  reachable demo_cfg init_world /\ world_wf init_world.
Proof. split; [constructor|]. exact (reachable_world_wf demo_cfg init_world (reach_init _)). Defined.

(** ** The two front ends agree

    The page views and the JSON API read the same tables; on every
    database the deployed server reaches ([Cookie.creachable_db_consistent])
    they show the same rows. *)

Lemma item_category_found db it :
  db_consistent db -> In it (db_items db) ->
  exists c, tbl_get category_id (item_category_id it) (db_categories db) = Some c /\
            In c (db_categories db) /\ category_id c = item_category_id it.
Proof.
  intros Hwf Hit. pose proof (wf_item_category _ Hwf) as Hc.
  rewrite List.Forall_forall in Hc. specialize (Hc it Hit).
  apply has_id_tbl_get in Hc as [c Hget]. exists c. split; [done|]. by apply tbl_get_Some.
Qed.

(** C39: The category page and [GET /api/categories/<id>/] of an existing
    category show the same list of items, which holds exactly the items of
    the table whose category is that one; neither changes anything. *)
Theorem category_page_matches_api r db ss c :
  db_consistent db -> In c (db_categories db) -> req_method r = GET ->
  exists items,
    run_view (showCategory (category_id c)) db ss =
      (db, ss, Render (TCategory c items (ls_userId ss))) /\
    run_view (apiManageCategory r (category_id c)) db ss =
      (db, ss, Json 200 (JList (map item_serialize items))) /\
    (forall it, In it items <-> In it (db_items db) /\ item_category_id it = category_id c).
Proof.
  intros Hwf Hc Hm.
  pose proof (tbl_get_wf category_id _ c (wf_categories _ Hwf) Hc) as Hget.
  eexists. split; [|split].
  - unfold showCategory. vsimp. by rewrite Hget.
  - unfold apiManageCategory. rewrite Hm. vsimp. by rewrite Hget.
  - intros it. rewrite filter_In. by rewrite Z.eqb_eq.
Qed.

(** C40: The item page of an existing item always finds the item's
    category (the template never receives [None] on a consistent
    database, whatever sessions created its rows), and
    [GET /api/items/<id>/] answers with the same row. *)
Theorem item_page_matches_api r db ss it :
  db_consistent db -> In it (db_items db) -> req_method r = GET ->
  exists c, In c (db_categories db) /\ category_id c = item_category_id it /\
    run_view (showItem (item_id it)) db ss = (db, ss, Render (TItem (Some c) it (ls_userId ss))) /\
    run_view (apiManageItem r (item_id it)) db ss =
      (db, ss, Json 200 (JObj [("item", item_serialize it)])).
Proof.
  intros Hwf Hit Hm. destruct (item_category_found db it Hwf Hit) as (c & Hget & Hc & Hid).
  pose proof (tbl_get_wf item_id _ it (wf_items _ Hwf) Hit) as Hi.
  exists c. split; [done|]. split; [done|]. split.
  - unfold showItem. vsimp. rewrite Hi. simpl. by rewrite Hget.
  - unfold apiManageItem. rewrite Hm. vsimp. by rewrite Hi.
Qed.

(** C17: The owner's edit form always renders.  [editItem] reads
    [itemCategory.name] without testing the query's result; on every
    consistent database, the ones the deployed server reaches, the
    item's category exists, so the owner's GET renders the form with the
    categories, the item and its category's name, and changes nothing. *)
Theorem editItem_form_renders r db ss it :
  db_consistent db -> In it (db_items db) -> ls_userId ss = Some (item_user_id it) -> req_method r = GET ->
  exists c, In c (db_categories db) /\ category_id c = item_category_id it /\
    run_view (editItem r (item_id it)) db ss = (db, ss, Render (TEditItem (db_categories db) it (category_name c))).
Proof.
  intros Hwf Hit Hu Hm. destruct (item_category_found db it Hwf Hit) as (c & Hget & Hc & Hid).
  exists c. split; [done|]. split; [done|].
  unfold editItem. vsimp. rewrite Hu. vsimp. rewrite (tbl_get_wf _ _ _ (wf_items _ Hwf) Hit). simpl.
  rewrite bool_decide_true by done. simpl. rewrite Hm. by rewrite Hget.
Qed.

Lemma editItem_form_renders_witness :
  exists c, In c (db_categories demo_db) /\ category_id c = 1 /\
    run_view (editItem (form_req GET []) 3) demo_db bob_session =
      (demo_db, bob_session, Render (TEditItem (db_categories demo_db) (mkItem 3 "Boots" "Football boots" 1 30 30 3)
                                              (category_name c))).
Proof.
  exact (editItem_form_renders (form_req GET []) demo_db bob_session (mkItem 3 "Boots" "Football boots" 1 30 30 3)
           (db_wf_consistent demo_db (db_wfb_sound demo_db ltac:(vm_compute; reflexivity))) ltac:(simpl; auto)
           eq_refl eq_refl).
Defined.

Lemma category_page_matches_api_witness :
  exists items,
    run_view (showCategory 1) demo_db alice_session =
      (demo_db, alice_session, Render (TCategory (mkCategory 1 "Soccer") items (Some 1))) /\
    run_view (apiManageCategory (api_req GET ∅) 1) demo_db alice_session =
      (demo_db, alice_session, Json 200 (JList (map item_serialize items))) /\
    (forall it, In it items <-> In it (db_items demo_db) /\ item_category_id it = 1).
Proof.
  exact (category_page_matches_api (api_req GET ∅) demo_db alice_session (mkCategory 1 "Soccer")
           (db_wf_consistent demo_db (db_wfb_sound demo_db ltac:(vm_compute; reflexivity))) ltac:(simpl; auto) eq_refl).
Defined.

Lemma item_page_matches_api_witness :
  exists c, In c (db_categories demo_db) /\ category_id c = 1 /\
    run_view (showItem 3) demo_db bob_session =
      (demo_db, bob_session, Render (TItem (Some c) (mkItem 3 "Boots" "Football boots" 1 30 30 3) (Some 3))) /\
    run_view (apiManageItem (api_req GET ∅) 3) demo_db bob_session =
      (demo_db, bob_session, Json 200 (JObj [("item", item_serialize (mkItem 3 "Boots" "Football boots" 1 30 30 3))])).
Proof.
  exact (item_page_matches_api (api_req GET ∅) demo_db bob_session (mkItem 3 "Boots" "Football boots" 1 30 30 3)
           (db_wf_consistent demo_db (db_wfb_sound demo_db ltac:(vm_compute; reflexivity))) ltac:(simpl; auto) eq_refl).
Defined.

(** The administrator's token empties the item table; a cookie with
    [admin] set and no credentials is refused with 401. *)
Definition root_token : string :=
  User_generate_auth_token demo_key 100 (mkUser 2 "root" "root@example.com" None None None true) 600.

Lemma api_admin_delete_needs_admin_witness :
  admin_delete_route R_apiItems = true /\ req_method (auth_req DELETE root_token "" 200) = DELETE /\
  (run_view (view demo_cfg R_apiItems (auth_req DELETE root_token "" 200)) demo_db empty_session).1.1 <> demo_db /\
  exists u, In u (db_users demo_db) /\ user_admin u = true /\
    let '(name, pw) := default ("", "") (req_auth (auth_req DELETE root_token "" 200)) in
    ((exists iat e, name = ts_dumps (cfg_secret_key demo_cfg) iat e (user_id u) /\ 200 <= iat + e) \/
     (user_name u = name /\ User_verify_password u pw = true)).
Proof.
  assert (Hch : (run_view (view demo_cfg R_apiItems (auth_req DELETE root_token "" 200)) demo_db empty_session).1.1
                  <> demo_db) by (vm_compute; discriminate).
  split; [reflexivity|]. split; [reflexivity|]. split; [exact Hch|].
  exact (api_admin_delete_needs_admin demo_cfg R_apiItems (auth_req DELETE root_token "" 200) demo_db empty_session
           eq_refl eq_refl Hch).
Defined.

Lemma forged_admin_flag_refused :
  run_view (view demo_cfg R_apiItems (mkRequest DELETE [] None None None "" 200 "" (fun _ => 0%nat)))
           demo_db root_session = (demo_db, root_session, Text 401 "Unauthorized Access").
Proof. vm_compute. reflexivity. Qed.

(** With Alice's valid token, [HEAD /api/items/] falls off the end of
    [apiAllItems] and answers 500, while [GET] lists the items. *)
Lemma head_api_fails_witness :
  api_route R_apiItems = true /\ req_method (auth_req HEAD alice_token "" 200) = HEAD /\
  let '(w', resp) := serve demo_cfg (mkWorld demo_db ∅) 1 R_apiItems (auth_req HEAD alice_token "" 200) in
  w_db w' = w_db (mkWorld demo_db ∅) /\
  (resp = Text 401 "Unauthorized Access" \/ exists exn, resp = ServerError exn).
Proof.
  split; [reflexivity|]. split; [reflexivity|].
  exact (head_api_fails demo_cfg (mkWorld demo_db ∅) 1 R_apiItems (auth_req HEAD alice_token "" 200)
           eq_refl eq_refl).
Defined.

Lemma head_get_api_items :
  (serve demo_cfg (mkWorld demo_db ∅) 1 R_apiItems (auth_req HEAD alice_token "" 200)).2 =
    ServerError "TypeError: view returned None" /\
  status (serve demo_cfg (mkWorld demo_db ∅) 1 R_apiItems (auth_req GET alice_token "" 200)).2 = 200 /\
  (serve demo_cfg (mkWorld demo_db {[1%nat := alice_session]}) 1 R_newItem (form_req HEAD [])).2 =
    ServerError "TypeError: view returned None".
Proof. split; [|split]; vm_compute; reflexivity. Qed.
