(* ===== verification/Url.v ===== *)
(** * URLs: the rules of [project.py], [url_for] and the router

    Every view of [project.py] is registered with [@app.route(rule)], and
    every redirect names its target with [url_for(endpoint, **values)].
    The router that connects the two (Werkzeug's [Map], [MapAdapter.match]
    and [MapAdapter.build]) is library code, modelled here as it behaves
    on this URL map:
    - a rule is a list of path segments, literal or [<int:name>], and has
      a trailing slash or not; [url_map] lists the rules in the order the
      decorators register them (the one nearest the function first);
    - [<int:...>] matches a segment of decimal digits, read by [int], so
      [/catalog/007/] is category 7 and [/catalog/-1/] matches nothing;
    - a path that lacks only the trailing slash of a rule is redirected to
      the path with the slash (Werkzeug's [strict_slashes]; the status,
      which werkzeug 1.x and Flask's debug mode make depend on the method,
      is [Browser.slash_redirect]); a path no rule matches is a 404;
    - [url_for] takes the first rule of the endpoint whose arguments are
      all given, prints them with [str], and appends the other values as
      a query string.

    The theorems: printing an id and reading it back gives the id; the URL
    [url_for] builds for a route is matched by the router to the same
    route (for non-negative ids; a negative id is a 404). *)

From S2P Require Import Prelude Crypto Schema Http Auth Api Pages App.
From Stdlib Require Import Ascii.
Local Open Scope Z_scope.
Local Open Scope catalog_scope.

(** ** Decimal numbers *)

Definition digit_char (d : N) : ascii := ascii_of_N (48 + d).

Definition digit_value (c : ascii) : option N :=
  let k := N_of_ascii c in
  if (48 <=? k)%N && (k <? 58)%N then Some (k - 48)%N else None.

(** The decimal digits of [n], least significant first.  The recursion
    divides by 10; [fuel] bounds the number of digits. *)
Fixpoint digits_le (fuel : nat) (n : N) : list N :=
  match fuel with
  | O => [n]
  | S f => if (n <? 10)%N then [n] else (n mod 10)%N :: digits_le f (n / 10)%N
  end.

(** Python's [str] on a non-negative integer.  [N.size n] (the number of
    bits of [n]) is at least the number of its decimal digits. *)
Definition show_N (n : N) : string :=
  String.string_of_list_ascii (map digit_char (rev (digits_le (N.to_nat (N.size n)) n))).

(** Python's [str] on an integer, the [to_url] of Werkzeug's
    [IntegerConverter]. *)
Definition show_int (z : Z) : string :=
  if z <? 0 then String.String "-" (show_N (Z.to_N (- z))) else show_N (Z.to_N z).

Fixpoint parse_digits (acc : N) (s : string) : option N :=
  match s with
  | String.EmptyString => Some acc
  | String.String c s' =>
      match digit_value c with
      | Some d => parse_digits (10 * acc + d)%N s'
      | None => None
      end
  end.

(** The [to_python] of [IntegerConverter]: a segment that matches [\d+],
    read by [int]. *)
Definition parse_uint (s : string) : option N :=
  match s with
  | String.EmptyString => None
  | _ => parse_digits 0 s
  end.

(** Little-endian value of a digit list. *)
Fixpoint of_digits (ds : list N) : N :=
  match ds with
  | [] => 0%N
  | d :: ds' => (d + 10 * of_digits ds')%N
  end.

(** ** Lemmas on decimals *)

Lemma digit_value_char d : (d < 10)%N -> digit_value (digit_char d) = Some d.
Proof.
  intros Hd. unfold digit_value, digit_char. rewrite N_ascii_embedding by lia.
  replace ((48 <=? 48 + d)%N && (48 + d <? 58)%N) with true
    by (symmetry; apply andb_true_intro; split; [apply N.leb_le|apply N.ltb_lt]; lia).
  f_equal. lia.
Qed.

Lemma of_digits_le f n : of_digits (digits_le f n) = n.
Proof.
  revert n. induction f as [|f IH]; intros n; simpl; [lia|].
  destruct (n <? 10)%N; simpl; [lia|]. rewrite IH.
  pose proof (N.div_mod' n 10). lia.
Qed.

Lemma digits_le_small f n :
  (n < 10 ^ N.of_nat (S f))%N -> Forall (fun d => (d < 10)%N) (digits_le f n).
Proof.
  revert n. induction f as [|f IH]; intros n Hn; simpl.
  - constructor; [|constructor]. simpl in Hn. lia.
  - destruct (N.ltb_spec n 10); [repeat constructor; lia|].
    constructor; [apply N.mod_lt; lia|]. apply IH.
    apply N.Div0.div_lt_upper_bound.
    rewrite Nat2N.inj_succ, N.pow_succ_r' in Hn. exact Hn.
Qed.

Lemma digits_le_size n : Forall (fun d => (d < 10)%N) (digits_le (N.to_nat (N.size n)) n).
Proof.
  apply digits_le_small. rewrite Nat2N.inj_succ, N2Nat.id.
  pose proof (N.size_gt n) as Hs.
  pose proof (N.pow_le_mono_l 2 10 (N.size n) ltac:(lia)) as Hp.
  pose proof (N.pow_le_mono_r 10 (N.size n) (N.succ (N.size n)) ltac:(lia) ltac:(lia)). lia.
Qed.

Lemma parse_digits_chars acc ds :
  Forall (fun d => (d < 10)%N) ds ->
  parse_digits acc (String.string_of_list_ascii (map digit_char ds)) =
    Some (fold_left (fun a d => 10 * a + d)%N ds acc).
Proof.
  intros Hds. revert acc. induction Hds as [|d ds Hd _ IH]; intros acc; simpl; [done|].
  rewrite digit_value_char by done. apply IH.
Qed.

Lemma fold_left_rev_digits ds acc :
  fold_left (fun a d => 10 * a + d)%N (rev ds) acc = (acc * 10 ^ N.of_nat (length ds) + of_digits ds)%N.
Proof.
  revert acc. induction ds as [|d ds IH]; intros acc; simpl; [lia|].
  rewrite fold_left_app, IH. simpl. rewrite Nat2N.inj_succ, N.pow_succ_r'. ring.
Qed.

Lemma digits_le_nonempty f n : digits_le f n <> [].
Proof. destruct f; simpl; [done|]. by destruct (n <? 10)%N. Qed.

Lemma parse_show_N n : parse_uint (show_N n) = Some n.
Proof.
  unfold show_N. pose proof (digits_le_size n) as Hs.
  pose proof (of_digits_le (N.to_nat (N.size n)) n) as Hv.
  pose proof (digits_le_nonempty (N.to_nat (N.size n)) n) as Hne.
  remember (digits_le (N.to_nat (N.size n)) n) as ds eqn:E. clear E.
  assert (Hchars : parse_digits 0 (String.string_of_list_ascii (map digit_char (rev ds))) = Some n).
  { rewrite parse_digits_chars by (by apply Forall_rev). f_equal.
    rewrite fold_left_rev_digits. lia. }
  destruct (rev ds) as [|d ds'] eqn:Er; [by apply (f_equal (@rev N)) in Er; rewrite rev_involutive in Er|].
  exact Hchars.
Qed.

Lemma parse_show_int z : parse_uint (show_int z) = if z <? 0 then None else Some (Z.to_N z).
Proof. unfold show_int. destruct (z <? 0); [reflexivity|apply parse_show_N]. Qed.

(** ** Paths and query strings *)

(** [s] has no character [c]. *)
Definition avoids (c : ascii) (s : string) : bool :=
  forallb (fun x => negb (Ascii.eqb x c)) (String.list_ascii_of_string s).

(** A path segment: no [/] and no [?]. *)
Definition seg_ok (s : string) : bool := avoids "/" s && avoids "?" s.

(** [s.split(sep)] *)
Fixpoint split_on (sep : ascii) (s : string) : list string :=
  match s with
  | String.EmptyString => [""]
  | String.String c s' =>
      let segs := split_on sep s' in
      if Ascii.eqb c sep then "" :: segs
      else match segs with
           | seg :: rest => String.String c seg :: rest
           | [] => [String.String c ""]
           end
  end.

Abbreviation split_slash := (split_on "/"%char).

(** ["/".join(segs)] *)
Fixpoint join_slash (segs : list string) : string :=
  match segs with
  | [] => ""
  | [s] => s
  | s :: rest => s ++ "/" ++ join_slash rest
  end.

(** The text before the first [sep] and the text after it (all of [s]
    and nothing when [s] has no [sep]). *)
Fixpoint split_first (sep : ascii) (s : string) : string * string :=
  match s with
  | String.EmptyString => ("", "")
  | String.String c s' =>
      if Ascii.eqb c sep then ("", s')
      else let '(p, q) := split_first sep s' in (String.String c p, q)
  end.

(** The path and the query string of a URL. *)
Abbreviation split_query := (split_first "?"%char).

(** Werkzeug's [url_decode] of a query string whose keys and values need
    no unquoting, and [MultiDict.get]: the first value under [key]. *)
Definition query_arg (key : string) (q : string) : option string :=
  snd <$> List.find (fun kv : string * string => String.eqb kv.1 key) (map (split_first "=") (split_on "&" q)).

Lemma append_cons x s t : String.append (String.String x s) t = String.String x (String.append s t).
Proof. done. Qed.

Lemma avoids_cons c x s : avoids c (String.String x s) = negb (Ascii.eqb x c) && avoids c s.
Proof. done. Qed.

Lemma avoids_app c s t : avoids c (s ++ t) = avoids c s && avoids c t.
Proof. induction s as [|x s IH]; [done|]. rewrite append_cons. rewrite !avoids_cons, IH. apply andb_assoc. Qed.

Lemma seg_ok_cons x s :
  seg_ok (String.String x s) = negb (Ascii.eqb x "/") && negb (Ascii.eqb x "?") && seg_ok s.
Proof. unfold seg_ok. rewrite !avoids_cons. by destruct (Ascii.eqb x "/"), (Ascii.eqb x "?"), (avoids "/" s). Qed.

Lemma split_slash_nonempty s : split_slash s <> [].
Proof. destruct s as [|c s]; simpl; [done|]. destruct (Ascii.eqb c "/"); [done|]. by destruct (split_slash s). Qed.

Lemma split_slash_seg s : seg_ok s = true -> split_slash s = [s].
Proof.
  induction s as [|c s IH]; [done|]. cbn [split_on]. rewrite seg_ok_cons.
  intros [[Hc _]%andb_prop Hs]%andb_prop. apply negb_true_iff in Hc. rewrite Hc, IH by done. done.
Qed.

Lemma split_slash_app s t : seg_ok s = true -> split_slash (s ++ "/" ++ t) = s :: split_slash t.
Proof.
  induction s as [|c s IH]; [done|]. rewrite append_cons. cbn [split_on]. rewrite seg_ok_cons.
  intros [[Hc _]%andb_prop Hs]%andb_prop. apply negb_true_iff in Hc. rewrite Hc, IH by done. done.
Qed.

Lemma split_join segs : segs <> [] -> Forall (fun s => seg_ok s = true) segs -> split_slash (join_slash segs) = segs.
Proof.
  intros Hne Hok. induction Hok as [|s segs Hs Hok IH]; [done|].
  destruct segs as [|s' segs]; simpl; [by apply split_slash_seg|].
  rewrite split_slash_app by done. f_equal. by apply IH.
Qed.

Lemma split_slash_snoc s : split_slash (s ++ "/") = split_slash s ++ [""].
Proof.
  induction s as [|c s IH]; simpl; [done|]. rewrite IH.
  destruct (Ascii.eqb c "/"); [done|].
  pose proof (split_slash_nonempty s). by destruct (split_slash s).
Qed.

Lemma split_query_path p : avoids "?" p = true -> split_query p = (p, "").
Proof.
  induction p as [|c p IH]; [done|]. cbn [split_first]. rewrite avoids_cons.
  intros [Hc Hp]%andb_prop. apply negb_true_iff in Hc. by rewrite Hc, IH.
Qed.

Lemma split_query_app p q : avoids "?" p = true -> split_query (p ++ "?" ++ q) = (p, q).
Proof.
  induction p as [|c p IH]; [done|]. rewrite append_cons. cbn [split_first]. rewrite avoids_cons.
  intros [Hc Hp]%andb_prop. apply negb_true_iff in Hc. by rewrite Hc, IH.
Qed.

(** The path of a URL has no [?]. *)
Lemma split_query_avoids url : avoids "?" (split_query url).1 = true.
Proof.
  induction url as [|c s IH]; [done|]. cbn [split_first].
  destruct (Ascii.eqb c "?") eqn:Ec; [done|]. destruct (split_query s) as [p q]. simpl in *.
  rewrite avoids_cons, Ec. done.
Qed.

(** ** The URL map of [project.py] *)

(** A segment of a rule: a literal, or [<int:name>]. *)
Inductive Piece := PLit (s : string) | PInt (name : string).

(** [@app.route(rule)] for endpoint [rule_endpoint] (the view function's
    name); [rule_slash] when the rule ends with [/]. *)
Record Rule := mkRule {
  rule_endpoint : string;
  rule_pieces : list Piece;
  rule_slash : bool;
}.

(** The rules, in the order the decorators of [project.py] register them:
    of the two decorators of [showHome], the nearer one ([/catalog/]) runs
    first.  Flask's own [/static/<path:filename>] rule is left out. *)
Definition url_map : list Rule := [
  mkRule "new_user" [PLit "users"] true;
  mkRule "get_auth_token" [PLit "token"] true;
  mkRule "gconnect" [PLit "gconnect"] false;
  mkRule "gdisconnect" [PLit "gdisconnect"] false;
  mkRule "showHome" [PLit "catalog"] true;
  mkRule "showHome" [] true;
  mkRule "newItem" [PLit "catalog"; PLit "items"; PLit "new"] true;
  mkRule "newCategory" [PLit "catalog"; PLit "categories"; PLit "new"] true;
  mkRule "showCategory" [PLit "catalog"; PInt "category_id"] true;
  mkRule "showItem" [PLit "catalog"; PLit "items"; PInt "item_id"] true;
  mkRule "editItem" [PLit "catalog"; PLit "items"; PInt "item_id"; PLit "edit"] true;
  mkRule "deleteItem" [PLit "catalog"; PLit "items"; PInt "item_id"; PLit "delete"] true;
  mkRule "apiAllCategories" [PLit "api"; PLit "categories"] true;
  mkRule "apiManageCategory" [PLit "api"; PLit "categories"; PInt "category_id"] true;
  mkRule "apiAllItems" [PLit "api"; PLit "items"] true;
  mkRule "apiManageItem" [PLit "api"; PLit "items"; PInt "item_id"] true
].

(** The segments a rule matches, the trailing slash as a last empty one. *)
Definition rule_segments (ru : Rule) : list Piece :=
  rule_pieces ru ++ (if rule_slash ru then [PLit ""] else []).

Definition lookup_arg (x : string) (args : list (string * Z)) : option Z :=
  snd <$> List.find (fun kv => String.eqb kv.1 x) args.

(** Flask's [view_functions[endpoint]]: the view an endpoint
    and its values call. *)
Definition route_of (ep : string) (vals : list (string * Z)) : option Route :=
  if String.eqb ep "new_user" then Some R_users
  else if String.eqb ep "get_auth_token" then Some R_token
  else if String.eqb ep "gconnect" then Some R_gconnect
  else if String.eqb ep "gdisconnect" then Some R_gdisconnect
  else if String.eqb ep "showHome" then Some R_home
  else if String.eqb ep "newItem" then Some R_newItem
  else if String.eqb ep "newCategory" then Some R_newCategory
  else if String.eqb ep "showCategory" then R_showCategory <$> lookup_arg "category_id" vals
  else if String.eqb ep "showItem" then R_showItem <$> lookup_arg "item_id" vals
  else if String.eqb ep "editItem" then R_editItem <$> lookup_arg "item_id" vals
  else if String.eqb ep "deleteItem" then R_deleteItem <$> lookup_arg "item_id" vals
  else if String.eqb ep "apiAllCategories" then Some R_apiCategories
  else if String.eqb ep "apiManageCategory" then R_apiCategory <$> lookup_arg "category_id" vals
  else if String.eqb ep "apiAllItems" then Some R_apiItems
  else if String.eqb ep "apiManageItem" then R_apiItem <$> lookup_arg "item_id" vals
  else None.

(** ** Matching a path: [MapAdapter.match] *)

(** The values a rule's segments bind, or [None] when they do not match. *)
Fixpoint match_pieces (ps : list Piece) (segs : list string) : option (list (string * Z)) :=
  match ps, segs with
  | [], [] => Some []
  | PLit l :: ps', s :: segs' => if String.eqb l s then match_pieces ps' segs' else None
  | PInt x :: ps', s :: segs' =>
      match parse_uint s with
      | Some n => (fun vals => (x, Z.of_N n) :: vals) <$> match_pieces ps' segs'
      | None => None
      end
  | _, _ => None
  end.

Fixpoint find_rule (segs : list string) (rules : list Rule) : option (string * list (string * Z)) :=
  match rules with
  | [] => None
  | ru :: rest =>
      match match_pieces (rule_segments ru) segs with
      | Some vals => Some (rule_endpoint ru, vals)
      | None => find_rule segs rest
      end
  end.

(** Some rule with a trailing slash matches the path with a slash added. *)
Definition slash_rule (segs : list string) (rules : list Rule) : bool :=
  existsb (fun ru => rule_slash ru && bool_decide (is_Some (match_pieces (rule_pieces ru) segs))) rules.

Inductive UrlMatch :=
| UMatch (ep : string) (vals : list (string * Z))
| URedirect (location : string)   (* [RequestRedirect] *)
| UNotFound.                      (* [NotFound], 404 *)

Definition match_path (path : string) : UrlMatch :=
  match path with
  | String.String c rest =>
      if Ascii.eqb c "/" then
        let segs := split_slash rest in
        match find_rule segs url_map with
        | Some (ep, vals) => UMatch ep vals
        | None => if slash_rule segs url_map then URedirect (path ++ "/") else UNotFound
        end
      else UNotFound
  | String.EmptyString => UNotFound
  end.

(** What a request for [url] reaches: a view, a redirect that keeps the
    query string, or nothing. *)
Inductive Target := To_view (rt : Route) | Moved (location : string) | Missing.

Definition resolve (url : string) : Target :=
  let '(path, query) := split_query url in
  match match_path path with
  | UMatch ep vals => match route_of ep vals with Some rt => To_view rt | None => Missing end
  | URedirect loc =>
      Moved (match query with String.EmptyString => loc | _ => loc ++ "?" ++ query end)
  | UNotFound => Missing
  end.

(** ** Building a URL: [url_for] *)

Fixpoint build_pieces (args : list (string * Z)) (ps : list Piece) : option (list string) :=
  match ps with
  | [] => Some []
  | PLit l :: ps' => (fun segs => l :: segs) <$> build_pieces args ps'
  | PInt x :: ps' =>
      match lookup_arg x args with
      | Some v => (fun segs => show_int v :: segs) <$> build_pieces args ps'
      | None => None
      end
  end.

Fixpoint piece_names (ps : list Piece) : list string :=
  match ps with
  | [] => []
  | PLit _ :: ps' => piece_names ps'
  | PInt x :: ps' => x :: piece_names ps'
  end.

Fixpoint join_amp (l : list string) : string :=
  match l with
  | [] => ""
  | [s] => s
  | s :: rest => s ++ "&" ++ join_amp rest
  end.

(** [url_encode] of integer values under identifier keys (nothing to
    quote). *)
Definition url_encode (vals : list (string * Z)) : string :=
  join_amp (map (fun kv : string * Z => (kv.1 ++ "=" ++ show_int kv.2)%string) vals).

Definition with_query (path : string) (extra : list (string * Z)) : string :=
  match extra with
  | [] => path
  | _ => path ++ "?" ++ url_encode extra
  end.

(** [Rule.build]: the path, and the values the rule does not take as a
    query string. *)
Definition build_rule (ru : Rule) (args : list (string * Z)) : option string :=
  match build_pieces args (rule_segments ru) with
  | Some segs =>
      Some (with_query ("/" ++ join_slash segs)
              (List.filter (fun kv => negb (bool_decide (kv.1 ∈ piece_names (rule_pieces ru)))) args))
  | None => None
  end.

Fixpoint build_in (rules : list Rule) (ep : string) (args : list (string * Z)) : option string :=
  match rules with
  | [] => None
  | ru :: rest =>
      if String.eqb (rule_endpoint ru) ep then
        match build_rule ru args with
        | Some url => Some url
        | None => build_in rest ep args
        end
      else build_in rest ep args
  end.

(** [url_for(endpoint, **values)]; [None] is Werkzeug's [BuildError]. *)
Definition url_for (ep : string) (args : list (string * Z)) : option string := build_in url_map ep args.

(** ** Lemmas on the router *)

Definition starts_dash (s : string) : bool :=
  match s with String.String c _ => Ascii.eqb c "-" | String.EmptyString => false end.

(** The values of a rule's [<int:...>] segments that [args] gives. *)
Fixpoint bound_values (args : list (string * Z)) (ps : list Piece) : list (string * Z) :=
  match ps with
  | [] => []
  | PLit _ :: ps' => bound_values args ps'
  | PInt x :: ps' =>
      match lookup_arg x args with
      | Some v => (x, v) :: bound_values args ps'
      | None => bound_values args ps'
      end
  end.

(** Two lists of segments no path matches both of. *)
Fixpoint disjoint_pieces (p1 p2 : list Piece) : bool :=
  match p1, p2 with
  | [], [] => false
  | [], _ :: _ | _ :: _, [] => true
  | PLit l1 :: p1', PLit l2 :: p2' => negb (String.eqb l1 l2) || disjoint_pieces p1' p2'
  | PLit l :: p1', PInt _ :: p2' | PInt _ :: p1', PLit l :: p2' =>
      match parse_uint l with None => true | Some _ => false end || disjoint_pieces p1' p2'
  | PInt _ :: p1', PInt _ :: p2' => disjoint_pieces p1' p2'
  end.

Fixpoint pairwise_disjoint (rules : list Rule) : bool :=
  match rules with
  | [] => true
  | ru :: rest =>
      forallb (fun ru' => disjoint_pieces (rule_segments ru) (rule_segments ru')) rest &&
      pairwise_disjoint rest
  end.

(** The literals of a rule are segments that do not start with [-], and a
    rule has at least one segment. *)
Definition rule_ok (ru : Rule) : bool :=
  forallb (fun p => match p with PLit l => seg_ok l && negb (starts_dash l) | PInt _ => true end)
    (rule_segments ru) &&
  negb (bool_decide (rule_segments ru = [])).

Lemma digit_char_not c d :
  (d < 10)%N -> (N_of_ascii c <? 48)%N || (58 <=? N_of_ascii c)%N = true ->
  Ascii.eqb (digit_char d) c = false.
Proof.
  intros Hd Hc. destruct (Ascii.eqb_spec (digit_char d) c) as [E|]; [|done]. exfalso.
  apply (f_equal N_of_ascii) in E. unfold digit_char in E. rewrite N_ascii_embedding in E by lia.
  apply orb_true_iff in Hc as [Hc%N.ltb_lt|Hc%N.leb_le]; lia.
Qed.

Lemma avoids_show_N c n :
  (N_of_ascii c <? 48)%N || (58 <=? N_of_ascii c)%N = true -> avoids c (show_N n) = true.
Proof.
  intros Hc. unfold avoids, show_N. rewrite String.list_ascii_of_string_of_list_ascii.
  pose proof (Forall_rev (digits_le_size n)) as Hs.
  induction Hs as [|d ds Hd _ IH]; simpl; [done|]. by rewrite digit_char_not.
Qed.

Lemma seg_ok_show_int z : seg_ok (show_int z) = true.
Proof. unfold seg_ok, show_int. destruct (z <? 0); rewrite ?avoids_cons, !avoids_show_N by reflexivity; done. Qed.

Lemma show_int_dash z : z < 0 -> starts_dash (show_int z) = true.
Proof. intros Hz. unfold show_int. by destruct (Z.ltb_spec z 0); [|lia]. Qed.

Lemma parse_uint_dash s : starts_dash s = true -> parse_uint s = None.
Proof. destruct s as [|c s]; [done|]. simpl. intros ->%Ascii.eqb_eq. reflexivity. Qed.

Lemma avoids_join c segs :
  Ascii.eqb "/" c = false -> Forall (fun s => avoids c s = true) segs -> avoids c (join_slash segs) = true.
Proof.
  intros Hc Hs. induction Hs as [|s segs Hs0 Hs IH]; [done|].
  destruct segs as [|s' segs]; [done|].
  change (join_slash (s :: s' :: segs)) with (s ++ "/" ++ join_slash (s' :: segs))%string.
  rewrite !avoids_app, Hs0, IH, avoids_cons, Hc. done.
Qed.

Lemma forallb_false_exists {A} (p : A -> bool) l : forallb p l = false -> exists x, In x l /\ p x = false.
Proof.
  induction l as [|a l IH]; simpl; [done|]. destruct (p a) eqn:Ea; simpl; [|by eauto].
  intros (x & ? & ?)%IH. eauto.
Qed.

Lemma disjoint_pieces_sound p1 p2 segs v1 v2 :
  disjoint_pieces p1 p2 = true -> match_pieces p1 segs = Some v1 -> match_pieces p2 segs = Some v2 -> False.
Proof.
  revert p2 segs v1 v2.
  induction p1 as [|[l1|x1] p1 IH]; intros [|[l2|x2] p2] [|s segs] v1 v2 Hd H1 H2; cbn [match_pieces disjoint_pieces] in *; try discriminate.
  - destruct (String.eqb_spec l1 s), (String.eqb_spec l2 s); try discriminate; subst.
    rewrite String.eqb_refl in Hd. simpl in Hd. eauto.
  - destruct (String.eqb_spec l1 s); [subst l1|discriminate].
    destruct (parse_uint s) eqn:Ep; [|discriminate]. simpl in Hd.
    apply fmap_Some in H2 as (? & H2 & _). eauto.
  - destruct (String.eqb_spec l2 s); [subst l2|discriminate].
    destruct (parse_uint s) eqn:Ep; [|discriminate]. simpl in Hd.
    apply fmap_Some in H1 as (? & H1 & _). eauto.
  - destruct (parse_uint s); [|discriminate].
    apply fmap_Some in H1 as (? & H1 & _). apply fmap_Some in H2 as (? & H2 & _). eauto.
Qed.

(** A path a rule matches is matched by that rule whatever the order of a
    pairwise disjoint list of rules. *)
Lemma find_rule_unique rules segs ru vals :
  pairwise_disjoint rules = true -> In ru rules -> match_pieces (rule_segments ru) segs = Some vals ->
  find_rule segs rules = Some (rule_endpoint ru, vals).
Proof.
  induction rules as [|r rest IH]; simpl; [done|].
  intros [Hall Hp]%andb_prop [<-|Hin] Hm; [by rewrite Hm|].
  destruct (match_pieces (rule_segments r) segs) eqn:Er; [|auto].
  exfalso. rewrite forallb_forall in Hall. eapply disjoint_pieces_sound; [apply Hall, Hin|exact Er|exact Hm].
Qed.

Lemma find_rule_none rules segs :
  (forall ru, In ru rules -> match_pieces (rule_segments ru) segs = None) -> find_rule segs rules = None.
Proof.
  induction rules as [|r rest IH]; intros Hn; simpl; [done|].
  rewrite Hn by (left; done). apply IH. intros ru Hru. apply Hn. by right.
Qed.

Lemma slash_rule_none rules segs :
  (forall ru, In ru rules -> match_pieces (rule_pieces ru) segs = None) -> slash_rule segs rules = false.
Proof.
  intros Hn. apply not_true_iff_false. unfold slash_rule. rewrite existsb_exists.
  intros (ru & Hru & Hs). rewrite Hn in Hs by done. apply andb_prop in Hs as [_ Hs].
  by apply bool_decide_eq_true, is_Some_None in Hs.
Qed.

Lemma match_pieces_dash ps segs vals s :
  match_pieces ps segs = Some vals -> In s segs -> starts_dash s = true ->
  exists l, In (PLit l) ps /\ starts_dash l = true.
Proof.
  revert segs vals. induction ps as [|[l|x] ps IH]; intros [|s' segs] vals Hm Hin Hs; cbn [match_pieces In] in *; try done.
  - destruct (String.eqb_spec l s') as [<-|]; [|done].
    destruct Hin as [<-|Hin]; [by eauto|].
    destruct (IH _ _ Hm Hin Hs) as (l' & ? & ?). eauto.
  - destruct (parse_uint s') eqn:Ep; [|done]. apply fmap_Some in Hm as (vals' & Hm & _).
    destruct Hin as [<-|Hin]; [by rewrite parse_uint_dash in Ep|].
    destruct (IH _ _ Hm Hin Hs) as (l' & ? & ?). eauto.
Qed.

Lemma build_match args ps segs :
  build_pieces args ps = Some segs -> Forall (fun kv => 0 <= kv.2) (bound_values args ps) ->
  match_pieces ps segs = Some (bound_values args ps).
Proof.
  revert segs. induction ps as [|[l|x] ps IH]; intros segs Hb Hv; simpl in *.
  - by injection Hb as <-.
  - apply fmap_Some in Hb as (segs' & Hb & ->). simpl. rewrite String.eqb_refl. auto.
  - destruct (lookup_arg x args) as [v|]; [|discriminate].
    apply fmap_Some in Hb as (segs' & Hb & ->). apply Forall_cons in Hv as [Hv0 Hv]. simpl in Hv0.
    simpl. rewrite parse_show_int. destruct (Z.ltb_spec v 0); [lia|].
    rewrite (IH _ Hb Hv). simpl. rewrite Z2N.id by done. done.
Qed.

Lemma build_bound_in args ps segs kv :
  build_pieces args ps = Some segs -> In kv (bound_values args ps) -> In (show_int kv.2) segs.
Proof.
  revert segs. induction ps as [|[l|x] ps IH]; intros segs Hb Hin; simpl in *; [done| |].
  - apply fmap_Some in Hb as (segs' & Hb & ->). right. eauto.
  - destruct (lookup_arg x args) as [v|]; [|discriminate].
    apply fmap_Some in Hb as (segs' & Hb & ->). destruct Hin as [<-|Hin]; [by left|]. right. eauto.
Qed.

Lemma build_segs_ok args ps segs :
  build_pieces args ps = Some segs ->
  Forall (fun p => match p with PLit l => seg_ok l && negb (starts_dash l) | PInt _ => true end = true) ps ->
  Forall (fun s => seg_ok s = true) segs /\ length segs = length ps.
Proof.
  revert segs. induction ps as [|[l|x] ps IH]; intros segs Hb Hps; simpl in *.
  - by injection Hb as <-.
  - apply fmap_Some in Hb as (segs' & Hb & ->). apply Forall_cons in Hps as [[Hl _]%andb_prop Hps].
    destruct (IH _ Hb Hps). simpl. auto.
  - destruct (lookup_arg x args) as [v|]; [|discriminate].
    apply fmap_Some in Hb as (segs' & Hb & ->). apply Forall_cons in Hps as [_ Hps].
    destruct (IH _ Hb Hps). simpl. split; [constructor; [apply seg_ok_show_int|]|]; auto.
Qed.

Lemma url_map_disjoint : pairwise_disjoint url_map = true.
Proof. vm_compute. reflexivity. Qed.

Lemma url_map_rule_ok ru :
  In ru url_map ->
  Forall (fun p => match p with PLit l => seg_ok l && negb (starts_dash l) | PInt _ => true end = true)
    (rule_segments ru) /\ rule_segments ru <> [].
Proof.
  intros Hru. assert (H : forallb rule_ok url_map = true) by (vm_compute; reflexivity).
  rewrite forallb_forall in H. apply H, andb_prop in Hru as [H1 H2].
  split; [by apply List.Forall_forall, forallb_forall|].
  by apply negb_true_iff, bool_decide_eq_false in H2.
Qed.

(** A path with a segment that starts with [-] matches no rule. *)
Lemma dash_unmatched ru ps segs s :
  In ru url_map -> (forall l, In (PLit l) ps -> In (PLit l) (rule_segments ru)) ->
  In s segs -> starts_dash s = true -> match_pieces ps segs = None.
Proof.
  intros Hru Hps Hin Hs. destruct (match_pieces ps segs) as [vals|] eqn:Em; [exfalso|done].
  destruct (match_pieces_dash _ _ _ _ Em Hin Hs) as (l & Hl & Hld).
  destruct (url_map_rule_ok ru Hru) as [Hok _]. rewrite List.Forall_forall in Hok.
  specialize (Hok _ (Hps _ Hl)). simpl in Hok. rewrite Hld in Hok. by rewrite andb_false_r in Hok.
Qed.

Lemma match_path_slash rest :
  match_path (String.String "/" rest) =
    match find_rule (split_slash rest) url_map with
    | Some (ep, vals) => UMatch ep vals
    | None => if slash_rule (split_slash rest) url_map then URedirect (String.String "/" rest ++ "/")
              else UNotFound
    end.
Proof. reflexivity. Qed.

Lemma split_query_with p extra : avoids "?" p = true -> exists q, split_query (with_query p extra) = (p, q).
Proof.
  intros Hp. destruct extra as [|kv extra]; unfold with_query; eexists;
    [by apply split_query_path|by apply split_query_app].
Qed.

(** What the router makes of the URL a rule builds: the rule's own
    endpoint and values when every value is non-negative, and a 404
    otherwise. *)
Lemma resolve_build_rule ru args url :
  In ru url_map -> build_rule ru args = Some url ->
  resolve url =
    if forallb (fun kv => 0 <=? kv.2) (bound_values args (rule_segments ru))
    then match route_of (rule_endpoint ru) (bound_values args (rule_segments ru)) with
         | Some rt => To_view rt
         | None => Missing
         end
    else Missing.
Proof.
  intros Hru Hb. unfold build_rule in Hb.
  destruct (build_pieces args (rule_segments ru)) as [segs|] eqn:Eb; [|discriminate]. injection Hb as <-.
  destruct (url_map_rule_ok ru Hru) as [Hlits Hne].
  destruct (build_segs_ok _ _ _ Eb Hlits) as [Hsegs Hlen].
  assert (Hsplit : split_slash (join_slash segs) = segs).
  { apply split_join; [|done]. intros ->. by destruct (rule_segments ru). }
  assert (Hq : avoids "?" ("/" ++ join_slash segs) = true).
  { rewrite avoids_app. apply avoids_join; [done|]. eapply Forall_impl; [exact Hsegs|].
    intros s [_ Hs]%andb_prop. exact Hs. }
  destruct (split_query_with _ (List.filter (fun kv => negb (bool_decide (kv.1 ∈ piece_names (rule_pieces ru)))) args) Hq)
    as [q Hsq].
  unfold resolve. rewrite Hsq.
  change (("/" ++ join_slash segs)%string) with (String.String "/" (join_slash segs)).
  rewrite match_path_slash, Hsplit.
  destruct (forallb _ _) eqn:Hv.
  - rewrite (find_rule_unique url_map segs ru (bound_values args (rule_segments ru)));
      [done|apply url_map_disjoint|done|].
    apply build_match; [done|]. apply List.Forall_forall. intros kv Hkv.
    rewrite forallb_forall in Hv. apply Z.leb_le, Hv, Hkv.
  - apply forallb_false_exists in Hv as (kv & Hkv & Hneg%Z.leb_gt).
    pose proof (build_bound_in _ _ _ _ Eb Hkv) as Hin. pose proof (show_int_dash _ Hneg) as Hd.
    rewrite find_rule_none, slash_rule_none; [done| |].
    + intros ru' Hru'. eapply dash_unmatched; [exact Hru'| |exact Hin|exact Hd].
      intros l' Hl'. apply in_or_app. by left.
    + intros ru' Hru'. by eapply dash_unmatched; [exact Hru'| |exact Hin|exact Hd].
Qed.

Lemma url_for_rule ep args url :
  url_for ep args = Some url ->
  exists ru, In ru url_map /\ rule_endpoint ru = ep /\ build_rule ru args = Some url.
Proof.
  unfold url_for. generalize url_map as rules. induction rules as [|ru rest IH]; simpl; [discriminate|].
  destruct (String.eqb_spec (rule_endpoint ru) ep); [destruct (build_rule ru args) eqn:E|]; intros H.
  - injection H as <-. eauto.
  - destruct (IH H) as (ru' & ? & ? & ?). eauto.
  - destruct (IH H) as (ru' & ? & ? & ?). eauto.
Qed.

(** The endpoint and the values [url_for] is called with for a route. *)
Definition route_endpoint (rt : Route) : string * list (string * Z) :=
  match rt with
  | R_users => ("new_user", [])
  | R_token => ("get_auth_token", [])
  | R_gconnect => ("gconnect", [])
  | R_gdisconnect => ("gdisconnect", [])
  | R_home => ("showHome", [])
  | R_newItem => ("newItem", [])
  | R_newCategory => ("newCategory", [])
  | R_showCategory cid => ("showCategory", [("category_id", cid)])
  | R_showItem iid => ("showItem", [("item_id", iid)])
  | R_editItem iid => ("editItem", [("item_id", iid)])
  | R_deleteItem iid => ("deleteItem", [("item_id", iid)])
  | R_apiCategories => ("apiAllCategories", [])
  | R_apiCategory cid => ("apiManageCategory", [("category_id", cid)])
  | R_apiItems => ("apiAllItems", [])
  | R_apiItem iid => ("apiManageItem", [("item_id", iid)])
  end.

(** The ids of a route are ones [<int:...>] can match. *)
Definition route_ids_ok (rt : Route) : bool :=
  match rt with
  | R_showCategory i | R_showItem i | R_editItem i | R_deleteItem i | R_apiCategory i | R_apiItem i => 0 <=? i
  | _ => true
  end.

(** The routes a redirect of the application may lead to: the pages a
    browser reloads. *)
Definition page_route (rt : Route) : bool :=
  match rt with R_home | R_showCategory _ | R_showItem _ => true | _ => false end.

Definition page_endpoints : list string := ["showHome"; "showItem"; "showCategory"].

(** [resolve_rule H] rewrites [resolve url] for the [url_for] of [H] by
    the rule it came from, one goal per rule of [url_map]. *)
Ltac resolve_rule H :=
  let Hin := fresh "Hin" in let Hep := fresh "Hep" in let Hb := fresh "Hb" in
  apply url_for_rule in H as (? & Hin & Hep & Hb);
  rewrite (resolve_build_rule _ _ _ Hin Hb);
  repeat destruct Hin as [<-|Hin]; try destruct Hin; simpl in Hep; subst.

(** C22: Round trip of the URL map.  For every route, [url_for] of its
    endpoint and values builds a URL, and the router sends that URL back
    to the same route; a route with a negative id gets a URL no rule
    matches (a 404). *)
Theorem url_for_resolve rt :
  exists url, url_for (route_endpoint rt).1 (route_endpoint rt).2 = Some url /\
    resolve url = if route_ids_ok rt then To_view rt else Missing.
Proof.
  destruct (url_for (route_endpoint rt).1 (route_endpoint rt).2) as [url|] eqn:E;
    [|by destruct rt; simpl in E].
  exists url. split; [done|].
  destruct rt; simpl in E; resolve_rule E; try discriminate; simpl; rewrite ?andb_true_r;
    try destruct (0 <=? _); done.
Qed.

(** Every URL [url_for] builds for a page endpoint leads to a page, or to
    nothing. *)
Lemma resolve_page_url ep args url :
  ep ∈ page_endpoints -> url_for ep args = Some url ->
  match resolve url with To_view rt => page_route rt | Missing => true | Moved _ => false end = true.
Proof.
  intros Hep%(bool_decide_eq_true_2 _) Hu. resolve_rule Hu; try discriminate; simpl; [done|done| |];
    (destruct (lookup_arg _ args); simpl; [destruct (0 <=? _)|]; done).
Qed.

Lemma match_pieces_snoc ps segs vals :
  match_pieces ps segs = Some vals -> match_pieces (ps ++ [PLit ""]) (segs ++ [""]) = Some vals.
Proof.
  revert segs vals. induction ps as [|[l|x] ps IH]; intros [|s segs] vals Hm; cbn [match_pieces app] in *;
    try discriminate.
  - by injection Hm as <-.
  - destruct (String.eqb l s); [auto|discriminate].
  - destruct (parse_uint s); [|discriminate]. apply fmap_Some in Hm as (vals' & Hm & ->).
    by rewrite (IH _ _ Hm).
Qed.

(** The router's strict-slash redirect leads to a URL that a rule
    matches: it is never redirected again. *)
Lemma resolve_moved url loc :
  resolve url = Moved loc -> match resolve loc with Moved _ => false | _ => true end = true.
Proof.
  unfold resolve. pose proof (split_query_avoids url) as Hq.
  destruct (split_query url) as [path q]. simpl in Hq.
  destruct path as [|c rest]; [done|].
  destruct (Ascii.eqb c "/") eqn:Ec; [apply Ascii.eqb_eq in Ec as ->|by unfold match_path; rewrite Ec].
  rewrite match_path_slash. destruct (find_rule _ _) as [[ep vals]|]; [by destruct (route_of ep vals)|].
  destruct (slash_rule _ _) eqn:Hsl; [|done]. intros Hm. injection Hm as <-.
  assert (Hq' : avoids "?" (String.String "/" rest ++ "/") = true) by (rewrite avoids_app, Hq; done).
  destruct q as [|a q]; [rewrite split_query_path by done|rewrite split_query_app by done];
    rewrite append_cons, match_path_slash, split_slash_snoc;
    apply existsb_exists in Hsl as (ru & Hru & [Hslash Hsome%bool_decide_eq_true]%andb_prop);
    destruct Hsome as [vals Hvals];
    (rewrite (find_rule_unique url_map _ ru vals); [by destruct (route_of _ _)|apply url_map_disjoint|done|]);
    unfold rule_segments; rewrite Hslash; by apply match_pieces_snoc.
Qed.

(** The URLs of the redirects of [project.py], and the router on boundary
    inputs: [url_for("showHome")] is the rule nearest the function; the
    [category_id] that [editItem] passes to [url_for("showItem", ...)]
    (line 384) is not an argument of that rule and becomes a query string;
    leading zeros are read by [int]; a missing trailing slash is a
    redirect that keeps the query; a negative id and an extra slash are 404s. *)
Lemma url_examples :
  url_for "showHome" [] = Some "/catalog/" /\
  url_for "showItem" [("category_id", 2); ("item_id", 15)] = Some "/catalog/items/15/?category_id=2" /\
  url_for "showCategory" [("category_id", 3)] = Some "/catalog/3/" /\
  resolve "/" = To_view R_home /\
  resolve "/catalog/items/007/edit/" = To_view (R_editItem 7) /\
  resolve "/catalog/items/new?x=1" = Moved "/catalog/items/new/?x=1" /\
  resolve "/gconnect?state=AB" = To_view R_gconnect /\
  query_arg "state" "state=AB&x=1" = Some "AB" /\
  resolve "/gconnect/" = Missing /\
  resolve "/catalog/-1/" = Missing /\
  show_int 0 = "0" /\ show_int 9 = "9" /\ show_int 10 = "10" /\ show_int (-10) = "-10" /\
  parse_uint "" = None /\ parse_uint "1a" = None /\ parse_uint "65536" = Some 65536%N.
Proof. vm_compute. repeat split. Qed.
