(* ===== verification/Cookie.v ===== *)
(** * The session cookie: Flask's [SecureCookieSessionInterface]

    [login_session] is Flask's [session].  The server does not store it:
    at the end of a request Flask serialises it into a cookie signed with
    [app.secret_key] (with itsdangerous' [URLSafeTimedSerializer], which
    adds the time of signing), and at the start of the next request it
    loads the session from the cookie the client sends, if the signature
    checks and the cookie is younger than [PERMANENT_SESSION_LIFETIME]
    (31 days); otherwise the request starts with an empty session.  The
    cookie is set only when the request changed the session, and deleted
    when the session became empty.

    This file models that layer ([open_session], [save_session], the
    deployed server [cserve] whose clients hold only their cookies; an
    uncaught exception sets no cookie, since under [app.debug] Flask
    re-raises it before saving the session).  For clients that send back
    the cookies they were given, [cserve] answers as the server of [App]
    on every run within one session lifetime.  But [app.secret_key] is the
    string of line 22 of [project.py], so any client signs a cookie for
    any session: [creachable] is the reachability of clients that present
    any cookie.  The theorems: the database invariant that holds for such
    clients, the items without a user that they create, and the deletion
    of any user's item with a forged cookie. *)

From S2P Require Import Prelude Crypto Schema Http Auth Api Pages App.
From stdpp Require Import gmap countable.
Local Open Scope Z_scope.
Local Open Scope catalog_scope.

#[export] Instance Session_eq_dec : EqDecision Session.
Proof. solve_decision. Defined.

#[export] Program Instance Session_countable : Countable Session :=
  inj_countable' (fun ss => (ls_userId ss, ls_admin ss, ls_state ss, ls_credentials ss, ls_flashes ss))
                 (fun '(u, a, st, c, f) => mkSession u a st c f) _.
Next Obligation. by intros []. Qed.

(** ** The cookie serializer

    [cs_dumps key t s] is the cookie of session [s] signed with [key] at
    time [t]; [cs_loads key max_age now c] is the session of cookie [c] if
    its signature checks with [key] and its age [now - t] is between [0]
    and [max_age], and [None] (a [BadSignature], of which
    [SignatureExpired] is a case) otherwise. *)
Class SessionSerializer := {
  cs_dumps : string -> Z -> Session -> string;
  cs_loads : string -> Z -> Z -> string -> option Session;
  cs_loads_dumps k t s ma now :
    0 <= now - t <= ma -> cs_loads k ma now (cs_dumps k t s) = Some s;
  cs_loads_expired k t s ma now :
    ma < now - t -> cs_loads k ma now (cs_dumps k t s) = None;
}.

(** The executable instance: the session, the key and the time, encoded. *)
Definition demo_cs_dumps (k : string) (t : Z) (s : Session) : string := enc_str (k, t, s).

Definition demo_cs_loads (k : string) (ma now : Z) (c : string) : option Session :=
  match dec_str (A:=string * Z * Session) c with
  | Some (k', t, s) => if String.eqb k' k && bool_decide (0 <= now - t <= ma) then Some s else None
  | None => None
  end.

#[export] Program Instance demo_session_serializer : SessionSerializer :=
  {| cs_dumps := demo_cs_dumps; cs_loads := demo_cs_loads |}.
Next Obligation.
  intros k t s ma now Ht. unfold demo_cs_loads, demo_cs_dumps. rewrite dec_enc_str, String.eqb_refl.
  by rewrite bool_decide_true.
Qed.
Next Obligation.
  intros k t s ma now Ht. unfold demo_cs_loads, demo_cs_dumps. rewrite dec_enc_str, String.eqb_refl.
  rewrite bool_decide_false by lia. done.
Qed.

(** [app.secret_key] of [project.py], a constant of the source. *)
Definition app_secret_key : string := "thisisassecretasitgets2%".

(** Flask's default [PERMANENT_SESSION_LIFETIME], in seconds: the
    [max_age] [open_session] passes to [loads]. *)
Definition PERMANENT_SESSION_LIFETIME : Z := 31 * 24 * 3600.

Section CookieServer.
Context `{PasswordContext} `{TimedSerializer} `{OAuthVerifier} `{SessionSerializer}.
Context (cfg : Config).

(** [open_session]: no cookie, a bad signature or an expired cookie give a
    new, empty session. *)
Definition open_session (now : Z) (cookie : option string) : Session :=
  match cookie with
  | None => empty_session
  | Some c => default empty_session (cs_loads app_secret_key PERMANENT_SESSION_LIFETIME now c)
  end.

(** [save_session]: the cookie the client holds after the request.  An
    unchanged session sets no cookie, so the client keeps its own; a
    session that became empty deletes the cookie; otherwise the session is
    signed at the request's time. *)
Definition save_session (now : Z) (ss ss' : Session) (cookie : option string) : option string :=
  if decide (ss' = ss) then cookie
  else if decide (ss' = empty_session) then None
  else Some (cs_dumps app_secret_key now ss').

(** The server with the sessions in the clients' cookie jars. *)
Record CWorld := mkCWorld {
  cw_db : Db;
  cw_jar : gmap nat string;
}.

Definition cinit_world : CWorld := mkCWorld empty_db ∅.

Definition set_cookie (c : nat) (ck : option string) (jar : gmap nat string) : gmap nat string :=
  match ck with Some v => <[c := v]> jar | None => delete c jar end.

(** Client [c] sends request [r], with its cookie, to route [rt].  An
    uncaught exception propagates under [app.debug] before
    [save_session]: no cookie is set. *)
Definition cserve (w : CWorld) (c : nat) (rt : Route) (r : Request) : CWorld * Response :=
  let cookie := cw_jar w !! c in
  let ss := open_session (req_now r) cookie in
  let '(db', ss', resp) := run_view (dispatch cfg rt r) (cw_db w) ss in
  (mkCWorld db' (if uncaught resp then cw_jar w
                 else set_cookie c (save_session (req_now r) ss ss' cookie) (cw_jar w)), resp).

Fixpoint crun_trace (w : CWorld) (reqs : list (nat * Route * Request)) : CWorld * list Response :=
  match reqs with
  | [] => (w, [])
  | (c, rt, r) :: rest =>
      let '(w1, resp) := cserve w c rt r in
      let '(w2, resps) := crun_trace w1 rest in
      (w2, resp :: resps)
  end.

End CookieServer.

Section CookieRefinement.
Context `{PasswordContext} `{TimedSerializer} `{OAuthVerifier} `{SessionSerializer}.
Context (cfg : Config).

Abbreviation L := PERMANENT_SESSION_LIFETIME.

(** The simulation between the two servers: the same database, and each
    client's cookie, if any, is its session signed at a time in
    [[tmin, tmax]]; a client without a cookie has the empty session. *)
Definition cookie_sim (tmin tmax : Z) (w : World) (cw : CWorld) : Prop :=
  cw_db cw = w_db w /\
  forall c, match cw_jar cw !! c with
            | None => session_of w c = empty_session
            | Some ck => exists t, tmin <= t <= tmax /\ ck = cs_dumps app_secret_key t (session_of w c)
            end.

(** The request times of a run: non-decreasing from [tmax], and within one
    lifetime of [tmin]. *)
Fixpoint times_ok (tmin tmax : Z) (reqs : list (nat * Route * Request)) : Prop :=
  match reqs with
  | [] => True
  | (_, _, r) :: rest => tmax <= req_now r <= tmin + L /\ times_ok tmin (req_now r) rest
  end.

Lemma open_session_sim tmin tmax w cw c now :
  cookie_sim tmin tmax w cw -> tmax <= now <= tmin + L ->
  open_session now (cw_jar cw !! c) = session_of w c.
Proof.
  intros [_ Hj] Hnow. specialize (Hj c).
  destruct (cw_jar cw !! c) as [ck|]; simpl; [|done].
  destruct Hj as (t & Ht & ->). rewrite cs_loads_dumps by lia. done.
Qed.

Lemma session_of_insert w c c' ss db :
  session_of (mkWorld db (<[c := ss]> (w_sessions w))) c' =
    if decide (c = c') then ss else session_of w c'.
Proof.
  unfold session_of. simpl. case_decide as E.
  - subst. by rewrite lookup_insert_eq.
  - by rewrite lookup_insert_ne.
Qed.

Lemma set_cookie_lookup c c' ck jar :
  set_cookie c ck jar !! c' = if decide (c = c') then ck else jar !! c'.
Proof.
  unfold set_cookie. case_decide as E; destruct ck; subst;
    rewrite ?lookup_insert_eq, ?lookup_delete_eq, ?lookup_insert_ne, ?lookup_delete_ne; done.
Qed.

(** One request keeps the simulation, and both servers give the same
    answer. *)
Lemma cserve_sim tmin tmax w cw c rt r :
  cookie_sim tmin tmax w cw -> tmin <= tmax <= req_now r -> req_now r <= tmin + L ->
  (cserve cfg cw c rt r).2 = (serve cfg w c rt r).2 /\
  cookie_sim tmin (req_now r) (serve cfg w c rt r).1 (cserve cfg cw c rt r).1.
Proof.
  intros Hs Ht Hl. pose proof (open_session_sim _ _ _ _ c (req_now r) Hs ltac:(lia)) as Ho.
  destruct Hs as [Hdb Hj]. unfold cserve, serve. rewrite Ho, Hdb.
  destruct (run_view _ (w_db w) (session_of w c)) as [[db' ss'] resp].
  cbn [fst snd cw_db cw_jar]. split; [done|]. split; [done|]. intros c'.
  destruct (uncaught resp).
  { specialize (Hj c'). unfold session_of in *. cbn [w_sessions cw_jar] in *.
    destruct (cw_jar cw !! c'); [|done]. destruct Hj as (t & ? & ->). exists t. split; [lia|done]. }
  cbn [cw_jar]. rewrite session_of_insert, set_cookie_lookup. specialize (Hj c').
  destruct (decide (c = c')) as [<-|Hne].
  - unfold save_session. destruct (decide (ss' = session_of w c)) as [->|E1].
    + destruct (cw_jar cw !! c); [|done]. destruct Hj as (t & ? & ->). exists t. split; [lia|done].
    + destruct (decide (ss' = empty_session)); [done|]. exists (req_now r). split; [lia|done].
  - destruct (cw_jar cw !! c'); [|done]. destruct Hj as (t & ? & ->). exists t. split; [lia|done].
Qed.

Lemma crun_trace_sim tmin tmax w cw reqs :
  cookie_sim tmin tmax w cw -> tmin <= tmax -> times_ok tmin tmax reqs ->
  (crun_trace cfg cw reqs).2 = (run_trace cfg w reqs).2.
Proof.
  revert tmax w cw. induction reqs as [|[[c rt] r] rest IH]; intros tmax w cw Hs Ht Hok; [done|].
  destruct Hok as [Hr Hrest]. simpl.
  destruct (cserve_sim tmin tmax w cw c rt r Hs ltac:(lia) ltac:(lia)) as [Hresp Hs'].
  destruct (cserve cfg cw c rt r) as [cw1 resp1] eqn:E1.
  destruct (serve cfg w c rt r) as [w1 resp] eqn:E2. simpl in *.
  specialize (IH (req_now r) w1 cw1 Hs' ltac:(lia) Hrest).
  destruct (crun_trace cfg cw1 rest), (run_trace cfg w1 rest). simpl in *. by subst.
Qed.

Lemma init_cookie_sim t : cookie_sim t t init_world cinit_world.
Proof. split; [done|]. intros c. simpl. by rewrite lookup_empty. Qed.

(** Refinement of the session store by the cookie.  From the empty
    database, on any run of requests of any clients whose times are
    non-decreasing and lie within [PERMANENT_SESSION_LIFETIME] of the
    first, the server whose clients carry their session in a cookie signed
    with [app.secret_key] gives every request the same answer as the
    server of [App] that keeps each client's session. *)
Theorem cookie_server_refines t0 reqs :
  times_ok t0 t0 reqs ->
  (crun_trace cfg cinit_world reqs).2 = (run_trace cfg init_world reqs).2.
Proof. intros Hok. exact (crun_trace_sim t0 t0 _ _ reqs (init_cookie_sim t0) ltac:(lia) Hok). Qed.

End CookieRefinement.

(** ** Clients that sign their own cookies

    [app.secret_key] is the string of line 22 of [project.py], so whoever
    reads the source signs a cookie for any session, at any time.  The
    clients of the deployed server are therefore not bound to the cookies
    the server set: [cstep] is a request of any client, or a client
    replacing its cookie by any string ([cstep_cookie]); [creachable] is
    what runs of such clients reach from the empty database. *)
Section CookieAttack.
Context `{PasswordContext} `{TimedSerializer} `{OAuthVerifier} `{SessionSerializer}.
Context (cfg : Config).

Inductive cstep : CWorld -> CWorld -> Prop :=
| cstep_serve w c rt r : cstep w (cserve cfg w c rt r).1
| cstep_cookie w c ck : cstep w (mkCWorld (cw_db w) (<[c := ck]> (cw_jar w))).

Inductive creachable : CWorld -> Prop :=
| creach_init : creachable cinit_world
| creach_step w w' : creachable w -> cstep w w' -> creachable w'.

(** A request with any cookie keeps the database consistent: the views
    keep the invariant for any owner ids a session names. *)
Lemma cserve_consistent w c rt r :
  db_consistent (cw_db w) -> db_consistent (cw_db (cserve cfg w c rt r).1).
Proof.
  intros Hw. pose proof (dispatch_preserves cfg rt r any_owner _ (cw_db w)
                           (open_session (req_now r) (cw_jar w !! c)) Hw ltac:(done)) as Hp.
  unfold cserve. destruct (run_view _ _ _) as [[db' ss'] resp]. by destruct Hp.
Qed.

(** C1: The invariant of the deployed server.  Every database that
    clients presenting any cookies reach from the empty one, through any
    sequence of requests, keeps its rowids in order, the unique constraints
    on category names, item names and Google ids, a category for every
    item and a name for every item. *)
Theorem creachable_db_consistent w : creachable w -> db_consistent (cw_db w).
Proof.
  induction 1 as [|w w' _ IH Hstep]; [apply empty_db_wf|].
  destruct Hstep; [by apply cserve_consistent|done].
Qed.

(** The session a forged cookie carries: [userId] alone. *)
Definition forged_session (uid : Z) : Session := set_userId (Some uid) empty_session.

(** A cookie signed with line 22's string at the request's time opens to
    its session, whatever the start-up drew. *)
Lemma open_forged_cookie now ss :
  open_session now (Some (cs_dumps "thisisassecretasitgets2%" now ss)) = ss.
Proof. unfold open_session. rewrite cs_loads_dumps by (unfold PERMANENT_SESSION_LIFETIME; lia). done. Qed.

(** C3: Impersonation by a forged cookie.  Whatever the start-up drew, a
    client holding no password, no token and no Google account deletes any
    user's item: it signs, with the string of line 22 of [project.py], a
    session naming the item's owner, and posts it to
    [/catalog/items/<id>/delete/]; the item is removed and the client is
    redirected to the item's category. *)
Theorem forged_cookie_deletes_item w c r it :
  db_consistent (cw_db w) -> In it (db_items (cw_db w)) -> req_method r = POST ->
  cw_jar w !! c = Some (cs_dumps "thisisassecretasitgets2%" (req_now r) (forged_session (item_user_id it))) ->
  let '(w', resp) := cserve cfg w c (R_deleteItem (item_id it)) r in
  db_items (cw_db w') = tbl_delete (fun x => item_id x =? item_id it) (db_items (cw_db w)) /\
  resp = Redirect "showCategory" [("category_id", item_category_id it)].
Proof.
  intros Hw Hit Hm Hc. unfold cserve. rewrite Hc, open_forged_cookie.
  rewrite dispatch_view by (rewrite Hm; simpl; set_solver). simpl.
  rewrite (deleteItem_post_owner r (cw_db w) (forged_session (item_user_id it)) it Hw Hm eq_refl Hit).
  done.
Qed.

(** C2: Items without an owner.  Whatever the start-up drew, a client
    signing a session for an id that no user has creates, through
    [/catalog/items/new/], an item owned by that id: the database the
    server reaches breaks the owner foreign key, which no view and no
    constraint checks. *)
Theorem forged_cookie_orphans_item w c r u cat n d :
  db_consistent (cw_db w) -> In cat (db_categories (cw_db w)) ->
  has_id user_id u (db_users (cw_db w)) = false -> req_method r = POST ->
  req_form r = [("name", n); ("description", d); ("category", category_name cat)] ->
  truthy n && truthy d && truthy (category_name cat) = true -> n ∉ map item_name (db_items (cw_db w)) ->
  cw_jar w !! c = Some (cs_dumps "thisisassecretasitgets2%" (req_now r) (forged_session u)) ->
  let w' := (cserve cfg w c R_newItem r).1 in
  ~ db_wf (cw_db w') /\ exists it, In it (db_items (cw_db w')) /\ item_user_id it = u.
Proof.
  intros Hw Hcat Hu Hm Hf Ht Hn Hc. unfold cserve. rewrite Hc, open_forged_cookie.
  rewrite dispatch_view by (rewrite Hm; simpl; set_solver). simpl.
  assert (Hl : forall k, form_lookup r k = snd <$> List.find (fun kv => String.eqb kv.1 k) (req_form r))
    by done.
  rewrite (newItem_post_inserts r (cw_db w) (forged_session u) u n d cat Hw Hm eq_refl)
    by (rewrite ?Hl, ?Hf; simpl; rewrite ?String.eqb_refl; done).
  simpl. set (it := mkItem _ n d _ _ _ u).
  assert (Hin : In it (db_items (cw_db w) ++ [it])) by (apply in_or_app; right; left; done).
  split; [|by exists it].
  intros Hwf. pose proof (wf_item_owner _ Hwf) as Ho. rewrite List.Forall_forall in Ho.
  specialize (Ho it Hin). unfold user_present in Ho. simpl in Ho. congruence.
Qed.

End CookieAttack.

(** ** Witnesses, with the executable instances *)

Lemma cookie_server_refines_witness :
  times_ok 10 10 capture_script /\
  (crun_trace demo_cfg cinit_world capture_script).2 = (run_trace demo_cfg init_world capture_script).2.
Proof.
  assert (Hok : times_ok 10 10 capture_script)
    by (cbn; unfold PERMANENT_SESSION_LIFETIME; repeat split; lia).
  split; [exact Hok|exact (cookie_server_refines demo_cfg 10 capture_script Hok)].
Defined.

Lemma creachable_db_consistent_witness :
  creachable demo_cfg cinit_world /\ db_consistent (cw_db cinit_world).
Proof. split; [constructor|]. exact (creachable_db_consistent demo_cfg cinit_world (creach_init _)). Defined.

(** The jar of a client that signed a session for user [uid] at time 100. *)
Definition forged_jar (uid : Z) : gmap nat string :=
  {[7%nat := cs_dumps "thisisassecretasitgets2%" 100 (forged_session uid)]}.

(** Bob's boots (item 3) deleted by a client that signs a session for
    Bob's id. *)
Lemma forged_cookie_deletes_item_witness :
  let '(w', resp) := cserve demo_cfg (mkCWorld demo_db (forged_jar 3)) 7 (R_deleteItem 3) (form_req POST []) in
  db_items (cw_db w') = tbl_delete (fun x => item_id x =? 3) (db_items demo_db) /\
  resp = Redirect "showCategory" [("category_id", 1)].
Proof.
  exact (forged_cookie_deletes_item demo_cfg (mkCWorld demo_db (forged_jar 3)) 7 (form_req POST [])
           (mkItem 3 "Boots" "Football boots" 1 30 30 3)
           (db_wf_consistent demo_db (db_wfb_sound demo_db ltac:(vm_compute; reflexivity)))
           ltac:(simpl; auto) eq_refl eq_refl).
Defined.

(** A lamp owned by user 99, whom the demo database does not have. *)
Lemma forged_cookie_orphans_item_witness :
  let w' := (cserve demo_cfg (mkCWorld demo_db (forged_jar 99)) 7 R_newItem (form_req POST (lamp_form "Soccer"))).1 in
  ~ db_wf (cw_db w') /\ exists it, In it (db_items (cw_db w')) /\ item_user_id it = 99.
Proof.
  exact (forged_cookie_orphans_item demo_cfg (mkCWorld demo_db (forged_jar 99)) 7
           (form_req POST (lamp_form "Soccer")) 99 (mkCategory 1 "Soccer") "Lamp" "Bright"
           (db_wf_consistent demo_db (db_wfb_sound demo_db ltac:(vm_compute; reflexivity)))
           ltac:(simpl; auto) eq_refl eq_refl eq_refl eq_refl ltac:(by_decide) eq_refl).
Defined.

(** A session the client does not change for longer than
    [PERMANENT_SESSION_LIFETIME] is lost: a Google user who signed in at
    time 1 and posts a new category more than 31 days later is told they
    are not connected, while the server of [App] still knows them. *)
Definition late_script : list (nat * Route * Request) :=
  [(1%nat, R_home, mkRequest GET [] None None None "" 0 "" (fun _ => 0%nat));
   (1%nat, R_gconnect, mkRequest POST [] None None (Some demo_state)
                         (demo_google_token demo_client victim_google) 1 "" (fun _ => 0%nat));
   (1%nat, R_newCategory, mkRequest POST [("name", "Books")] None None None ""
                            (2 + PERMANENT_SESSION_LIFETIME) "" (fun _ => 0%nat))].

Lemma cookie_session_expires :
  (crun_trace demo_cfg cinit_world late_script).2 =
    [Render (THome [] [] None demo_state); Redirect "showHome" []; Redirect "showHome" []] /\
  ls_flashes (open_session (2 + PERMANENT_SESSION_LIFETIME)
                (cw_jar (crun_trace demo_cfg cinit_world late_script).1 !! 1%nat)) =
    ["User is not connected"] /\
  db_categories (w_db (run_trace demo_cfg init_world late_script).1) = [mkCategory 1 "Books"].
Proof. vm_compute. auto. Qed.
