(* ===== verification/Bounds.v ===== *)
(** * Rowids stay within SQLite's 64-bit range

    The model keeps rowids as unbounded integers ([Z]); SQLite stores them
    as signed 64-bit integers, and once the largest rowid of a table is
    [2^63 - 1] it no longer takes [max + 1] for a new row.  This file shows
    that the model never reaches that point in a run of realistic length:
    a request inserts at most one row, so it raises the largest rowid of the
    database by at most one ([grows_by_one]); from the empty database,
    after [n] requests every rowid is at most [n], and the next rowid of
    every table is at most [2^63 - 1] as long as fewer than [2^63 - 1]
    requests have been served. *)

From S2P Require Import Prelude Crypto Schema Http Auth Api Pages App.
From stdpp Require Import gmap.
Local Open Scope Z_scope.
Local Open Scope catalog_scope.

(** ** The largest rowid of a table *)

Section MaxRowid.
Context {R : Type} (rid : R -> Z).

Lemma max_rowid_map t : max_rowid rid t = fold_right Z.max 0 (map rid t).
Proof. induction t as [|a t IH]; simpl; [done|]. by rewrite IH. Qed.

Lemma fold_max_from t a :
  0 <= a -> fold_right (fun r m => Z.max (rid r) m) a t = Z.max (max_rowid rid t) a.
Proof.
  intros Ha. unfold max_rowid. induction t as [|b t IH]; simpl; [lia|]. rewrite IH. lia.
Qed.

Lemma max_rowid_insert mk t :
  rid (mk (next_rowid rid t)) = next_rowid rid t ->
  max_rowid rid (tbl_insert rid mk t) = next_rowid rid t.
Proof.
  intros Hmk. pose proof (max_rowid_nonneg rid t).
  unfold tbl_insert. unfold max_rowid at 1. rewrite fold_right_app. simpl. rewrite Hmk.
  rewrite fold_max_from by (unfold next_rowid; lia). unfold next_rowid. lia.
Qed.

Lemma max_rowid_delete p t : max_rowid rid (tbl_delete p t) <= max_rowid rid t.
Proof.
  unfold tbl_delete. induction t as [|a t IH]; simpl; [lia|].
  destruct (p a); simpl; lia.
Qed.

Lemma max_rowid_update i f t :
  (forall r, rid r = i -> rid (f r) = rid r) ->
  max_rowid rid (tbl_update rid i f t) = max_rowid rid t.
Proof. intros Hf. by rewrite !max_rowid_map, map_rid_update. Qed.

End MaxRowid.

(** ** The largest rowid of the database *)

Definition db_max_id (db : Db) : Z :=
  Z.max (max_rowid user_id (db_users db))
        (Z.max (max_rowid category_id (db_categories db)) (max_rowid item_id (db_items db))).

(** What a request may do to the rowids: raise the largest by one. *)
Definition grows_by_one (db db' : Db) : Prop := db_max_id db' <= db_max_id db + 1.

Lemma db_max_id_nonneg db : 0 <= db_max_id db.
Proof. unfold db_max_id. pose proof (max_rowid_nonneg user_id (db_users db)). lia. Qed.

(** An [INSERT] raises its table's largest rowid to the next rowid. *)
Local Ltac grows_insert :=
  intros Hmk; unfold grows_by_one, db_max_id; simpl; rewrite max_rowid_insert by done;
  unfold next_rowid; lia.

Lemma grows_refl db : grows_by_one db db.
Proof. unfold grows_by_one. lia. Qed.

Lemma grows_insert_user db mk :
  user_id (mk (next_rowid user_id (db_users db))) = next_rowid user_id (db_users db) ->
  grows_by_one db (with_users db (tbl_insert user_id mk (db_users db))).
Proof. grows_insert. Qed.

Lemma grows_insert_category db mk :
  category_id (mk (next_rowid category_id (db_categories db))) = next_rowid category_id (db_categories db) ->
  grows_by_one db (with_categories db (tbl_insert category_id mk (db_categories db))).
Proof. grows_insert. Qed.

Lemma grows_insert_item db mk :
  item_id (mk (next_rowid item_id (db_items db))) = next_rowid item_id (db_items db) ->
  grows_by_one db (with_items db (tbl_insert item_id mk (db_items db))).
Proof. grows_insert. Qed.

Lemma grows_delete db pc pi :
  grows_by_one db (mkDb (db_users db) (tbl_delete pc (db_categories db)) (tbl_delete pi (db_items db))).
Proof.
  unfold grows_by_one, db_max_id. simpl.
  pose proof (max_rowid_delete category_id pc (db_categories db)).
  pose proof (max_rowid_delete item_id pi (db_items db)). lia.
Qed.

Lemma grows_delete_items db p : grows_by_one db (with_items db (tbl_delete p (db_items db))).
Proof.
  unfold grows_by_one, db_max_id. simpl. pose proof (max_rowid_delete item_id p (db_items db)). lia.
Qed.

Lemma grows_clear_items db : grows_by_one db (with_items db []).
Proof.
  unfold grows_by_one, db_max_id. simpl.
  pose proof (max_rowid_nonneg item_id (db_items db)). pose proof (max_rowid_nonneg category_id (db_categories db)). lia.
Qed.

Lemma grows_clear_catalog db : grows_by_one db (mkDb (db_users db) [] []).
Proof.
  unfold grows_by_one, db_max_id. simpl.
  pose proof (max_rowid_nonneg item_id (db_items db)). pose proof (max_rowid_nonneg category_id (db_categories db)). lia.
Qed.

Lemma grows_update_item db i f :
  (forall r, item_id r = i -> item_id (f r) = item_id r) ->
  grows_by_one db (with_items db (tbl_update item_id i f (db_items db))).
Proof.
  intros Hf. unfold grows_by_one, db_max_id. simpl. rewrite max_rowid_update by done. lia.
Qed.

Create HintDb bounds discriminated.
#[export] Hint Resolve grows_refl grows_insert_user grows_insert_category grows_insert_item
  grows_delete grows_delete_items grows_clear_items grows_clear_catalog : bounds.
#[export] Hint Extern 1 (_ = _) => reflexivity : bounds.

(** ** Every view inserts at most one row *)

Definition bounded (v : Handler Response) : Prop :=
  forall db ss, db_consistent db -> let '(db', _, _) := run_view v db ss in grows_by_one db db'.

Section Views.
Context `{PasswordContext} `{TimedSerializer} `{OAuthVerifier}.
Context (secret_key CLIENT_ID : string).

Lemma new_user_bounded r : bounded (new_user r).
Proof.
  intros db ss Hwf. unfold new_user. vsimp.
  repeat case_if; vsimp; try case_commit; eauto with bounds.
Qed.

Lemma login_required_bounded r v : bounded v -> bounded (login_required secret_key r v).
Proof.
  intros Hv db ss Hwf. unfold login_required. pose proof (verify_password_state secret_key r db ss) as Hvp.
  unfold run_view, em_run, em_bind in *.
  destruct (verify_password secret_key r (mkHState db ss)) as [[db1 ss1] e].
  simpl in Hvp. destruct Hvp as [-> _].
  destruct e as [[|]|resp]; [apply (Hv _ _ Hwf)| |]; vsimp; eauto with bounds.
Qed.

Lemma get_auth_token_bounded r : bounded (get_auth_token secret_key r).
Proof. intros db ss Hwf. unfold get_auth_token. vsimp. repeat case_if; vsimp; eauto with bounds. Qed.

Lemma gdisconnect_bounded r : bounded (gdisconnect r).
Proof. intros db ss Hwf. unfold gdisconnect. vsimp. repeat case_if; vsimp; eauto with bounds. Qed.

Lemma gconnect_bounded r : bounded (gconnect CLIENT_ID r).
Proof.
  intros db ss Hwf. unfold gconnect, getUserID, createUser. vsimp.
  repeat case_if; vsimp; try case_commit; repeat case_if; vsimp; eauto with bounds.
  match goal with |- context [List.filter ?p ?l] =>
    destruct (List.filter p l) as [|v [|v' l']] end; vsimp; eauto with bounds.
Qed.

End Views.

Lemma not_connected_bounded : bounded not_connected.
Proof. intros db ss Hwf. unfold not_connected. vsimp. eauto with bounds. Qed.

Lemma showHome_bounded r : bounded (showHome r).
Proof. intros db ss Hwf. unfold showHome. vsimp. eauto with bounds. Qed.

Lemma showCategory_bounded cid : bounded (showCategory cid).
Proof. intros db ss Hwf. unfold showCategory. vsimp. repeat case_if; vsimp; eauto with bounds. Qed.

Lemma showItem_bounded iid : bounded (showItem iid).
Proof. intros db ss Hwf. unfold showItem. vsimp. repeat case_if; vsimp; eauto with bounds. Qed.

Lemma newCategory_bounded r : bounded (newCategory r).
Proof.
  intros db ss Hwf. unfold newCategory, not_connected. destruct (req_method r); vsimp.
  all: repeat case_if; vsimp; try case_commit; eauto with bounds.
Qed.

Lemma newItem_bounded r : bounded (newItem r).
Proof.
  intros db ss Hwf. unfold newItem, not_connected. destruct (req_method r); vsimp.
  all: repeat case_if; vsimp; try case_commit; eauto with bounds.
Qed.

Lemma deleteItem_bounded r iid : bounded (deleteItem r iid).
Proof.
  intros db ss Hwf. unfold deleteItem, not_connected. destruct (req_method r); vsimp.
  all: repeat case_if; vsimp; try case_commit; eauto with bounds.
Qed.

Lemma editItem_bounded r iid : bounded (editItem r iid).
Proof.
  intros db ss Hwf. unfold editItem, not_connected. destruct (req_method r); vsimp.
  all: repeat case_if; vsimp; try case_commit; eauto with bounds.
  apply tbl_get_Some in E0 as [Hin Hid].
  pose proof (edit_item_fields_state db (req_now r) s s0 s1 i (mkHState db ss)) as Hst.
  pose proof (edit_item_fields_ok db (req_now r) s s0 s1 i (mkHState db ss)) as Hok.
  destruct (edit_item_fields _ _ _ _ _ _ _) as [s' [it|resp]]; simpl in Hst, Hok; subst s'.
  - destruct (Hok it Hwf Hin eq_refl) as [Hid' _].
    case_commit; eauto with bounds. apply grows_update_item. congruence.
  - eauto with bounds.
Qed.

Lemma apiAllCategories_bounded r : bounded (apiAllCategories r).
Proof.
  intros db ss Hwf. unfold apiAllCategories. destruct (req_method r); vsimp.
  all: repeat case_if; vsimp; try case_commit; eauto with bounds.
Qed.

Lemma apiManageCategory_bounded r cid : bounded (apiManageCategory r cid).
Proof.
  intros db ss Hwf. unfold apiManageCategory. destruct (req_method r); vsimp.
  all: repeat case_if; vsimp; try case_commit; eauto with bounds.
Qed.

Lemma apiAllItems_bounded r : bounded (apiAllItems r).
Proof.
  intros db ss Hwf. unfold apiAllItems. destruct (req_method r); vsimp.
  all: repeat case_if; vsimp; try case_commit; eauto with bounds.
Qed.

Lemma apiManageItem_bounded r iid : bounded (apiManageItem r iid).
Proof.
  intros db ss Hwf. unfold apiManageItem. destruct (req_method r); vsimp.
  all: repeat case_if; vsimp; try case_commit; eauto with bounds.
  apply tbl_get_Some in E as [Hin Hid].
  pose proof (put_item_fields_state db (req_now r) (g !! "name") (g !! "description")
                (g !! "category") i (mkHState db ss)) as Hst.
  pose proof (put_item_fields_ok db (req_now r) (g !! "name") (g !! "description")
                (g !! "category") i (mkHState db ss)) as Hok.
  destruct (put_item_fields _ _ _ _ _ _ _) as [s' [it|resp]]; simpl in Hst, Hok; subst s'.
  - destruct (Hok it Hwf Hin eq_refl) as [Hid' _].
    case_commit; eauto with bounds. apply grows_update_item. congruence.
  - eauto with bounds.
Qed.

(** ** The server *)

Section Server.
Context `{PasswordContext} `{TimedSerializer} `{OAuthVerifier}.
Context (cfg : Config).

Lemma view_bounded rt r : bounded (view cfg rt r).
Proof.
  destruct rt; simpl; auto using new_user_bounded, login_required_bounded, get_auth_token_bounded,
    gconnect_bounded, gdisconnect_bounded, showHome_bounded, newItem_bounded, newCategory_bounded,
    showCategory_bounded, showItem_bounded, editItem_bounded, deleteItem_bounded,
    apiAllCategories_bounded, apiManageCategory_bounded, apiAllItems_bounded, apiManageItem_bounded.
Qed.

Lemma dispatch_bounded rt r : bounded (dispatch cfg rt r).
Proof.
  destruct (dispatch_cases cfg rt r) as [->|[-> | ->]]; [apply view_bounded| |];
    intros db ss _; vsimp; apply grows_refl.
Qed.

Lemma serve_grows w c rt r :
  world_wf w -> grows_by_one (w_db w) (w_db (serve cfg w c rt r).1).
Proof.
  intros [Hwf _]. pose proof (dispatch_bounded rt r (w_db w) (session_of w c) (db_wf_consistent _ Hwf)) as Hb.
  unfold serve. destruct (run_view _ _ _) as [[db' ss'] resp]. done.
Qed.

Lemma run_trace_grows w reqs :
  world_wf w -> db_max_id (w_db (run_trace cfg w reqs).1) <= db_max_id (w_db w) + Z.of_nat (length reqs).
Proof.
  revert w. induction reqs as [|[[c rt] r] rest IH]; intros w Hw; simpl; [lia|].
  pose proof (serve_grows w c rt r Hw) as Hg. pose proof (serve_keeps_world_wf cfg w c rt r Hw) as Hw1.
  destruct (serve cfg w c rt r) as [w1 resp]. specialize (IH w1 Hw1). simpl in Hg.
  destruct (run_trace cfg w1 rest). unfold grows_by_one in Hg. simpl in *. lia.
Qed.

(** C18: Bounds on the rowids.  After any run of [n] requests from the
    empty database, every rowid of every table is at most [n]; so while
    fewer than [2^63 - 1] requests have been served, the rowid SQLite gives
    the next row of each table, the largest plus one, is within its
    signed 64-bit range. *)
Theorem rowids_within_sqlite_range reqs :
  let db := w_db (run_trace cfg init_world reqs).1 in
  db_max_id db <= Z.of_nat (length reqs) /\
  (Z.of_nat (length reqs) < 2^63 - 1 ->
   next_rowid user_id (db_users db) <= 2^63 - 1 /\
   next_rowid category_id (db_categories db) <= 2^63 - 1 /\
   next_rowid item_id (db_items db) <= 2^63 - 1).
Proof.
  pose proof (run_trace_grows init_world reqs init_world_wf) as Hg.
  cbv zeta. replace (db_max_id (w_db init_world)) with 0 in Hg by reflexivity.
  split; [lia|]. intros Hn. unfold db_max_id, next_rowid in *. lia.
Qed.

End Server.

(** The capture run of [App]: six requests, so every next rowid is small. *)
Lemma rowids_within_sqlite_range_witness :
  next_rowid item_id (db_items (w_db (run_trace demo_cfg init_world capture_script).1)) <= 2^63 - 1.
Proof.
  destruct (rowids_within_sqlite_range demo_cfg capture_script) as [_ H]. apply H. simpl. lia.
Defined.
