(* ===== verification/Flows.v ===== *)
(** * Flows of several requests: Google sign-in completes

    A browser signs in with Google in two requests: it loads the home page,
    which stores a fresh anti-forgery state in its session, and then posts
    the identity token Google gave it to [/gconnect] with that state.  This
    file shows that the flow always ends with the browser logged in as a
    user of the database, from any well-formed server, unless the token's
    Google id already belongs to a user under another e-mail address (the
    IntegrityError of [Auth.gconnect_changed_email]). *)

From S2P Require Import Prelude Crypto Schema Http Auth Api Pages App.
From stdpp Require Import gmap.
Local Open Scope Z_scope.
Local Open Scope catalog_scope.

Lemma integrity_insert_user_fresh db mk g :
  integrity_ok db = true ->
  user_google_id (mk (next_rowid user_id (db_users db))) = Some g ->
  g ∉ omap user_google_id (db_users db) ->
  integrity_ok (with_users db (tbl_insert user_id mk (db_users db))) = true.
Proof.
  rewrite !integrity_ok_spec. intros (H1 & H2 & H3) Hg Hfresh. simpl.
  split; [done|]. split; [done|].
  unfold tbl_insert. rewrite omap_app. simpl. rewrite Hg. simpl.
  apply NoDup_app. split; [done|]. split; [|apply NoDup_singleton].
  intros x Hx ->%list_elem_of_singleton. done.
Qed.

Lemma filter_find_None {A} (p : A -> bool) l :
  List.find p l = None -> List.filter p l = [].
Proof.
  induction l as [|a l IH]; simpl; [done|]. destruct (p a); [discriminate|done].
Qed.

Section Flows.
Context `{PasswordContext} `{TimedSerializer} `{OAuthVerifier}.

(** [gconnect] with the session's state and a valid token logs the
    session in as a user of the database it leaves, when the e-mail is a
    user's or the Google id is new. *)
Lemma gconnect_logs_in CLIENT_ID r db ss st info :
  db_wf db -> ls_state ss = Some st -> req_arg_state r = Some st ->
  verify_oauth2_token (req_data r) CLIENT_ID = Some info ->
  idi_iss info ∈ google_issuers ->
  (idi_email info ∈ map user_email (db_users db) \/
   idi_sub info ∉ omap user_google_id (db_users db)) ->
  let '(db', ss', resp) := run_view (gconnect CLIENT_ID r) db ss in
  resp = Redirect "showHome" [] /\
  exists u, ls_userId ss' = Some u /\ has_id user_id u (db_users db') = true.
Proof.
  intros Hwf Hs Ha Hv Hi Hcase. unfold gconnect, getUserID, createUser. vsimp.
  rewrite Hs, Ha, bool_decide_true by done. simpl. rewrite Hv, bool_decide_true by done. simpl.
  destruct (tbl_first (fun v => String.eqb (user_email v) (idi_email info)) (db_users db))
    as [v|] eqn:Ef; simpl.
  - split; [done|]. eexists. split; [done|]. by apply (first_has_id user_id) in Ef.
  - assert (Hnone : idi_email info ∉ map user_email (db_users db))
      by (apply find_eqb_None; exact Ef).
    destruct Hcase as [Hin|Hfresh]; [done|].
    rewrite commit_ok by (apply (integrity_insert_user_fresh _ _ (idi_sub info)); auto; apply (wf_integrity _ Hwf)).
    vsimp. unfold tbl_insert. rewrite List.filter_app, filter_find_None by exact Ef. simpl.
    rewrite String.eqb_refl. vsimp. split; [done|]. eexists. split; [done|].
    apply has_id_spec. eexists. split; [apply in_or_app; right; left; reflexivity|reflexivity].
Qed.

Lemma session_of_served (m : gmap nat Session) c ss db :
  session_of (mkWorld db (<[c := ss]> m)) c = ss.
Proof. unfold session_of. simpl. by rewrite lookup_insert_eq. Qed.

(** C19: Google sign-in completes.  From any well-formed server, a client
    that loads the home page and then posts to [/gconnect] a valid Google
    identity token with the state the page gave it is redirected home,
    logged in as a user of the database, whenever the token's e-mail is a
    user's or its Google id is not yet taken. *)
Theorem google_signin_completes cfg w c r1 r2 info :
  world_wf w -> req_method r1 = GET -> req_method r2 = POST ->
  req_arg_state r2 = Some (random_token (req_draws r1)) ->
  verify_oauth2_token (req_data r2) (cfg_client_id cfg) = Some info ->
  idi_iss info ∈ google_issuers ->
  (idi_email info ∈ map user_email (db_users (w_db w)) \/
   idi_sub info ∉ omap user_google_id (db_users (w_db w))) ->
  let '(w2, resps) := run_trace cfg w [(c, R_home, r1); (c, R_gconnect, r2)] in
  resps !! 1%nat = Some (Redirect "showHome" []) /\
  exists u, ls_userId (session_of w2 c) = Some u /\ has_id user_id u (db_users (w_db w2)) = true.
Proof.
  intros [Hwf _] Hm1 Hm2 Ha Hv Hi Hcase. simpl. unfold serve at 1, dispatch at 1.
  rewrite Hm1, bool_decide_true by apply list_elem_of_here. simpl. unfold showHome. vsimp.
  unfold serve, dispatch. rewrite Hm2, bool_decide_true by apply list_elem_of_here. simpl.
  rewrite session_of_served.
  pose proof (gconnect_logs_in (cfg_client_id cfg) r2 (w_db w)
                (set_state (Some (random_token (req_draws r1))) (session_of w c)) (random_token (req_draws r1)) info
                Hwf eq_refl Ha Hv Hi Hcase) as Hg.
  destruct (run_view _ _ _) as [[db' ss'] resp]. destruct Hg as [-> Hu].
  simpl. rewrite session_of_served. done.
Qed.

End Flows.

(** A new visitor of the demo database signs in with an unknown Google
    account, which creates user 4. *)
Definition dora_google : IdInfo :=
  mkIdInfo "accounts.google.com" "g-4" "dora@example.com" "Dora" "d.png".

Lemma google_signin_completes_witness :
  world_wf (mkWorld demo_db ∅) /\
  let '(w2, resps) := run_trace demo_cfg (mkWorld demo_db ∅)
        [(5%nat, R_home, mkRequest GET [] None None None "" 100 "" (fun _ => 0%nat));
         (5%nat, R_gconnect, mkRequest POST [] None None (Some demo_state)
                               (demo_google_token demo_client dora_google) 101 "" (fun _ => 0%nat))] in
  resps !! 1%nat = Some (Redirect "showHome" []) /\
  exists u, ls_userId (session_of w2 5) = Some u /\ has_id user_id u (db_users (w_db w2)) = true.
Proof.
  assert (Hw : world_wf (mkWorld demo_db ∅)).
  { split; [apply db_wfb_sound; vm_compute; reflexivity|]. intros c ss. simpl. by rewrite lookup_empty. }
  split; [exact Hw|].
  exact (google_signin_completes demo_cfg _ 5 (mkRequest GET [] None None None "" 100 "" (fun _ => 0%nat))
           (mkRequest POST [] None None (Some demo_state) (demo_google_token demo_client dora_google) 101 "" (fun _ => 0%nat))
           dora_google Hw eq_refl eq_refl eq_refl eq_refl
           ltac:(by_decide) ltac:(right; by_decide)).
Defined.
