(* ===== verification/Answers.v ===== *)
(** * The answers the views give

    Every response of the router and the views, on every route, method,
    database and session, has one of the statuses 200, 302, 400, 401, 404,
    405 and 500: the pages' [redirect] (302), the [abort] codes of the
    views, the router's 405, and 500 for an uncaught exception.  In
    particular no answer is a 201: the one view written to create with 201
    ([new_user]) answers 200.  And every redirect names one of the pages
    [showHome], [showItem], [showCategory], with values [url_for] builds a
    URL from.  [Browser] adds the router's answers for URLs. *)

From S2P Require Import Prelude Crypto Schema Http Auth Api Pages App Url.
From stdpp Require Import gmap.
Local Open Scope Z_scope.
Local Open Scope catalog_scope.

(** The statuses the code uses. *)
Definition status_codes : list Z := [200; 302; 400; 401; 404; 405; 500].

Definition status_ok (resp : Response) : bool := bool_decide (status resp ∈ status_codes).

(** A redirect leads to a page, by a URL [url_for] can build. *)
Definition redirect_ok (resp : Response) : bool :=
  match resp with
  | Redirect ep args =>
      bool_decide (ep ∈ page_endpoints) && match url_for ep args with Some _ => true | None => false end
  | _ => true
  end.

Definition resp_ok (resp : Response) : bool := status_ok resp && redirect_ok resp.
Arguments resp_ok : simpl never.

(** A view answers with such a response, whatever it is given. *)
Definition answers_ok (v : Handler Response) : Prop :=
  forall db ss, let '(_, _, resp) := run_view v db ss in resp_ok resp = true.

(** A handler that stops only with such an answer. *)
Definition halts_ok {A} (m : Handler A) : Prop :=
  forall s, match snd (m s) with Halt resp => resp_ok resp = true | Ret _ => True end.

Lemma halts_ok_spec {A} (m : Handler A) s s' resp :
  halts_ok m -> m s = (s', Halt resp) -> resp_ok resp = true.
Proof. intros Hm E. specialize (Hm s). by rewrite E in Hm. Qed.

Create HintDb answers discriminated.

(** [answers_tac] splits a view on every condition and closes each answer
    by computing its status, or by the [halts_ok] lemma of the helper that
    gave it. *)
Ltac answers_tac :=
  unfold commit; repeat (vsimp; first [case_if | case_match | progress simpl]);
  simplify_eq/=; try reflexivity;
  try match goal with H : _ = (_, Halt _) |- _ => eapply halts_ok_spec; [|exact H]; eauto with answers end.

Lemma edit_item_fields_halts db now n d c it : halts_ok (edit_item_fields db now n d c it).
Proof. intros s. unfold edit_item_fields. answers_tac. Qed.

Lemma put_item_fields_halts db now n d c it : halts_ok (put_item_fields db now n d c it).
Proof. intros s. unfold put_item_fields. answers_tac. Qed.

#[export] Hint Resolve edit_item_fields_halts put_item_fields_halts : answers.

Section Views.
Context `{PasswordContext} `{TimedSerializer} `{OAuthVerifier}.
Context (secret_key CLIENT_ID : string).

Lemma new_user_answers r : answers_ok (new_user r).
Proof. intros db ss. unfold new_user. answers_tac. Qed.

Lemma verify_password_halts r : halts_ok (verify_password secret_key r).
Proof. intros s. unfold verify_password. answers_tac. Qed.

Lemma login_required_answers r v : answers_ok v -> answers_ok (login_required secret_key r v).
Proof.
  intros Hv db ss. unfold login_required.
  pose proof (verify_password_state secret_key r db ss) as Hvp.
  pose proof (verify_password_halts r (mkHState db ss)) as Hh.
  unfold run_view, em_run, em_bind in *.
  destruct (verify_password secret_key r (mkHState db ss)) as [[db1 ss1] e].
  simpl in Hvp, Hh. destruct Hvp as [-> _].
  destruct e as [[|]|resp]; [apply (Hv db ss1)|reflexivity|exact Hh].
Qed.

Lemma get_auth_token_answers r : answers_ok (get_auth_token secret_key r).
Proof. intros db ss. unfold get_auth_token. answers_tac. Qed.

Lemma gconnect_answers r : answers_ok (gconnect CLIENT_ID r).
Proof. intros db ss. unfold gconnect, getUserID, createUser. answers_tac. Qed.

Lemma gdisconnect_answers r : answers_ok (gdisconnect r).
Proof. intros db ss. unfold gdisconnect. answers_tac. Qed.

End Views.

Lemma showHome_answers r : answers_ok (showHome r).
Proof. intros db ss. unfold showHome. answers_tac. Qed.

Lemma showCategory_answers cid : answers_ok (showCategory cid).
Proof. intros db ss. unfold showCategory. answers_tac. Qed.

Lemma showItem_answers iid : answers_ok (showItem iid).
Proof. intros db ss. unfold showItem. answers_tac. Qed.

Lemma newItem_answers r : answers_ok (newItem r).
Proof. intros db ss. unfold newItem, not_connected. answers_tac. Qed.

Lemma newCategory_answers r : answers_ok (newCategory r).
Proof. intros db ss. unfold newCategory, not_connected. answers_tac. Qed.

Lemma editItem_answers r iid : answers_ok (editItem r iid).
Proof. intros db ss. unfold editItem, not_connected. answers_tac. Qed.

Lemma deleteItem_answers r iid : answers_ok (deleteItem r iid).
Proof. intros db ss. unfold deleteItem, not_connected. answers_tac. Qed.

Lemma apiAllCategories_answers r : answers_ok (apiAllCategories r).
Proof. intros db ss. unfold apiAllCategories. answers_tac. Qed.

Lemma apiManageCategory_answers r cid : answers_ok (apiManageCategory r cid).
Proof. intros db ss. unfold apiManageCategory. answers_tac. Qed.

Lemma apiAllItems_answers r : answers_ok (apiAllItems r).
Proof. intros db ss. unfold apiAllItems. answers_tac. Qed.

Lemma apiManageItem_answers r iid : answers_ok (apiManageItem r iid).
Proof. intros db ss. unfold apiManageItem. answers_tac. Qed.

Section Server.
Context `{PasswordContext} `{TimedSerializer} `{OAuthVerifier}.
Context (cfg : Config).

Lemma view_answers rt r : answers_ok (view cfg rt r).
Proof.
  destruct rt; simpl; auto using new_user_answers, login_required_answers, get_auth_token_answers,
    gconnect_answers, gdisconnect_answers, showHome_answers, newItem_answers, newCategory_answers,
    showCategory_answers, showItem_answers, editItem_answers, deleteItem_answers,
    apiAllCategories_answers, apiManageCategory_answers, apiAllItems_answers, apiManageItem_answers.
Qed.

(** Every answer of the router and the view satisfies [resp_ok]. *)
Lemma dispatch_resp_ok rt r db ss : resp_ok (run_view (dispatch cfg rt r) db ss).2 = true.
Proof.
  destruct (dispatch_cases cfg rt r) as [->|[-> | ->]].
  - pose proof (view_answers rt r db ss) as Hv. by destruct (run_view _ _ _) as [[db' ss'] resp].
  - vsimp. reflexivity.
  - vsimp. reflexivity.
Qed.

Lemma serve_resp_ok w c rt r : resp_ok (serve cfg w c rt r).2 = true.
Proof.
  pose proof (dispatch_resp_ok rt r (w_db w) (session_of w c)) as Hv.
  unfold serve. by destruct (run_view _ _ _) as [[db' ss'] resp].
Qed.

End Server.
