(* ===== verification/Browser.v ===== *)
(** * The browser: URLs, redirects, and the page a visit ends on

    A browser asks for a URL, not a route.  The router ([Url.resolve])
    turns the URL into a view, a redirect (a rule's missing trailing
    slash) or a 404.  Werkzeug 1.x, the version this code runs with (it
    imports itsdangerous' [TimedJSONWebSignatureSerializer]), sends that
    redirect as a 301 when the rule answers the method, and Flask's debug
    mode turns it into an uncaught [FormDataRoutingRedirect] for a method
    that carries a form ([slash_redirect]).  The view's
    [redirect(url_for(...))] goes on the wire as a 302 with the
    [Location] that [Url.url_for] builds, and the browser asks for that
    location in turn: after a 301 or 302 with a GET and no body, after a
    307 or 308 with the same request.

    [fetch] is one request, [browse] follows redirects with a fuel bound,
    [visit] asks for a URL and follows; all three take the server as a
    parameter, and [visit_sim] carries a simulation of two servers over a
    whole visit.  The theorems: every answer on the wire of the cookie
    server has one of eight statuses; and termination: from any world,
    any client and any URL, a visit of [App.serve] ends on a page after at
    most two redirects (a strict-slash 301, then the view's 302), so a
    fuel of 2 is enough and more fuel gives the same result. *)

From S2P Require Import Prelude Crypto Schema Http Auth Api Pages App Url Cookie Answers.
From stdpp Require Import gmap.
Local Open Scope Z_scope.
Local Open Scope catalog_scope.

(** What the server sends: a response, or a redirect and its [Location]. *)
Inductive Wire := WPage (resp : Response) | WMoved (code : Z) (location : string).

(** Flask's [redirect(url_for(endpoint, ...))]: a 302 to the URL
    [url_for] builds; a [BuildError] is an uncaught exception. *)
Definition finalize (resp : Response) : Wire :=
  match resp with
  | Redirect ep args =>
      match url_for ep args with
      | Some loc => WMoved 302 loc
      | None => WPage (ServerError "BuildError")
      end
  | _ => WPage resp
  end.

(** The request for a URL: its query string is [request.args]. *)
Definition with_query_args (q : string) (r : Request) : Request :=
  mkRequest (req_method r) (req_form r) (req_json r) (req_auth r) (query_arg "state" q)
            (req_data r) (req_now r) (req_rand r) (req_draws r).

(** The request a browser sends after a redirect: 307 and 308 repeat the
    method and the body, the other codes (301, 302) become a GET without
    a body. *)
Definition redirected (code : Z) (r : Request) : Request :=
  if (code =? 307) || (code =? 308) then r
  else mkRequest GET [] None (req_auth r) None "" (req_now r) (req_rand r) (req_draws r).

Definition is_redirect (resp : Response) : bool :=
  match resp with Redirect _ _ => true | _ => false end.

(** ** A browser in front of any server

    [srv w c rt r] is the server's answer to client [c]'s request [r] for
    the view of [rt], and its next state: [App.serve] keeps the sessions
    on the server, [Cookie.cserve] in the clients' cookies. *)
Section Browser.
Context {W : Type} (srv : W -> nat -> Route -> Request -> W * Response).

(** What the router answers for a path that lacks only the trailing
    slash of the rule of [rt] (the rule the path with the slash matches,
    [Url.resolve_moved]).  Werkzeug 1.x raises [RequestRedirect], a 301 to
    the path with the slash, when the rule answers the method, and
    otherwise matches the rule, so that the method gets a 405; under
    [app.debug] Flask's [raise_routing_exception] replaces the redirect of
    a method other than GET, HEAD and OPTIONS by [FormDataRoutingRedirect],
    an uncaught exception (a browser would drop the form). *)
Definition slash_redirect (rt : Route) (loc : string) (m : Method) : Wire :=
  if bool_decide (m ∈ rule_methods rt) then
    if bool_decide (m ∈ [GET; HEAD; OPTIONS]) then WMoved 301 loc
    else WPage (ServerError "FormDataRoutingRedirect")
  else WPage (Text 405 "Method Not Allowed").

(** Client [c] sends [r] for [url]. *)
Definition fetch (w : W) (c : nat) (url : string) (r : Request) : W * Wire :=
  match resolve url with
  | To_view rt =>
      let '(w', resp) := srv w c rt (with_query_args (split_query url).2 r) in (w', finalize resp)
  | Moved loc =>
      match resolve loc with
      | To_view rt => (w, slash_redirect rt loc (req_method r))
      | _ => (w, WPage (Abort 404 "Not Found"))
      end
  | Missing => (w, WPage (Abort 404 "Not Found"))
  end.

(** The browser follows at most [fuel] redirects. *)
Fixpoint browse (fuel : nat) (w : W) (c : nat) (r : Request) (ans : Wire) : W * Wire :=
  match fuel, ans with
  | S f, WMoved code loc =>
      let r' := redirected code r in
      let '(w', ans') := fetch w c loc r' in
      browse f w' c r' ans'
  | _, _ => (w, ans)
  end.

Definition visit (fuel : nat) (w : W) (c : nat) (url : string) (r : Request) : W * Wire :=
  let '(w', ans) := fetch w c url r in browse fuel w' c r ans.

Lemma browse_page fuel w c r p : browse fuel w c r (WPage p) = (w, WPage p).
Proof. by destruct fuel. Qed.

End Browser.

(** ** Browsing two related servers

    Two servers related by [R] at every request satisfying [P] (the same
    answer, related next states) give a browser the same answers; [P] is
    kept by the requests the browser derives from a request. *)
Section Simulation.
Context {W1 W2 : Type} (srv1 : W1 -> nat -> Route -> Request -> W1 * Response)
        (srv2 : W2 -> nat -> Route -> Request -> W2 * Response).
Context (R : W1 -> W2 -> Prop) (P : Request -> Prop).
Hypothesis step_sim : forall w1 w2 c rt r, R w1 w2 -> P r ->
  (srv1 w1 c rt r).2 = (srv2 w2 c rt r).2 /\ R (srv1 w1 c rt r).1 (srv2 w2 c rt r).1.
Hypothesis P_query : forall q r, P r -> P (with_query_args q r).
Hypothesis P_redirected : forall code r, P r -> P (redirected code r).

Lemma fetch_sim w1 w2 c url r :
  R w1 w2 -> P r ->
  (fetch srv1 w1 c url r).2 = (fetch srv2 w2 c url r).2 /\ R (fetch srv1 w1 c url r).1 (fetch srv2 w2 c url r).1.
Proof.
  intros HR HP. unfold fetch. destruct (resolve url) as [rt|loc|]; [|destruct (resolve loc)|];
    try (split; [done|exact HR]).
  destruct (step_sim w1 w2 c rt _ HR (P_query (split_query url).2 r HP)) as [He HR'].
  destruct (srv1 _ _ _ _) as [w1' a1], (srv2 _ _ _ _) as [w2' a2]. simpl in *. by subst.
Qed.

Lemma browse_sim fuel w1 w2 c r a :
  R w1 w2 -> P r ->
  (browse srv1 fuel w1 c r a).2 = (browse srv2 fuel w2 c r a).2 /\
  R (browse srv1 fuel w1 c r a).1 (browse srv2 fuel w2 c r a).1.
Proof.
  revert w1 w2 r a. induction fuel as [|f IH]; intros w1 w2 r [p|code loc] HR HP; cbn [browse];
    try (split; [done|exact HR]).
  destruct (fetch_sim w1 w2 c loc (redirected code r) HR (P_redirected _ _ HP)) as [He HR'].
  destruct (fetch srv1 _ _ _ _) as [w1' a1], (fetch srv2 _ _ _ _) as [w2' a2]. simpl in *. subst.
  apply IH; auto.
Qed.

Lemma visit_sim fuel w1 w2 c url r :
  R w1 w2 -> P r ->
  (visit srv1 fuel w1 c url r).2 = (visit srv2 fuel w2 c url r).2 /\
  R (visit srv1 fuel w1 c url r).1 (visit srv2 fuel w2 c url r).1.
Proof.
  intros HR HP. unfold visit. destruct (fetch_sim w1 w2 c url r HR HP) as [He HR'].
  destruct (fetch srv1 _ _ _ _) as [w1' a1], (fetch srv2 _ _ _ _) as [w2' a2]. simpl in *. subst.
  by apply browse_sim.
Qed.

End Simulation.

(** ** The browser in front of [App.serve] *)
Section BrowserServe.
Context `{PasswordContext} `{TimedSerializer} `{OAuthVerifier}.
Context (cfg : Config).

(** The pages never redirect. *)
Lemma page_serve_no_redirect w c rt r : page_route rt = true -> is_redirect (serve cfg w c rt r).2 = false.
Proof.
  intros Hp. unfold serve. destruct (dispatch_cases cfg rt r) as [->|[-> | ->]]; [|vsimp; reflexivity..].
  assert (Hv : forall db ss, is_redirect (run_view (view cfg rt r) db ss).2 = false).
  { intros db ss. destruct rt; try discriminate Hp; simpl;
      [unfold showHome|unfold showCategory|unfold showItem]; vsimp; repeat case_if; vsimp; reflexivity. }
  specialize (Hv (w_db w) (session_of w c)). by destruct (run_view _ _ _) as [[db' ss'] resp].
Qed.

Lemma fetch_page_route w c url r rt :
  resolve url = To_view rt -> page_route rt = true -> exists w' p, fetch (serve cfg) w c url r = (w', WPage p).
Proof.
  intros Hr Hp. unfold fetch. rewrite Hr.
  pose proof (page_serve_no_redirect w c rt (with_query_args (split_query url).2 r) Hp) as Hn.
  destruct (serve _ _ _ _ _) as [w' resp]. simpl in Hn. destruct resp; try discriminate; eauto.
Qed.

Lemma fetch_page_url w c ep args loc r :
  ep ∈ page_endpoints -> url_for ep args = Some loc -> exists w' p, fetch (serve cfg) w c loc r = (w', WPage p).
Proof.
  intros Hep Hu. pose proof (resolve_page_url ep args loc Hep Hu) as Hr.
  destruct (resolve loc) as [rt| |] eqn:E; try discriminate.
  - by eapply fetch_page_route.
  - unfold fetch. rewrite E. eauto.
Qed.

(** Following the answer of any request ends on a page after at most one
    redirect. *)
Lemma follow_served w c rt r :
  let '(w1, resp) := serve cfg w c rt r in
  forall r0, exists w2 p, forall fuel, (1 <= fuel)%nat -> browse (serve cfg) fuel w1 c r0 (finalize resp) = (w2, WPage p).
Proof.
  pose proof (serve_resp_ok cfg w c rt r) as Hok.
  destruct (serve cfg w c rt r) as [w1 resp]. simpl in Hok. intros r0.
  destruct resp as [t|ep args|code msg|code body|code v|exn];
    try (do 2 eexists; intros fuel _; apply browse_page).
  unfold resp_ok in Hok. apply andb_prop in Hok as [_ Hok]. simpl in Hok.
  apply andb_prop in Hok as [Hep%bool_decide_eq_true Hu].
  destruct (url_for ep args) as [loc|] eqn:Eu; [|discriminate].
  destruct (fetch_page_url w1 c ep args loc (redirected 302 r0) Hep Eu) as (w2 & p & Hf).
  exists w2, p. intros [|fuel] Hfuel; [lia|]. unfold finalize. rewrite Eu. cbn [browse].
  rewrite Hf. apply browse_page.
Qed.

(** A request for a URL answered by a view ends on a page after at most
    one more redirect. *)
Lemma fetch_view_follow w c url r rt r0 :
  resolve url = To_view rt ->
  exists w2 p, forall fuel, (1 <= fuel)%nat ->
    (let '(w1, ans) := fetch (serve cfg) w c url r in browse (serve cfg) fuel w1 c r0 ans) = (w2, WPage p).
Proof.
  intros Hr. unfold fetch. rewrite Hr.
  pose proof (follow_served w c rt (with_query_args (split_query url).2 r)) as Hf.
  destruct (serve _ _ _ _ _) as [w1 resp]. apply (Hf r0).
Qed.

(** C21: Termination of a visit.  From any world, any client and any URL,
    a browser that follows the server's redirects ends on a page after at
    most two of them (the router's 301 for a missing trailing slash, then
    the view's 302 to a page): with a fuel of 2 or more the visit gives
    the same world and the same page. *)
Theorem visit_ends_on_page w c url r :
  exists w2 p, forall fuel, (2 <= fuel)%nat -> visit (serve cfg) fuel w c url r = (w2, WPage p).
Proof.
  unfold visit. destruct (resolve url) as [rt|loc|] eqn:E.
  - destruct (fetch_view_follow w c url r rt r E) as (w2 & p & Hf).
    exists w2, p. intros fuel Hfuel. apply Hf. lia.
  - unfold fetch at 1. rewrite E.
    pose proof (resolve_moved url loc E) as Hl.
    destruct (resolve loc) as [rt'| |] eqn:E'; [|discriminate|].
    + unfold slash_redirect. case_bool_decide; [case_bool_decide|].
      * destruct (fetch_view_follow w c loc (redirected 301 r) rt' (redirected 301 r) E') as (w2 & p & Hf).
        exists w2, p. intros [|fuel] Hfuel; [lia|]. cbn [browse]. apply Hf. lia.
      * exists w, (ServerError "FormDataRoutingRedirect"). intros fuel _. apply browse_page.
      * exists w, (Text 405 "Method Not Allowed"). intros fuel _. apply browse_page.
    + exists w, (Abort 404 "Not Found"). intros fuel _. apply browse_page.
  - exists w, (Abort 404 "Not Found"). intros fuel _. unfold fetch. rewrite E. apply browse_page.
Qed.

End BrowserServe.

(** ** What goes on the wire *)

Definition wire_status (a : Wire) : Z := match a with WPage resp => status resp | WMoved code _ => code end.

(** The statuses of the router, the views and the redirects. *)
Definition wire_codes : list Z := [200; 301; 302; 400; 401; 404; 405; 500].

(** [wire_code] proves that a status is one of [wire_codes]. *)
Local Ltac wire_code := unfold wire_codes; rewrite list_elem_of_In; simpl; solve [intuition].

Lemma status_codes_wire z : z ∈ status_codes -> z ∈ wire_codes.
Proof. unfold status_codes. rewrite list_elem_of_In. simpl. intuition; subst; wire_code. Qed.

(** A view's answer on the wire: its status, or the 302 of its redirect. *)
Lemma finalize_ok resp : resp_ok resp = true -> wire_status (finalize resp) ∈ wire_codes.
Proof.
  unfold resp_ok, status_ok, redirect_ok. intros [Hs%bool_decide_eq_true Hr]%andb_prop.
  destruct resp as [t|ep args|code msg|code body|code v|exn]; try by apply status_codes_wire.
  apply andb_prop in Hr as [_ Hu]. simpl. destruct (url_for ep args); [|discriminate].
  simpl. wire_code.
Qed.

Section WireStatus.
Context `{PasswordContext} `{TimedSerializer} `{OAuthVerifier} `{SessionSerializer}.
Context (cfg : Config).

(** C20: The answers on the wire.  Every answer the deployed server (the
    cookie server of [Cookie]) sends to a request for any URL, from any
    client with any cookie, with any method, on any database, has one of
    the statuses 200, 301, 302, 400, 401, 404, 405 and 500: the router's
    301, 404 and 405, the views' answers, and the 302 of their redirects.
    None is the 201 [new_user] means to give. *)
Theorem fetch_status_known w c url r : wire_status (fetch (cserve cfg) w c url r).2 ∈ wire_codes.
Proof.
  unfold fetch. destruct (resolve url) as [rt|loc|]; [|destruct (resolve loc) as [rt| |]|];
    try (simpl; wire_code).
  - unfold cserve. pose proof (dispatch_resp_ok cfg rt (with_query_args (split_query url).2 r) (cw_db w)
      (open_session (req_now (with_query_args (split_query url).2 r)) (cw_jar w !! c))) as Hok.
    destruct (run_view _ _ _) as [[db' ss'] resp]. by apply finalize_ok.
  - unfold slash_redirect. repeat case_bool_decide; simpl; wire_code.
Qed.

End WireStatus.

(** A logged-in browser posts the new-item form to [/catalog/items/new],
    without the rule's trailing slash: under [app.debug] the router's
    redirect becomes [FormDataRoutingRedirect], an uncaught exception, and
    no item is created.  A GET of the same URL is redirected (301) to the
    form page, which it then shows; a PUT is a 405. *)
Lemma new_item_without_slash :
  let w := mkWorld demo_db {[1%nat := alice_session]} in
  visit (serve demo_cfg) 2 w 1 "/catalog/items/new" (form_req POST (lamp_form "Chess")) =
    (w, WPage (ServerError "FormDataRoutingRedirect")) /\
  (visit (serve demo_cfg) 0 w 1 "/catalog/items/new" (form_req GET [])).2 =
    WMoved 301 "/catalog/items/new/" /\
  (visit (serve demo_cfg) 1 w 1 "/catalog/items/new" (form_req GET [])).2 =
    WPage (Render (TNewItem (db_categories demo_db))) /\
  (visit (serve demo_cfg) 2 w 1 "/catalog/items/new" (form_req PUT [])).2 =
    WPage (Text 405 "Method Not Allowed").
Proof. vm_compute. repeat split. Qed.
