(* ===== verification/Startup.v ===== *)
(** * Start-up and deployment: the module-level code

    Before the server answers a request the process runs the module-level
    code of the two files:
    - [database_setup.py] draws [secret_key], 32 characters of
      [string.ascii_uppercase + string.digits] chosen by [random.choice]
      (the key itsdangerous signs the API tokens with);
    - [project.py] reads [CLIENT_ID] as
      [json.loads(open("client_secrets.json").read())["web"]["client_id"]];
    - under [__main__] it sets [app.debug = True] and runs the development
      server on [0.0.0.0], port 5000.

    [startup] is that code on a parsed [client_secrets.json] and on the
    draws of [random]: it gives the [App.Config] the views run with, or the
    exception start-up raises.  [deployed] is what the development server
    sends for a view's answer: with [debug] on, an uncaught exception is
    werkzeug's debugger page, which shows the traceback and the source
    around each frame.  The theorems: the outcomes of start-up, and that
    any visitor, with no account and no session, obtains such a page. *)

From S2P Require Import Prelude Crypto Schema Http Auth Api Pages App.
From stdpp Require Import gmap.
Local Open Scope Z_scope.
Local Open Scope catalog_scope.

(** ** Reading [client_secrets.json] *)

(** Python's [v[k]] on a value [json.loads] returned.  An object is a
    [dict], which keeps the last of repeated keys; [v[k]] on a list, a
    string, a number, a boolean or [None] raises [TypeError]. *)
Definition py_getitem (v : JVal) (k : string) : JVal + string :=
  match v with
  | JObj fields =>
      match List.find (fun kv : string * JVal => String.eqb kv.1 k) (rev fields) with
      | Some kv => inl kv.2
      | None => inr "KeyError"
      end
  | _ => inr "TypeError"
  end.

(** [json.loads(...)["web"]["client_id"]] *)
Definition client_id_of (secrets : JVal) : JVal + string :=
  match py_getitem secrets "web" with
  | inl web => py_getitem web "client_id"
  | inr exn => inr exn
  end.

(** [database_setup.secret_key] *)
Definition setup_secret_key (draws : nat -> nat) : string := random_token draws.

(** The outcome of start-up.  A [CLIENT_ID] that is not a JSON string
    does not stop start-up; the model's [Config] holds a string, so that
    case is kept apart. *)
Inductive Boot :=
| Booted (cfg : Config)
| Boot_failed (exn : string)
| Boot_untyped (client_id : JVal).

(** [import database_setup] runs first (line 7), then line 18. *)
Definition startup (secrets : JVal) (draws : nat -> nat) : Boot :=
  let key := setup_secret_key draws in
  match client_id_of secrets with
  | inl (JStr cid) => Booted (mkConfig key cid)
  | inl v => Boot_untyped v
  | inr exn => Boot_failed exn
  end.

(** ** The development server *)

(** [app.debug], [OAUTHLIB_INSECURE_TRANSPORT] and [app.run(host, port)]. *)
Record RunOptions := mkRunOptions {
  run_debug : bool;
  run_insecure_transport : bool;
  run_host : string;
  run_port : Z;
}.

(** The [__main__] block. *)
Definition main_options : RunOptions := mkRunOptions true true "0.0.0.0" 5000.

(** What goes on the wire for a view's answer: an uncaught exception is
    werkzeug's debugger page with its traceback when [debug] is on, and
    Flask's generic [500 Internal Server Error] otherwise. *)
Inductive Served := Sent (resp : Response) | Traceback_page (exn : string) | Internal_error.

Definition deployed (opts : RunOptions) (resp : Response) : Served :=
  match resp with
  | ServerError exn => if run_debug opts then Traceback_page exn else Internal_error
  | _ => Sent resp
  end.

(** ** Lemmas *)

(** [v[k]] on an object whose last field named [k] holds [x]. *)
Lemma py_getitem_last pre k x post :
  k ∉ map fst post -> py_getitem (JObj (pre ++ (k, x) :: post)) k = inl x.
Proof.
  intros Hk. simpl. rewrite rev_app_distr. simpl. rewrite <- app_assoc. simpl.
  rewrite find_app. replace (List.find _ (rev post)) with (@None (string * JVal)).
  - simpl. by rewrite String.eqb_refl.
  - symmetry. apply (find_eqb_None fst). rewrite list_elem_of_In, in_map_iff in Hk |- *.
    intros (y & Hy & Hin). apply Hk. exists y. split; [done|]. by apply in_rev.
Qed.

Lemma py_getitem_missing fields k : k ∉ map fst fields -> py_getitem (JObj fields) k = inr "KeyError".
Proof.
  intros Hk. simpl. replace (List.find _ (rev fields)) with (@None (string * JVal)); [done|].
  symmetry. apply (find_eqb_None fst). rewrite list_elem_of_In, in_map_iff in Hk |- *.
  intros (y & Hy & Hin). apply Hk. exists y. split; [done|]. by apply in_rev.
Qed.

(** C25: Start-up reads [CLIENT_ID] from the file's structure.  A file
    whose last [web] object has [client_id] [cid] as the last of that name
    (the keys before it, repeated or not, do not matter) boots with
    [CLIENT_ID = cid] and an itsdangerous key of 32 characters of
    [A-Z0-9], the characters the draws pick; a file with no [web] key, or
    whose last [web] object has no [client_id], stops start-up with
    KeyError; a [web] value that is a list, a string, a number, a boolean
    or [null] stops it with TypeError. *)
Theorem startup_reads_client_id pre web_pre cid web_post post draws :
  "web" ∉ map fst post -> "client_id" ∉ map fst web_post ->
  let cfg := mkConfig (random_token draws) cid in
  startup (JObj (pre ++ ("web", JObj (web_pre ++ ("client_id", JStr cid) :: web_post)) :: post)) draws =
    Booted cfg /\
  length (String.list_ascii_of_string (cfg_secret_key cfg)) = 32%nat /\
  Forall (fun ch => In ch (String.list_ascii_of_string token_alphabet))
         (String.list_ascii_of_string (cfg_secret_key cfg)) /\
  (forall fields, "web" ∉ map fst fields -> startup (JObj fields) draws = Boot_failed "KeyError") /\
  (forall web, "client_id" ∉ map fst web ->
     startup (JObj (pre ++ ("web", JObj web) :: post)) draws = Boot_failed "KeyError") /\
  (forall v, (forall fields, v <> JObj fields) ->
     startup (JObj (pre ++ ("web", v) :: post)) draws = Boot_failed "TypeError").
Proof.
  intros Hw Hc. destruct (random_token_chars draws) as (_ & Hl & Hf). unfold startup, client_id_of.
  rewrite !py_getitem_last by done. split; [done|]. split; [done|]. split; [done|].
  split; [|split].
  - intros fields Hn. by rewrite py_getitem_missing.
  - intros web Hn. rewrite py_getitem_last by done. by rewrite py_getitem_missing.
  - intros v Hv. rewrite py_getitem_last by done. destruct v; try done. by destruct (Hv fields).
Qed.

Section Deployment.
Context `{PasswordContext} `{TimedSerializer} `{OAuthVerifier}.

(** C24: Tracebacks for any visitor.  The server runs with
    [app.debug = True] on every interface, so an uncaught exception sends
    werkzeug's traceback page.  A visitor with no account and no session
    obtains one with a single POST: to [/users/] without a JSON body
    ([request.json] is [None], and [None.get] raises AttributeError), or to
    [/gconnect] before the home page stored a state ([login_session["state"]]
    raises KeyError).  Neither request changes the database. *)
Theorem visitor_gets_traceback cfg w c r :
  req_method r = POST ->
  (req_json r = None ->
     deployed main_options (serve cfg w c R_users r).2 = Traceback_page "AttributeError" /\
     w_db (serve cfg w c R_users r).1 = w_db w) /\
  (ls_state (session_of w c) = None ->
     deployed main_options (serve cfg w c R_gconnect r).2 = Traceback_page "KeyError" /\
     w_db (serve cfg w c R_gconnect r).1 = w_db w).
Proof.
  intros Hm. unfold serve. rewrite !dispatch_view by (rewrite Hm; simpl; set_solver).
  split; intros Hr; simpl; [unfold new_user|unfold gconnect]; vsimp; rewrite Hr; vsimp; done.
Qed.

End Deployment.

(** ** Examples *)

(** The file Google's console gives, and files start-up stops on. *)
Definition demo_secrets : JVal :=
  JObj [("web", JObj [("client_id", JStr "123.apps.googleusercontent.com");
                      ("client_secret", JStr "s3cr3t")])].

Lemma startup_examples :
  startup demo_secrets (fun _ => 0%nat) = Booted (mkConfig demo_state "123.apps.googleusercontent.com") /\
  startup (JObj [("installed", JObj [])]) (fun _ => 0%nat) = Boot_failed "KeyError" /\
  startup (JObj [("web", JList [])]) (fun _ => 0%nat) = Boot_failed "TypeError" /\
  startup (JObj [("web", JObj [("client_id", JNum 7)])]) (fun _ => 0%nat) = Boot_untyped (JNum 7) /\
  client_id_of (JObj [("web", JObj [("client_id", JStr "a")]); ("web", JObj [("client_id", JStr "b")])]) =
    inl (JStr "b").
Proof. vm_compute. repeat split. Qed.

(** A visitor's first request, a POST to [/users/] with a form instead of
    JSON, gets the traceback page from a fresh server. *)
Lemma visitor_gets_traceback_witness :
  req_method (form_req POST [("username", "eve")]) = POST /\
  deployed main_options (serve demo_cfg init_world 7 R_users (form_req POST [("username", "eve")])).2 =
    Traceback_page "AttributeError".
Proof.
  split; [reflexivity|].
  apply (proj1 (proj1 (visitor_gets_traceback demo_cfg init_world 7 (form_req POST [("username", "eve")])
                         eq_refl) eq_refl)).
Defined.

(** The console's file, with a [web] object that an earlier key of the
    same name precedes. *)
Lemma startup_reads_client_id_witness :
  ("web" ∉ map fst (@nil (string * JVal))) /\
  ("client_id" ∉ map fst [("client_secret", JStr "s3cr3t")]) /\
  startup (JObj [("web", JNull); ("web", JObj [("client_id", JStr "123.apps.googleusercontent.com");
                                              ("client_secret", JStr "s3cr3t")])]) (fun _ => 0%nat) =
    Booted (mkConfig (random_token (fun _ => 0%nat)) "123.apps.googleusercontent.com").
Proof.
  split; [by_decide|]. split; [by_decide|].
  exact (proj1 (startup_reads_client_id [("web", JNull)] [] "123.apps.googleusercontent.com"
                  [("client_secret", JStr "s3cr3t")] [] (fun _ => 0%nat) ltac:(by_decide) ltac:(by_decide))).
Defined.
