(* ===== verification/CookieBrowser.v ===== *)
(** * A browser on the cookie server

    [Browser] puts a browser in front of any server.  In front of
    [Cookie.cserve], whose clients carry their session in a signed cookie,
    it sees the same pages and redirects as in front of [App.serve], which
    keeps the sessions: the simulation [Cookie.cookie_sim] of one request
    ([Cookie.cserve_sim]) carries over every request of a visit by
    [Browser.visit_sim], since the requests of a visit share the clock of
    the first. *)

From S2P Require Import Prelude Crypto Schema Http Auth Api Pages App Url Cookie Answers Browser.
From stdpp Require Import gmap.
Local Open Scope Z_scope.
Local Open Scope catalog_scope.

Section CookieBrowser.
Context `{PasswordContext} `{TimedSerializer} `{OAuthVerifier} `{SessionSerializer}.
Context (cfg : Config).

Lemma cookie_sim_later tmin tmax now w cw :
  cookie_sim tmin tmax w cw -> tmax <= now -> cookie_sim tmin now w cw.
Proof.
  intros [Hdb Hj] Ht. split; [done|]. intros c. specialize (Hj c).
  destruct (cw_jar cw !! c); [|done]. destruct Hj as (t & ? & ->). exists t. split; [lia|done].
Qed.

(** Refinement of the browser on the session-store server by the
    browser on the cookie server.  Within one session lifetime of the
    cookies' signing times, a visit to any URL, following any number of
    redirects, gets the same answer from the server whose clients carry
    their session in a cookie signed with [app.secret_key] as from the
    server that keeps the sessions, and leaves the two servers related, so
    that the next visit agrees too. *)
Theorem cookie_browser_refines tmin now w cw c url r fuel :
  cookie_sim tmin now w cw -> tmin <= now <= tmin + PERMANENT_SESSION_LIFETIME -> req_now r = now ->
  (visit (cserve cfg) fuel cw c url r).2 = (visit (serve cfg) fuel w c url r).2 /\
  cookie_sim tmin now (visit (serve cfg) fuel w c url r).1 (visit (cserve cfg) fuel cw c url r).1.
Proof.
  intros Hs Ht Hr.
  destruct (visit_sim (serve cfg) (cserve cfg) (cookie_sim tmin now) (fun r' => req_now r' = now))
    with (fuel := fuel) (w1 := w) (w2 := cw) (c := c) (url := url) (r := r) as [He HR]; auto.
  - intros w1 w2 c' rt r' HR HP.
    destruct (cserve_sim cfg tmin now w1 w2 c' rt r' HR ltac:(lia) ltac:(lia)) as [He HR'].
    rewrite HP in HR'. auto.
  - intros code r' HP. unfold redirected. by case_if.
Qed.

End CookieBrowser.

(** A new visitor opens [/catalog] on both servers: the strict-slash 308
    and then the home page, the same on both. *)
Lemma cookie_browser_refines_witness :
  cookie_sim 100 100 init_world cinit_world /\
  100 <= 100 <= 100 + PERMANENT_SESSION_LIFETIME /\ req_now (form_req GET []) = 100 /\
  (visit (cserve demo_cfg) 2 cinit_world 1 "/catalog" (form_req GET [])).2 =
    (visit (serve demo_cfg) 2 init_world 1 "/catalog" (form_req GET [])).2.
Proof.
  assert (Ht : 100 <= 100 <= 100 + PERMANENT_SESSION_LIFETIME) by (unfold PERMANENT_SESSION_LIFETIME; lia).
  split; [apply init_cookie_sim|]. split; [exact Ht|]. split; [reflexivity|].
  exact (proj1 (cookie_browser_refines demo_cfg 100 100 init_world cinit_world 1 "/catalog" (form_req GET []) 2
                  (init_cookie_sim 100) Ht eq_refl)).
Defined.
